(** * constructor: package-set finalisation (fcp.py) and installer assembly (shar.py)

    A shallow embedding of the two modules of [constructor] that decide the
    package set and assemble the self-extracting installer, with the
    properties of the specification proved (or refuted) on it.

    Conventions of the embedding
    - a Python [str] is a [list ascii]; an [ascii] stands for a code point
      below 256, so that [encode('utf-8')] can be written out (one byte below
      128, two bytes from 128 on);
    - Python integers (file sizes, lengths, offsets) are [N];
    - [sys.exit], a failing [assert] and an uncaught exception end the build:
      functions that can end it return a [result];
    - module-level mutable containers ([dists], [index], [urls], [md5s]) are
      passed explicitly. *)

From Stdlib Require Import Ascii String NArith List Lia Bool Arith.
From stdpp Require Import base option list strings gmap sorting.

Local Open Scope N_scope.
Local Open Scope nat_scope.

(** ** Python strings *)

Module PyStr.

Abbreviation str := (list ascii).

(** A literal: [py "abc"] is the Python string ['abc']. *)
Definition py (s : string) : str := list_ascii_of_string s.

Arguments py : simpl never.

(** [len(s)] as a Python integer. *)
Definition len (s : str) : N := N.of_nat (length s).

(** [s.startswith(p)]. *)
Fixpoint startswith (p s : str) : bool :=
  match p, s with
  | [], _ => true
  | _ :: _, [] => false
  | a :: p', b :: s' => if Ascii.eqb a b then startswith p' s' else false
  end.

(** [s.endswith(p)]. *)
Definition endswith (p s : str) : bool := startswith (rev p) (rev s).

(** [s.replace(old, new)]: the occurrences of [old] are found from the left
    and do not overlap; [skip] counts the characters of the current
    occurrence that are still to be dropped.  An empty [old] occurs before
    every character and at the end. *)
Fixpoint replace_go (old new : str) (skip : nat) (s : str) : str :=
  match s with
  | [] => []
  | c :: s' =>
      match skip with
      | S k => replace_go old new k s'
      | O =>
          if startswith old s
          then new ++ replace_go old new (length old - 1) s'
          else c :: replace_go old new 0 s'
      end
  end.

Definition replace (s old new : str) : str :=
  match old with
  | [] => new ++ flat_map (fun c => c :: new) s
  | _ => replace_go old new 0 s
  end.

(** [s.count(old)]: the number of occurrences that [replace] substitutes. *)
Fixpoint count_go (old : str) (skip : nat) (s : str) : nat :=
  match s with
  | [] => 0
  | _ :: s' =>
      match skip with
      | S k => count_go old k s'
      | O =>
          if startswith old s
          then S (count_go old (length old - 1) s')
          else count_go old 0 s'
      end
  end.

Definition count (s old : str) : nat :=
  match old with
  | [] => S (length s)
  | _ => count_go old 0 s
  end.

(** Decimal digits.  [str(n)] for a non-negative integer: the fuel is the
    number of binary digits of [n], never fewer than its decimal digits. *)
Definition digit (d : N) : ascii := ascii_of_N (48 + d).

Fixpoint str_go (fuel : nat) (n : N) (acc : str) : str :=
  match fuel with
  | O => acc
  | S f =>
      let acc' := digit (n mod 10) :: acc in
      if (n <? 10)%N then acc' else str_go f (n / 10) acc'
  end.

Definition str_of_int (n : N) : str := str_go (S (N.to_nat (N.log2 n))) n [].

(** ['%0<w>d' % n] for a non-negative [n]: zeros on the left up to width
    [w], nothing cut when [n] needs more than [w] digits. *)
Definition fmt_0d (w : nat) (n : N) : str :=
  let s := str_of_int n in replicate (w - length s) "0"%char ++ s.

(** [s.lower()] on the ASCII letters. *)
Definition lower_char (c : ascii) : ascii :=
  let n := N_of_ascii c in
  if ((65 <=? n) && (n <=? 90))%N then ascii_of_N (n + 32) else c.

Definition lower (s : str) : str := map lower_char s.

(** [sep.join(parts)]. *)
Fixpoint join (sep : str) (parts : list str) : str :=
  match parts with
  | [] => []
  | [p] => p
  | p :: ps => p ++ sep ++ join sep ps
  end.

(** [header.encode('utf-8')]: a code point below 128 is one byte, one from
    128 to 255 is two bytes. *)
Definition utf8_char (c : ascii) : list N :=
  let n := N_of_ascii c in
  if (n <? 128)%N then [n] else [192 + n / 64; 128 + n mod 64]%N.

Definition encode_utf8 (s : str) : list N := flat_map utf8_char s.

Definition is_ascii (s : str) : bool :=
  forallb (fun c => (N_of_ascii c <? 128)%N) s.

(** Whitespace as [str.isspace], [str.strip] and the class [\s] of [re]
    see it on a Python 3 [str], for the code points below 256. *)
Definition is_space (c : ascii) : bool :=
  let n := N_of_ascii c in
  ((9 <=? n) && (n <=? 13) || (28 <=? n) && (n <=? 32)
   || (n =? 133) || (n =? 160))%N.

(** [s.lstrip()], [s.rstrip()] and [s.strip()]. *)
Fixpoint lstrip (s : str) : str :=
  match s with
  | c :: s' => if is_space c then lstrip s' else s
  | [] => []
  end.

Definition rstrip (s : str) : str := rev (lstrip (rev s)).

Definition strip (s : str) : str := rstrip (lstrip s).

(** [s.rstrip(chars)] for a single character. *)
Fixpoint lstrip_char (x : ascii) (s : str) : str :=
  match s with
  | c :: s' => if Ascii.eqb c x then lstrip_char x s' else s
  | [] => []
  end.

Definition rstrip_char (x : ascii) (s : str) : str := rev (lstrip_char x (rev s)).

(** [x in s] for a character [x]. *)
Definition contains_char (x : ascii) (s : str) : bool :=
  existsb (Ascii.eqb x) s.

(** [s.split()]: the maximal runs of characters that are not whitespace.
    [cur] is the run being read, reversed. *)
Fixpoint split_go (cur : str) (s : str) : list str :=
  match s with
  | [] => match cur with [] => [] | _ => [rev cur] end
  | c :: s' =>
      if is_space c
      then match cur with [] => split_go [] s' | _ => rev cur :: split_go [] s' end
      else split_go (c :: cur) s'
  end.

Definition split (s : str) : list str := split_go [] s.

(** [s.rsplit(sep, 1)] for a single character [sep]: the text before the
    last [sep] and the text after it, or nothing when [sep] does not occur. *)
Fixpoint rsplit1 (sep : ascii) (s : str) : option (str * str) :=
  match s with
  | [] => None
  | c :: s' =>
      match rsplit1 sep s' with
      | Some (a, b) => Some (c :: a, b)
      | None => if Ascii.eqb c sep then Some ([], s') else None
      end
  end.

(** [s.rsplit(sep, 2)]: at most two cuts, from the right. *)
Definition rsplit2 (sep : ascii) (s : str) : list str :=
  match rsplit1 sep s with
  | None => [s]
  | Some (a, c) =>
      match rsplit1 sep a with
      | None => [a; c]
      | Some (a', b) => [a'; b; c]
      end
  end.

(** [os.path.join(a, b)] on POSIX. *)
Definition path_join (a b : str) : str :=
  if startswith (py "/") b then b
  else if (Nat.eqb (length a) 0) || endswith (py "/") a then a ++ b
  else a ++ py "/" ++ b.

(** [os.path.basename(p)] on POSIX. *)
Definition basename (p : str) : str :=
  match rsplit1 "/"%char p with
  | Some (_, b) => b
  | None => p
  end.

(** *** Facts about [startswith], [replace] and [count] *)

Lemma startswith_length p s : startswith p s = true -> length p <= length s.
Proof.
  revert s; induction p as [|a p IH]; intros [|b s]; simpl; try lia; try discriminate.
  destruct (Ascii.eqb a b); [|discriminate].
  intros H; apply IH in H; lia.
Qed.

Lemma startswith_app p s : startswith p (p ++ s) = true.
Proof.
  induction p as [|a p IH]; simpl; [reflexivity|].
  now rewrite Ascii.eqb_refl.
Qed.

Lemma startswith_spec p s : startswith p s = true <-> exists t, s = p ++ t.
Proof.
  split.
  - revert s; induction p as [|a p IH]; intros s H.
    + now exists s.
    + destruct s as [|b s]; simpl in H; [discriminate|].
      destruct (Ascii.eqb_spec a b) as [->|]; [|discriminate].
      destruct (IH _ H) as [t ->]; now exists t.
  - intros [t ->]; apply startswith_app.
Qed.

(** The length bookkeeping of one [replace]: every occurrence trades
    [length old] characters for [length new]. *)
Lemma replace_go_length old new k s :
  old <> [] ->
  length (replace_go old new k s) + count_go old k s * length old + min k (length s)
  = length s + count_go old k s * length new.
Proof.
  intros Hold.
  assert (Hlo : 1 <= length old) by (destruct old; simpl; [congruence|lia]).
  revert k; induction s as [|c s IH]; intros k; [simpl; lia|].
  destruct k as [|k].
  - cbn [replace_go count_go].
    destruct (startswith old (c :: s)) eqn:Hp.
    + apply startswith_length in Hp; simpl in Hp.
      specialize (IH (length old - 1)).
      rewrite length_app; simpl length. nia.
    + specialize (IH 0); simpl in *; lia.
  - cbn [replace_go count_go]. specialize (IH k); simpl; lia.
Qed.

Lemma replace_length s old new :
  old <> [] ->
  length (replace s old new) + count s old * length old
  = length s + count s old * length new.
Proof.
  intros H. pose proof (replace_go_length old new 0 s H) as E.
  unfold replace, count. destruct old as [|a old']; [congruence|].
  rewrite Nat.min_0_l in E. lia.
Qed.

(** A replacement of the placeholder's own length keeps the length. *)
Lemma replace_same_length s old new :
  old <> [] -> length new = length old ->
  length (replace s old new) = length s.
Proof.
  intros H E. pose proof (replace_length s old new H). rewrite E in *. lia.
Qed.

Lemma replace_go_absent old new k s :
  count_go old k s = 0 -> replace_go old new k s = drop k s.
Proof.
  revert k; induction s as [|c s IH]; intros k; [now destruct k|].
  destruct k as [|k]; cbn [replace_go count_go].
  - destruct (startswith old (c :: s)); [discriminate|].
    intros H. rewrite (IH 0 H). reflexivity.
  - intros H. now rewrite (IH k H).
Qed.

(** Without an occurrence, [replace] returns its argument. *)
Lemma replace_absent s old new : count s old = 0 -> replace s old new = s.
Proof.
  unfold replace, count. destruct old; [discriminate|].
  intros H. now rewrite replace_go_absent.
Qed.

(** *** Facts about the decimal rendering *)

Lemma pow10_pos k : (0 < 10 ^ N.of_nat k)%N.
Proof. apply N.neq_0_lt_0, N.pow_nonzero. discriminate. Qed.

Lemma str_go_length fuel : forall n acc k,
  fuel <> 0 ->
  (n < 2 ^ N.of_nat fuel)%N ->
  (n < 10 ^ N.of_nat (S k))%N ->
  k = 0 \/ (10 ^ N.of_nat k <= n)%N ->
  length (str_go fuel n acc) = S k + length acc.
Proof.
  induction fuel as [|f IH]; intros n acc k Hne Hf Hk Hlo; [congruence|].
  cbn [str_go]. destruct (N.ltb_spec n 10) as [Hlt|Hge].
  - assert (k = 0) as ->.
    { destruct Hlo as [->|Hlo]; [reflexivity|].
      destruct k as [|k]; [reflexivity|].
      exfalso. rewrite Nat2N.inj_succ, N.pow_succ_r' in Hlo.
      pose proof (pow10_pos k). lia. }
    reflexivity.
  - destruct k as [|k].
    { exfalso. change (10 ^ N.of_nat 1)%N with 10%N in Hk. lia. }
    assert (Hq : (1 <= n / 10)%N) by (apply N.div_le_lower_bound; lia).
    assert (Hqf : (n / 10 < 2 ^ N.of_nat f)%N).
    { rewrite Nat2N.inj_succ, N.pow_succ_r' in Hf.
      apply N.Div0.div_lt_upper_bound. lia. }
    rewrite (IH (n / 10)%N _ k); [simpl; lia| | | |].
    + intros ->. change (2 ^ N.of_nat 0)%N with 1%N in Hqf. lia.
    + exact Hqf.
    + rewrite (Nat2N.inj_succ (S k)), N.pow_succ_r' in Hk.
      apply N.Div0.div_lt_upper_bound. lia.
    + right. apply N.div_le_lower_bound; [lia|].
      destruct Hlo as [Hlo|Hlo]; [discriminate|].
      now rewrite Nat2N.inj_succ, N.pow_succ_r' in Hlo.
Qed.

Lemma fuel_enough n : (n < 2 ^ N.of_nat (S (N.to_nat (N.log2 n))))%N.
Proof.
  rewrite Nat2N.inj_succ, N2Nat.id.
  destruct (N.eq_dec n 0%N) as [->|Hn]; [reflexivity|].
  apply N.log2_spec; lia.
Qed.

(** [str(n)] has exactly [k+1] digits when [10^k <= n < 10^(k+1)]
    (and one digit for [0]). *)
Lemma str_of_int_length n k :
  (n < 10 ^ N.of_nat (S k))%N ->
  k = 0 \/ (10 ^ N.of_nat k <= n)%N ->
  length (str_of_int n) = S k.
Proof.
  intros H1 H2. unfold str_of_int.
  rewrite (str_go_length _ n [] k (Nat.neq_succ_0 _) (fuel_enough n) H1 H2). simpl; lia.
Qed.

Lemma str_of_int_nonempty n : 1 <= length (str_of_int n).
Proof.
  unfold str_of_int. cbn [str_go].
  destruct (n <? 10)%N; [simpl; lia|].
  generalize (N.to_nat (N.log2 n)) (n / 10)%N (digit (n mod 10)).
  intros f; induction f as [|f IH]; intros m d; [simpl; lia|].
  cbn [str_go]. destruct (m <? 10)%N; [simpl; lia|].
  assert (G : forall f m acc, length acc <= length (str_go f m acc)).
  { clear. induction f as [|f IH]; intros m acc; [simpl; lia|].
    cbn [str_go]. destruct (m <? 10)%N; [simpl; lia|].
    etransitivity; [|apply IH]. simpl; lia. }
  etransitivity; [|apply G]. simpl; lia.
Qed.

(** The number of decimal digits is monotone: below [10^w], at most [w]. *)
Lemma str_of_int_length_le n w :
  w <> 0 -> (n < 10 ^ N.of_nat w)%N -> length (str_of_int n) <= w.
Proof.
  intros Hw. destruct w as [|w]; [congruence|clear Hw].
  revert n; induction w as [|w IH]; intros n Hn.
  - rewrite (str_of_int_length n 0); [lia|exact Hn|now left].
  - destruct (N.lt_ge_cases n (10 ^ N.of_nat (S w))) as [Hlt|Hge].
    + specialize (IH n Hlt). lia.
    + rewrite (str_of_int_length n (S w)); [lia|exact Hn|now right].
Qed.

(** A value that fits the width is rendered on exactly that width. *)
Lemma fmt_0d_length w n :
  w <> 0 -> (n < 10 ^ N.of_nat w)%N -> length (fmt_0d w n) = w.
Proof.
  intros Hw H. unfold fmt_0d. rewrite length_app, length_replicate.
  pose proof (str_of_int_length_le n w Hw H). lia.
Qed.

(** In general the rendering is as wide as the larger of the two. *)
Lemma fmt_0d_length_max w n :
  length (fmt_0d w n) = Nat.max w (length (str_of_int n)).
Proof. unfold fmt_0d. rewrite length_app, length_replicate. lia. Qed.

(** UTF-8: an ASCII-only string is as many bytes as characters. *)
Lemma encode_utf8_ascii s :
  is_ascii s = true -> length (encode_utf8 s) = length s.
Proof.
  induction s as [|c s IH]; [reflexivity|].
  unfold is_ascii, encode_utf8 in *. cbn [forallb flat_map].
  intros H. apply andb_prop in H as [Hc Hs].
  rewrite length_app, (IH Hs). unfold utf8_char. rewrite Hc. reflexivity.
Qed.

Lemma encode_utf8_length_ge s : length s <= length (encode_utf8 s).
Proof.
  induction s as [|c s IH]; [reflexivity|].
  unfold encode_utf8 in *. cbn [flat_map]. rewrite length_app.
  assert (1 <= length (utf8_char c)); [|simpl; lia].
  unfold utf8_char. destruct (_ <? _)%N; simpl; lia.
Qed.

End PyStr.

(** ** The part of [re] that fcp.py uses

    A backtracking matcher in continuation-passing style: a greedy
    quantifier tries its longest match first and gives characters back when
    the rest of the pattern fails, as [re] does.  The groups that took part
    in the match are kept by name. *)

Module PyRe.
Import PyStr.

Inductive regex : Type :=
| Chr (p : ascii -> bool)               (** one character of a class *)
| Cat (r1 r2 : regex)                   (** [r1 r2] *)
| Opt (r : regex)                       (** [r?] *)
| Plus (p : ascii -> bool)              (** [[class]+] *)
| Times (n : nat) (p : ascii -> bool)   (** [[class]{n}] *)
| Group (name : string) (r : regex)     (** [(?P<name>r)] *)
| Dollar.                               (** [$] *)

Abbreviation groups := (list (string * str)).

(** After one character of the class: as many more as possible, then the
    rest of the pattern; one character fewer each time the rest fails. *)
Fixpoint more_greedy {A} (p : ascii -> bool) (s : str) (k : str -> option A)
  : option A :=
  match s with
  | c :: s' =>
      if p c
      then match more_greedy p s' k with
           | Some r => Some r
           | None => k s
           end
      else k s
  | [] => k s
  end.

Definition plus_greedy {A} (p : ascii -> bool) (s : str) (k : str -> option A)
  : option A :=
  match s with
  | c :: s' => if p c then more_greedy p s' k else None
  | [] => None
  end.

Fixpoint exactly {A} (n : nat) (p : ascii -> bool) (s : str) (k : str -> option A)
  : option A :=
  match n with
  | O => k s
  | S n' =>
      match s with
      | c :: s' => if p c then exactly n' p s' k else None
      | [] => None
      end
  end.

(** [$] matches at the end of the string and before a newline that ends it. *)
Definition at_end (s : str) : bool :=
  match s with
  | [] => true
  | [c] => Ascii.eqb c "010"%char
  | _ => false
  end.

Fixpoint rmatch (r : regex) (s : str) (g : groups)
  (k : str -> groups -> option groups) : option groups :=
  match r with
  | Chr p =>
      match s with
      | c :: s' => if p c then k s' g else None
      | [] => None
      end
  | Cat r1 r2 => rmatch r1 s g (fun s1 g1 => rmatch r2 s1 g1 k)
  | Opt r1 =>
      match rmatch r1 s g k with
      | Some m => Some m
      | None => k s g
      end
  | Plus p => plus_greedy p s (fun s1 => k s1 g)
  | Times n p => exactly n p s (fun s1 => k s1 g)
  | Group name r1 =>
      rmatch r1 s g
        (fun s1 g1 => k s1 ((name, take (length s - length s1) s) :: g1))
  | Dollar => if at_end s then k s g else None
  end.

(** [pattern.match(s)]: the pattern is tried at the start of [s] and need
    not reach its end. *)
Definition re_match (r : regex) (s : str) : option groups :=
  rmatch r s [] (fun _ g => Some g).

(** [m.group(name)]: [None] for a group that took no part in the match. *)
Fixpoint group (m : groups) (name : string) : option str :=
  match m with
  | [] => None
  | (n, v) :: m' => if String.eqb n name then Some v else group m' name
  end.

(** The character classes of [url_pat]. *)
Definition is_char (x c : ascii) : bool := Ascii.eqb c x.
Definition not_space (c : ascii) : bool := negb (is_space c).
Definition fn_char (c : ascii) : bool :=
  negb (is_space c || Ascii.eqb c "#"%char || Ascii.eqb c "/"%char).
Definition hex_lower (c : ascii) : bool :=
  let n := N_of_ascii c in
  ((48 <=? n) && (n <=? 57) || (97 <=? n) && (n <=? 102))%N.

(** *** What a pattern matches

    [lang r s g s' g']: the pattern [r] matches a prefix of [s], [s'] is
    what follows the prefix, and the groups [g] become [g'].  The matcher
    finds a match exactly when there is one that the rest of the pattern
    accepts. *)
Fixpoint lang (r : regex) (s : str) (g : groups) (s' : str) (g' : groups) : Prop :=
  match r with
  | Chr p => exists c, s = c :: s' /\ p c = true /\ g' = g
  | Cat r1 r2 => exists s1 g1, lang r1 s g s1 g1 /\ lang r2 s1 g1 s' g'
  | Opt r1 => lang r1 s g s' g' \/ (s' = s /\ g' = g)
  | Plus p => exists a, s = a ++ s' /\ a <> [] /\ Forall (fun c => p c = true) a /\ g' = g
  | Times n p =>
      exists a, s = a ++ s' /\ length a = n /\ Forall (fun c => p c = true) a /\ g' = g
  | Group name r1 =>
      exists g1, lang r1 s g s' g1 /\ g' = (name, take (length s - length s') s) :: g1
  | Dollar => at_end s = true /\ s' = s /\ g' = g
  end.

Lemma more_greedy_sound {A} p s (k : str -> option A) m :
  more_greedy p s k = Some m ->
  exists a s', s = a ++ s' /\ Forall (fun c => p c = true) a /\ k s' = Some m.
Proof.
  induction s as [|c s IH]; cbn [more_greedy]; intros H.
  - exists [], []. auto.
  - destruct (p c) eqn:Hc; [|exists [], (c :: s); auto].
    destruct (more_greedy p s k) as [m'|] eqn:Hm.
    + injection H as ->. destruct (IH eq_refl) as (a & s' & -> & Ha & Hk).
      exists (c :: a), s'. split; [reflexivity|]. split; [now constructor|exact Hk].
    + exists [], (c :: s). auto.
Qed.

Lemma more_greedy_complete {A} p a s' (k : str -> option A) :
  Forall (fun c => p c = true) a -> is_Some (k s') ->
  is_Some (more_greedy p (a ++ s') k).
Proof.
  induction 1 as [|c a Hc Ha IH]; intros Hk.
  - cbn [app]. destruct s' as [|c s']; [exact Hk|]. cbn [more_greedy].
    destruct (p c); [|exact Hk]. destruct (more_greedy p s' k); [eauto|exact Hk].
  - cbn [app more_greedy]. rewrite Hc.
    destruct (IH Hk) as [m ->]. eauto.
Qed.

Lemma plus_greedy_sound {A} p s (k : str -> option A) m :
  plus_greedy p s k = Some m ->
  exists a s', s = a ++ s' /\ a <> [] /\ Forall (fun c => p c = true) a
               /\ k s' = Some m.
Proof.
  unfold plus_greedy. destruct s as [|c s]; [discriminate|].
  destruct (p c) eqn:Hc; [|discriminate]. intros H.
  destruct (more_greedy_sound _ _ _ _ H) as (a & s' & -> & Ha & Hk).
  exists (c :: a), s'. split; [reflexivity|]. split; [discriminate|].
  split; [now constructor|exact Hk].
Qed.

Lemma plus_greedy_complete {A} p a s' (k : str -> option A) :
  a <> [] -> Forall (fun c => p c = true) a -> is_Some (k s') ->
  is_Some (plus_greedy p (a ++ s') k).
Proof.
  intros Hne Ha Hk. destruct Ha as [|c a Hc Ha]; [congruence|].
  cbn [app plus_greedy]. rewrite Hc. now apply more_greedy_complete.
Qed.

Lemma exactly_sound {A} n p : forall s (k : str -> option A) m,
  exactly n p s k = Some m ->
  exists a s', s = a ++ s' /\ length a = n /\ Forall (fun c => p c = true) a
               /\ k s' = Some m.
Proof.
  induction n as [|n IH]; intros s k m; cbn [exactly].
  - intros H. exists [], s. auto.
  - destruct s as [|c s]; [discriminate|]. destruct (p c) eqn:Hc; [|discriminate].
    intros H. destruct (IH _ _ _ H) as (a & s' & -> & Hl & Ha & Hk).
    exists (c :: a), s'. split; [reflexivity|]. split; [simpl; now rewrite Hl|].
    split; [now constructor|exact Hk].
Qed.

Lemma exactly_complete {A} p a s' (k : str -> option A) :
  Forall (fun c => p c = true) a -> is_Some (k s') ->
  is_Some (exactly (length a) p (a ++ s') k).
Proof.
  induction 1 as [|c a Hc Ha IH]; intros Hk; [exact Hk|].
  cbn [length app exactly]. rewrite Hc. now apply IH.
Qed.

Lemma rmatch_sound r : forall s g k m,
  rmatch r s g k = Some m ->
  exists s' g', lang r s g s' g' /\ k s' g' = Some m.
Proof.
  induction r as [p|r1 IH1 r2 IH2|r1 IH1|p|n p|name r1 IH1|];
    intros s g k m; cbn [rmatch lang].
  - destruct s as [|c s]; [discriminate|]. destruct (p c) eqn:Hc; [|discriminate].
    intros H. exists s, g. split; [now exists c|exact H].
  - intros H. destruct (IH1 _ _ _ _ H) as (s1 & g1 & H1 & H').
    destruct (IH2 _ _ _ _ H') as (s' & g' & H2 & Hk). exists s', g'. eauto.
  - destruct (rmatch r1 s g k) as [m'|] eqn:H1.
    + intros [= ->]. destruct (IH1 _ _ _ _ H1) as (s' & g' & Hl & Hk). eauto.
    + intros H. exists s, g. auto.
  - intros H. destruct (plus_greedy_sound _ _ _ _ H) as (a & s' & -> & Hne & Ha & Hk).
    exists s', g. split; [now exists a|exact Hk].
  - intros H. destruct (exactly_sound _ _ _ _ _ H) as (a & s' & -> & Hl & Ha & Hk).
    exists s', g. split; [now exists a|exact Hk].
  - intros H. destruct (IH1 _ _ _ _ H) as (s' & g1 & Hl & Hk). cbn beta in Hk.
    eexists s', _. split; [exists g1; split; [exact Hl|reflexivity]|exact Hk].
  - destruct (at_end s) eqn:He; [|discriminate]. intros H. exists s, g. auto.
Qed.

Lemma rmatch_complete r : forall s g s' g' k,
  lang r s g s' g' -> is_Some (k s' g') -> is_Some (rmatch r s g k).
Proof.
  induction r as [p|r1 IH1 r2 IH2|r1 IH1|p|n p|name r1 IH1|];
    intros s g s' g' k; cbn [rmatch lang].
  - intros (c & -> & Hc & ->) Hk. now rewrite Hc.
  - intros (s1 & g1 & H1 & H2) Hk. eapply IH1; [exact H1|]. eapply IH2; eassumption.
  - intros [H1|[-> ->]] Hk.
    + destruct (IH1 _ _ _ _ _ H1 Hk) as [m ->]. eauto.
    + destruct (rmatch r1 s g k); [eauto|exact Hk].
  - intros (a & -> & Hne & Ha & ->) Hk. now apply plus_greedy_complete.
  - intros (a & -> & <- & Ha & ->) Hk. now apply exactly_complete.
  - intros (g1 & H1 & ->) Hk. eapply IH1; [exact H1|exact Hk].
  - intros (He & -> & ->) Hk. now rewrite He.
Qed.

(** [pattern.match(s)] succeeds exactly when the pattern matches a prefix
    of [s], and the groups it returns are those of one such match. *)
Lemma re_match_sound r s m :
  re_match r s = Some m -> exists s', lang r s [] s' m.
Proof.
  unfold re_match. intros H.
  destruct (rmatch_sound _ _ _ _ _ H) as (s' & g' & Hl & [= ->]). now exists s'.
Qed.

Lemma re_match_complete r s s' g' :
  lang r s [] s' g' -> is_Some (re_match r s).
Proof. intros H. unfold re_match. eapply rmatch_complete; [exact H|eauto]. Qed.

Lemma re_match_none r s :
  re_match r s = None -> forall s' g', ~ lang r s [] s' g'.
Proof.
  intros H s' g' Hl. destruct (re_match_complete _ _ _ _ Hl) as [m Hm]. congruence.
Qed.

End PyRe.

(** ** How a build ends

    [sys.exit(msg)] carries its message; the other constructors are the
    exceptions that the two modules can let escape. *)

Inductive error : Type :=
| SysExit (msg : PyStr.str)
| AssertionError
| KeyError (key : PyStr.str)
| NameError (name : PyStr.str)
| FileNotFoundError (path : PyStr.str)
| TypeError
| IndexError
| ValueError
| IOError (path : PyStr.str)
| ExternalError (who : PyStr.str).

Inductive result (A : Type) : Type :=
| Ok (a : A)
| Err (e : error).

Arguments Ok {A} a.
Arguments Err {A} e.

#[global] Instance result_ret : MRet result := fun _ a => Ok a.
#[global] Instance result_bind : MBind result := fun _ _ f m =>
  match m with Ok a => f a | Err e => Err e end.

Definition is_ok {A} (r : result A) : bool :=
  match r with Ok _ => true | Err _ => false end.

(** A file is its bytes; a file system maps paths to files. *)
Abbreviation file := (list N).
Abbreviation filesystem := (gmap PyStr.str file).

(** [os.path.getsize(path)] and reading a whole file. *)
Definition read_file (fs : filesystem) (path : PyStr.str) : result file :=
  match fs !! path with
  | Some f => Ok f
  | None => Err (FileNotFoundError path)
  end.

Definition getsize (fs : filesystem) (path : PyStr.str) : result N :=
  f ← read_file fs path; mret (N.of_nat (length f)).

(** ** The build configuration

    [info] is one dictionary that both modules read and extend.  An entry
    that may be absent is an [option]; the entries whose name starts with
    an underscore are set by the program itself. *)

Inductive pyval : Type :=
| PNone
| PBool (b : bool)
| PStr (s : PyStr.str).

Record Info : Type := {
  info_name : PyStr.str;
  info_version : PyStr.str;
  info_channels : option (list PyStr.str);
  info_specs : option (list PyStr.str);
  info_exclude : option (list PyStr.str);
  info_packages : option (list PyStr.str);
  info_menu_packages : option (list PyStr.str);
  info_install_in_dependency_order : option pyval;
  info_default_prefix : option PyStr.str;
  info_license_file : option PyStr.str;
  info_pre_install : option PyStr.str;
  info_post_install : option PyStr.str;
  info_keep_pkgs : option pyval;
  info_attempt_hardlinks : option pyval;
  info_initialize_by_default : option pyval;
  info__platform : PyStr.str;
  info__download_dir : PyStr.str;
  info__conda_exe : PyStr.str;
  info__outpath : PyStr.str;
  info__dists : list PyStr.str;
  info__urls : list (PyStr.str * PyStr.str)
}.

(** [bool(v)] for the value of [info.get(key)]. *)
Definition truthy (v : option pyval) : bool :=
  match v with
  | None | Some PNone => false
  | Some (PBool b) => b
  | Some (PStr s) => negb (Nat.eqb (length s) 0)
  end.

(** A configuration with no optional entry, to build examples from. *)
Definition empty_info : Info :=
  {| info_name := []; info_version := []; info_channels := None;
     info_specs := None; info_exclude := None; info_packages := None;
     info_menu_packages := None; info_install_in_dependency_order := None;
     info_default_prefix := None; info_license_file := None;
     info_pre_install := None; info_post_install := None;
     info_keep_pkgs := None; info_attempt_hardlinks := None;
     info_initialize_by_default := None; info__platform := [];
     info__download_dir := []; info__conda_exe := []; info__outpath := [];
     info__dists := []; info__urls := [] |}.

(** [d[key] = v] on a dictionary kept in insertion order. *)
Fixpoint dict_set {V} (d : list (PyStr.str * V)) (key : PyStr.str) (v : V) : list (PyStr.str * V) :=
  match d with
  | [] => [(key, v)]
  | (k, w) :: d' =>
      if decide (k = key) then (k, v) :: d' else (k, w) :: dict_set d' key v
  end.

(** ** fcp.py: the package set *)

Module Fcp.
Import PyStr PyRe.

(** What [parse_packages] yields before it stops or ends the build. *)
Inductive generator (A : Type) : Type :=
| Stop
| Yield (a : A) (rest : generator A)
| Raise (e : error).

Arguments Stop {A}.
Arguments Yield {A} a rest.
Arguments Raise {A} e.

(** A record of the channel index: the two entries that fcp.py reads. *)
Record pkginfo : Type := {
  channel : str;
  md5 : str
}.

(** The module-level containers [dists], [index], [urls] and [md5s]. *)
Record Globals : Type := {
  dists : list str;
  index : gmap str pkginfo;
  urls : gmap str str;
  md5s : gmap str (option str)
}.

(** [url_pat], lines 88 to 93. *)
Definition url_pat : regex :=
  Cat (Opt (Group "url" (Cat (Plus not_space) (Chr (is_char "/")))))
 (Cat (Group "fn" (Plus fn_char))
 (Cat (Opt (Group "3" (Cat (Chr (is_char "#")) (Group "md5" (Times 32 hex_lower)))))
      Dollar)).

Fixpoint parse_packages (lines : list str)
  : generator (option str * str * option str) :=
  match lines with
  | [] => Stop
  | line :: lines' =>
      let line := strip line in
      if (Nat.eqb (length line) 0)
         || startswith (py "#") line || startswith (py "@") line
      then parse_packages lines'
      else
        match re_match url_pat line with
        | None => Raise (SysExit (py "Error: Could not parse: " ++ line))
        | Some m =>
            let fn := default [] (group m "fn") in
            let fn := replace fn (py "=") (py "-") in
            let fn := if endswith (py ".tar.bz2") fn then fn
                      else fn ++ py ".tar.bz2" in
            Yield (group m "url", fn, group m "md5") (parse_packages lines')
        end
  end.

(** The grammar of a package line in the words of the specification: an
    optional URL prefix that ends in [/], a file name token without
    whitespace, [#] or [/], and an optional [#] with 32 lowercase
    hexadecimal digits. *)
Definition url_prefix_ok (url : option str) : Prop :=
  match url with
  | None => True
  | Some u =>
      exists u', u = u' ++ ["/"%char] /\ u' <> []
                 /\ Forall (fun c => not_space c = true) u'
  end.

Definition filename_ok (fn : str) : Prop :=
  fn <> [] /\ Forall (fun c => fn_char c = true) fn.

Definition checksum_ok (md5 : option str) : Prop :=
  match md5 with
  | None => True
  | Some m => length m = 32 /\ Forall (fun c => hex_lower c = true) m
  end.

Definition checksum_text (md5 : option str) : str :=
  match md5 with
  | Some m => "#"%char :: m
  | None => []
  end.

Definition line_text (url : option str) (fn : str) (md5 : option str) : str :=
  default [] url ++ fn ++ checksum_text md5.

Definition package_line (line : str) (url : option str) (fn : str) (md5 : option str)
  : Prop :=
  line = line_text url fn md5
  /\ url_prefix_ok url /\ filename_ok fn /\ checksum_ok md5.

(** Lines 103 to 105: the file name that is kept for a token. *)
Definition normalize_fn (fn : str) : str :=
  let fn := replace fn (py "=") (py "-") in
  if endswith (py ".tar.bz2") fn then fn else fn ++ py ".tar.bz2".

(** Line 97: the lines that are passed over. *)
Definition ignored (line : str) : bool :=
  (Nat.eqb (length line) 0) || startswith (py "#") line || startswith (py "@") line.

(** [l.remove(x)]: the first element equal to [x] goes. *)
Fixpoint list_remove (x : str) (l : list str) : result (list str) :=
  match l with
  | [] => Err ValueError
  | y :: l' =>
      if decide (y = x) then Ok l'
      else l'' ← list_remove x l'; mret (y :: l'')
  end.

(** [map_name[key].append(fn)] on a [defaultdict(list)], which keeps its
    keys in the order of their first use. *)
Fixpoint dd_append (m : list (str * list str)) (key fn : str)
  : list (str * list str) :=
  match m with
  | [] => [(key, [fn])]
  | (k, files) :: m' =>
      if decide (k = key) then (k, files ++ [fn]) :: m'
      else (k, files) :: dd_append m' key fn
  end.

Lemma filter_none {A} (P : A -> Prop) `{forall x, Decision (P x)} (l : list A) :
  (forall x, x ∈ l -> ~ P x) -> filter P l = [].
Proof.
  induction l as [|a l IH]; intros Hl; [reflexivity|].
  rewrite filter_cons, decide_False by (apply Hl; now left).
  apply IH. intros x Hx. apply Hl. now right.
Qed.

(** Modelled from the spec: a Dist is a name, a version, a build and an
    archive extension, and constructor.install, which defines [name_dist], is
    not among the sources.  The logical name of the file name
    [name-version-build.ext] is what stands before its last two dashes.
    The properties below hold for every [name_dist]; this one makes the
    examples run. *)
Definition name_of_filename (dist : str) : str := hd [] (rsplit2 "-" dist).

(** [dists.sort()]: the order of [str], code point by code point. *)
Fixpoint str_le (a b : str) : Prop :=
  match a, b with
  | [], _ => True
  | _ :: _, [] => False
  | x :: a', y :: b' =>
      (N_of_ascii x < N_of_ascii y)%N \/ (x = y /\ str_le a' b')
  end.

#[global] Instance str_le_dec a b : Decision (str_le a b).
Proof.
  revert b; induction a as [|x a IH]; intros [|y b]; simpl;
    [left; exact I|left; exact I|right; tauto|].
  destruct (decide (N_of_ascii x < N_of_ascii y)%N) as [H|H]; [left; now left|].
  destruct (decide (x = y)) as [->|Hxy]; [|right; tauto].
  destruct (IH b) as [Hab|Hab]; [left; tauto|right; tauto].
Defined.

Definition py_sort (l : list str) : list str := merge_sort str_le l.

Section PackageSet.

(** [constructor.install.name_dist]: the logical name of a Dist. *)
Variable name_dist : str -> str.

(** The resolver, the index fetch and the artifact fetch are injected; the
    first argument of each is [use_conda], which selects the backend.
    [md5_file] hashes a file of the cache. *)
Variable solve : bool -> gmap str pkginfo -> list str -> list str + str.
Variable graph_sort : bool -> gmap str pkginfo -> list (str * str) -> list str.
Variable fetch_index : bool -> list str -> gmap str pkginfo.
Variable prioritize_channels : list str -> list str.
Variable fetch_pkg : pkginfo -> str -> filesystem -> result filesystem.
Variable md5_file : file -> str.

(** [constructor.utils.filename_dist]: the file name of a Dist. *)
Variable filename_dist : str -> str.

(** Lines 62 to 64 of [check_duplicates]. *)
Definition map_name_of (dists : list str) : list (str * list str) :=
  fold_left (fun m fn => dd_append m (name_dist fn) fn) dists [].

(** Lines 66 to 69. *)
Fixpoint report_duplicates (items : list (str * list str)) : result unit :=
  match items with
  | [] => Ok ()
  | (name, files) :: items' =>
      if 1 <? length files
      then Err (SysExit (py "Error: '" ++ name ++ py "' listed multiple times: "
                         ++ join (py ", ") files))
      else report_duplicates items'
  end.

Definition check_duplicates (dists : list str) : result unit :=
  report_duplicates (map_name_of dists).

(** [exclude_packages], lines 72 to 85.  The message of line 77 has two
    [%s] for one argument: formatting it raises [TypeError]. *)
Fixpoint find_and_remove (name : str) (copy dists : list str) : result (list str) :=
  match copy with
  | [] => Err (SysExit (py "Error: no package named '" ++ name ++ py "' to remove"))
  | dist :: copy' =>
      if decide (name_dist dist = name) then list_remove dist dists
      else find_and_remove name copy' dists
  end.

Fixpoint exclude_loop (names : list str) (dists : list str) : result (list str) :=
  match names with
  | [] => Ok dists
  | name :: names' =>
      if existsb (fun bad_char => contains_char bad_char name) (py " =<>*")
      then Err TypeError
      else dists' ← find_and_remove name dists dists; exclude_loop names' dists'
  end.

Definition exclude_packages (info : Info) (dists : list str) : result (list str) :=
  _ ← check_duplicates dists;
  exclude_loop (default [] (info_exclude info)) dists.

(** The truth value of a string that may be [None]. *)
Definition nonempty (o : option str) : bool :=
  match o with
  | Some (_ :: _) => true
  | _ => false
  end.

(** [handle_packages], lines 109 to 121, consuming the generator. *)
Fixpoint handle_loop (items : generator (option str * str * option str))
  (g : Globals) : result Globals :=
  match items with
  | Stop => Ok g
  | Raise e => Err e
  | Yield (url, fn, md5_) rest =>
      if count fn (py "-") <? 2
      then Err (SysExit (py "Error: Not a valid conda package filename: '"
                         ++ fn ++ py "'"))
      else
        let dists' := dists g ++ [fn] in
        let md5s' := <[fn := md5_]> (md5s g) in
        let url_or_channel :=
          if nonempty url then Ok (default [] url)
          else
            match index g !! fn with
            | Some rec => Ok (channel rec)
            | None => Err (SysExit (py "Error: did not find '" ++ fn
                                    ++ py "' in any channels"))
            end in
        u ← url_or_channel;
        handle_loop rest
          {| dists := dists'; index := index g;
             urls := <[fn := u]> (urls g); md5s := md5s' |}
  end.

Definition handle_packages (info : Info) (g : Globals) : result Globals :=
  handle_loop (parse_packages (default [] (info_packages info))) g.

(** [move_python_first], lines 124 to 129: the loop runs over a copy. *)
Fixpoint move_python_first_loop (copy dists : list str) : result (list str) :=
  match copy with
  | [] => Ok dists
  | dist :: copy' =>
      if decide (name_dist dist = py "python")
      then dists' ← list_remove dist dists; mret (dist :: dists')
      else move_python_first_loop copy' dists
  end.

Definition move_python_first (dists : list str) : result (list str) :=
  move_python_first_loop dists dists.

(** [check_dists], lines 144 to 148. *)
Definition check_dists (dists : list str) : result unit :=
  if Nat.eqb (length dists) 0
  then Err (SysExit (py "Error: no packages specified"))
  else
    _ ← check_duplicates dists;
    match dists with
    | d0 :: _ => if decide (name_dist d0 = py "python") then Ok ()
                 else Err AssertionError
    | [] => Err IndexError
    end.

(** The finalisation of the package set: lines 210 to 221 of [main], the
    warnings and the listing, which only print, left out. *)
Definition finalize (info : Info) (dists : list str) : result (list str) :=
  let dists := if negb (truthy (info_install_in_dependency_order info))
               then py_sort dists else dists in
  dists ← move_python_first dists;
  _ ← check_dists dists;
  mret dists.

(** [resolve], lines 34 to 58.  [solve] returns the message of
    [NoPackagesFound] on the right. *)
Fixpoint any_python (specs : list str) : result bool :=
  match specs with
  | [] => Ok false
  | s :: specs' =>
      match split s with
      | [] => Err IndexError
      | w :: _ => if decide (w = py "python") then Ok true else any_python specs'
      end
  end.

Definition resolve (info : Info) (use_conda : bool) (g : Globals) : result Globals :=
  if decide (index g = ∅)
  then Err (SysExit (py "Error: index is empty, maybe 'channels' are missing?"))
  else
    let specs := default [] (info_specs info) in
    has_python ← any_python specs;
    let specs := if has_python : bool then specs else specs ++ [py "python"] in
    match solve use_conda (index g) specs with
    | inr e => Err (SysExit (py "Error: " ++ e))
    | inl res =>
        let new :=
          match info_install_in_dependency_order info with
          | Some _ =>
              let sort_info :=
                fold_left (fun d dist =>
                             dict_set d (name_dist dist) (take (length dist - 8) dist))
                          res [] in
              map (fun d => d ++ py ".tar.bz2")
                  (graph_sort use_conda (index g) sort_info)
          | None => res
          end in
        Ok {| dists := dists g ++ new; index := index g;
              urls := urls g; md5s := md5s g |}
    end.

(** [fetch], lines 151 to 187.  The state is the download directory with
    the rest of the file system, the index (a record of the index is
    changed in place on line 176), [info['_urls']], and the calls of
    [fetch_pkg] made so far, each with the Dist it was made for. *)
Record FetchState : Type := {
  fs : filesystem;
  idx : gmap str pkginfo;
  out_urls : list (str * str);
  fetch_calls : list (str * pkginfo)
}.

Definition with_slash (rec : pkginfo) : pkginfo :=
  if endswith (py "/") (channel rec) then rec
  else {| channel := channel rec ++ py "/"; md5 := md5 rec |}.

(** The authoritative record of a Dist, lines 166 to 173. *)
Definition lookup_pkginfo (use_conda : bool) (g : Globals) (dist : str)
  (st : FetchState) : result pkginfo :=
  let url := urls g !! dist in
  if nonempty url then
    match fetch_index use_conda [default [] url] !! dist with
    | Some rec => Ok rec
    | None => Err (SysExit (py "Error: no package '" ++ dist ++ py "' in "
                            ++ default [] url))
    end
  else
    match idx st !! dist with
    | Some rec => Ok rec
    | None => Err (KeyError dist)
    end.

(** [md5 and md5 != pkginfo['md5']], line 180. *)
Definition md5_mismatch (md5_ : option str) (pkginfo : pkginfo) : bool :=
  nonempty md5_ && negb (bool_decide (md5_ = Some (md5 pkginfo))).

(** [isfile(path) and md5_file(path) == pkginfo['md5']], line 184. *)
Definition cache_hit (fs : filesystem) (path : str) (pkginfo : pkginfo) : bool :=
  match fs !! path with
  | Some f => bool_decide (md5_file f = md5 pkginfo)
  | None => false
  end.

(** [str(url)] in the message of line 181. *)
Definition show_url (url : option str) : str := default (py "None") url.

(** One turn of the loop of line 161. *)
Definition fetch_one (use_conda : bool) (download_dir : str) (g : Globals)
  (dist : str) (st : FetchState) : result unit * FetchState :=
  let fn := filename_dist dist in
  let path := path_join download_dir fn in
  let url := urls g !! dist in
  let md5_ := mjoin (md5s g !! dist) in
  match lookup_pkginfo use_conda g dist st with
  | Err e => (Err e, st)
  | Ok rec =>
      let pkginfo := with_slash rec in
      let idx' := if nonempty url then idx st else <[dist := pkginfo]> (idx st) in
      let st := {| fs := fs st; idx := idx';
                   out_urls := out_urls st ++ [(channel pkginfo ++ fn, md5 pkginfo)];
                   fetch_calls := fetch_calls st |} in
      if md5_mismatch md5_ pkginfo
      then (Err (SysExit (py "Error: MD5 sum for '" ++ fn
                          ++ py "' does not match in remote repodata "
                          ++ show_url url)), st)
      else if cache_hit (fs st) path pkginfo then (Ok (), st)
      else
        let st := {| fs := fs st; idx := idx st; out_urls := out_urls st;
                     fetch_calls := fetch_calls st ++ [(dist, pkginfo)] |} in
        match fetch_pkg pkginfo download_dir (fs st) with
        | Ok fs' => (Ok (), {| fs := fs'; idx := idx st; out_urls := out_urls st;
                               fetch_calls := fetch_calls st |})
        | Err e => (Err e, st)
        end
  end.

Fixpoint fetch_loop (use_conda : bool) (download_dir : str) (g : Globals)
  (todo : list str) (st : FetchState) : result unit * FetchState :=
  match todo with
  | [] => (Ok (), st)
  | dist :: todo' =>
      match fetch_one use_conda download_dir g dist st with
      | (Ok _, st') => fetch_loop use_conda download_dir g todo' st'
      | (Err e, st') => (Err e, st')
      end
  end.

(** [fetch(info, use_conda)]: [info['_urls']] starts empty.  Directories
    are implicit in a file system keyed by paths, so line 158 has nothing
    to do here. *)
Definition fetch (info : Info) (use_conda : bool) (g : Globals) (files : filesystem)
  : result unit * FetchState :=
  fetch_loop use_conda (info__download_dir info) g (dists g)
    {| fs := files; idx := index g; out_urls := []; fetch_calls := [] |}.

(** The channel URLs of line 200. *)
Definition channel_urls (info : Info) : list str :=
  flat_map (fun url =>
              map (fun platform => rstrip_char "/" url ++ py "/" ++ platform ++ py "/")
                  [info__platform info; py "noarch"])
           (default [] (info_channels info)).

Definition set_dists (info : Info) (ds : list str) (us : list (str * str)) : Info :=
  {| info_name := info_name info; info_version := info_version info;
     info_channels := info_channels info; info_specs := info_specs info;
     info_exclude := info_exclude info; info_packages := info_packages info;
     info_menu_packages := info_menu_packages info;
     info_install_in_dependency_order := info_install_in_dependency_order info;
     info_default_prefix := info_default_prefix info;
     info_license_file := info_license_file info;
     info_pre_install := info_pre_install info;
     info_post_install := info_post_install info;
     info_keep_pkgs := info_keep_pkgs info;
     info_attempt_hardlinks := info_attempt_hardlinks info;
     info_initialize_by_default := info_initialize_by_default info;
     info__platform := info__platform info;
     info__download_dir := info__download_dir info;
     info__conda_exe := info__conda_exe info;
     info__outpath := info__outpath info;
     info__dists := ds; info__urls := us |}.

Definition with_index (g : Globals) (i : gmap str pkginfo) : Globals :=
  {| dists := dists g; index := i; urls := urls g; md5s := md5s g |}.

Definition with_dists (g : Globals) (ds : list str) : Globals :=
  {| dists := ds; index := index g; urls := urls g; md5s := md5s g |}.

(** [main], lines 190 to 226. *)
Definition main (info : Info) (dry_run use_conda : bool) (g : Globals)
  (files : filesystem) : result (Info * Globals * filesystem) :=
  let g := match info_channels info with
           | Some channels =>
               with_index g
                 (if use_conda
                  then fetch_index use_conda (prioritize_channels channels)
                  else fetch_index use_conda (channel_urls info))
           | None => g
           end in
  g ← match info_specs info with
      | Some _ => resolve info use_conda g
      | None => Ok g
      end;
  ds ← exclude_packages info (dists g);
  let g := with_dists g ds in
  g ← match info_packages info with
      | Some _ => handle_packages info g
      | None => Ok g
      end;
  ds ← finalize info (dists g);
  let g := with_dists g ds in
  if dry_run then Ok (info, g, files)
  else
    match fetch info use_conda g files with
    | (Ok _, st) =>
        Ok (set_dists info (dists g) (out_urls st), with_index g (idx st), fs st)
    | (Err e, _) => Err e
    end.

(** *** Facts about the package set *)

(** The entries of [dists] with a given logical name, in their order. *)
Definition files_named (name : str) (dists : list str) : list str :=
  filter (fun fn => name_dist fn = name) dists.

Lemma files_named_snoc name dists fn :
  files_named name (dists ++ [fn])
  = files_named name dists ++ (if decide (name_dist fn = name) then [fn] else []).
Proof.
  unfold files_named. rewrite filter_app. reflexivity.
Qed.

(** The logical names of [seen] in the order of their first occurrence:
    the keys of [map_name]. *)
Definition add_key (ks : list str) (key : str) : list str :=
  if decide (key ∈ ks) then ks else ks ++ [key].

Definition keys_of (seen : list str) : list str :=
  fold_left (fun ks d => add_key ks (name_dist d)) seen [].

Lemma dd_append_map (F : str -> list str) ks key fn :
  NoDup ks -> (key ∉ ks -> F key = []) ->
  dd_append (map (fun k => (k, F k)) ks) key fn
  = map (fun k => (k, F k ++ (if decide (key = k) then [fn] else [])))
        (add_key ks key).
Proof.
  unfold add_key. induction ks as [|k0 ks IH]; intros Hnd Hnew.
  - simpl. rewrite decide_True by reflexivity.
    rewrite Hnew by apply not_elem_of_nil. reflexivity.
  - apply NoDup_cons in Hnd as [Hk0 Hnd]. cbn [map dd_append].
    destruct (decide (k0 = key)) as [->|Hne].
    + rewrite decide_True by (now left). cbn [map].
      rewrite decide_True by reflexivity. f_equal.
      apply map_ext_in. intros k Hk. rewrite decide_False; [now rewrite app_nil_r|].
      intros <-. apply Hk0. now apply list_elem_of_In.
    + rewrite IH; [|exact Hnd|].
      * destruct (decide (key ∈ ks)) as [Hin|Hnin].
        -- rewrite decide_True by (now right). cbn [map].
           rewrite decide_False by congruence. now rewrite app_nil_r.
        -- rewrite decide_False by (rewrite elem_of_cons; intros [?|?]; congruence).
           cbn [app map]. rewrite decide_False by congruence. now rewrite app_nil_r.
      * intros Hnin. apply Hnew. rewrite elem_of_cons. intros [?|?]; congruence.
Qed.

Lemma add_key_spec ks key k :
  k ∈ add_key ks key <-> k ∈ ks \/ k = key.
Proof.
  unfold add_key. destruct (decide (key ∈ ks)) as [Hin|Hnin].
  - split; [now left|]. intros [H| ->]; assumption.
  - rewrite elem_of_app, list_elem_of_singleton. reflexivity.
Qed.

Lemma add_key_NoDup ks key : NoDup ks -> NoDup (add_key ks key).
Proof.
  unfold add_key. intros Hnd. destruct (decide (key ∈ ks)) as [Hin|Hnin]; [exact Hnd|].
  apply NoDup_app. split; [exact Hnd|]. split; [|apply NoDup_singleton].
  intros x Hx Hx'. apply list_elem_of_singleton in Hx' as ->. contradiction.
Qed.

(** [map_name] after the loop of line 63, and its keys. *)
Lemma map_name_of_keys dists :
  map_name_of dists = map (fun k => (k, files_named k dists)) (keys_of dists)
  /\ NoDup (keys_of dists)
  /\ (forall k, k ∈ keys_of dists <-> k ∈ name_dist <$> dists).
Proof.
  unfold map_name_of, keys_of.
  assert (G : forall todo seen m ks,
            m = map (fun k => (k, files_named k seen)) ks ->
            NoDup ks -> (forall k, k ∈ ks <-> k ∈ name_dist <$> seen) ->
            let m' := fold_left (fun m fn => dd_append m (name_dist fn) fn) todo m in
            let ks' := fold_left (fun ks d => add_key ks (name_dist d)) todo ks in
            m' = map (fun k => (k, files_named k (seen ++ todo))) ks'
            /\ NoDup ks'
            /\ (forall k, k ∈ ks' <-> k ∈ name_dist <$> (seen ++ todo))).
  { induction todo as [|fn todo IH]; intros seen m ks Hm Hnd Hks; cbn [fold_left].
    - rewrite app_nil_r. auto.
    - replace (seen ++ fn :: todo) with ((seen ++ [fn]) ++ todo)
        by (now rewrite <- app_assoc).
      apply IH.
      + rewrite Hm, dd_append_map; [|exact Hnd|].
        * apply map_ext. intros k. now rewrite files_named_snoc.
        * intros Hnin. unfold files_named. apply filter_none.
          intros d Hd Hname. apply Hnin, Hks. apply list_elem_of_fmap. now exists d.
      + now apply add_key_NoDup.
      + intros k. rewrite add_key_spec, Hks, map_app, elem_of_app. simpl.
        rewrite list_elem_of_singleton. reflexivity. }
  apply (G dists [] [] []); [reflexivity|apply NoDup_nil_2|].
  intros k. simpl. reflexivity.
Qed.

Lemma map_name_of_elem dists k files :
  (k, files) ∈ map_name_of dists <->
  k ∈ name_dist <$> dists /\ files = files_named k dists.
Proof.
  destruct (map_name_of_keys dists) as (-> & _ & Hks).
  change (map ?f ?l) with (f <$> l). rewrite list_elem_of_fmap. split.
  - intros (k' & E & Hin). injection E as -> ->. split; [now apply Hks|reflexivity].
  - intros [Hin ->]. exists k. split; [reflexivity|now apply Hks].
Qed.

(** The message of line 68. *)
Definition duplicate_message (name : str) (files : list str) : str :=
  py "Error: '" ++ name ++ py "' listed multiple times: " ++ join (py ", ") files.

Lemma report_duplicates_ok items :
  report_duplicates items = Ok () <->
  forall k files, (k, files) ∈ items -> length files <= 1.
Proof.
  induction items as [|[k0 files0] items IH]; simpl.
  - split; [|reflexivity]. intros _ k files H. now apply elem_of_nil in H.
  - destruct (Nat.ltb_spec 1 (length files0)) as [Hlt|Hle].
    + split; [discriminate|]. intros H. specialize (H k0 files0 ltac:(now left)). lia.
    + rewrite IH. split.
      * intros H k files Hin. apply elem_of_cons in Hin as [[= -> ->]|Hin]; [lia|eauto].
      * intros H k files Hin. apply (H k files). now right.
Qed.

Lemma report_duplicates_err items e :
  report_duplicates items = Err e ->
  exists k files, (k, files) ∈ items /\ 1 < length files
                  /\ e = SysExit (duplicate_message k files).
Proof.
  induction items as [|[k0 files0] items IH]; simpl; [discriminate|].
  destruct (Nat.ltb_spec 1 (length files0)) as [Hlt|Hle].
  - intros [= <-]. exists k0, files0. split; [now left|]. split; [exact Hlt|reflexivity].
  - intros H. destruct (IH H) as (k & files & Hin & Hl & ->).
    exists k, files. split; [now right|]. now split.
Qed.

Lemma NoDup_names_iff dists :
  NoDup (name_dist <$> dists) <->
  forall k, length (files_named k dists) <= 1.
Proof.
  unfold files_named. induction dists as [|d dists IH]; simpl.
  - split; [intros _ k; simpl; lia|intros _; apply NoDup_nil_2].
  - rewrite NoDup_cons, IH. split.
    + intros [Hnot H] k. rewrite filter_cons.
      destruct (decide (name_dist d = k)) as [<-|Hne]; [|apply H].
      replace (filter (fun fn => name_dist fn = name_dist d) dists) with (@nil str);
        [simpl; lia|].
      symmetry. apply filter_none. intros x Hx Hname.
      apply Hnot. apply list_elem_of_fmap. now exists x.
    + intros H. split.
      * intros Hin. apply list_elem_of_fmap in Hin as (x & Hname & Hx).
        specialize (H (name_dist d)). rewrite filter_cons, decide_True in H by reflexivity.
        assert (x ∈ filter (fun fn => name_dist fn = name_dist d) dists)
          by (apply list_elem_of_filter; split; [now symmetry|exact Hx]).
        destruct (filter (fun fn => name_dist fn = name_dist d) dists);
          [now apply elem_of_nil in H0|simpl in H; lia].
      * intros k. specialize (H k). rewrite filter_cons in H.
        destruct (decide (name_dist d = k)); simpl in H; lia.
Qed.

Lemma check_duplicates_ok dists :
  check_duplicates dists = Ok () <-> NoDup (name_dist <$> dists).
Proof.
  unfold check_duplicates. rewrite report_duplicates_ok, NoDup_names_iff. split.
  - intros H k. destruct (files_named k dists) as [|d rest] eqn:E; [simpl; lia|].
    assert (Hd : d ∈ files_named k dists) by (rewrite E; now left).
    unfold files_named in Hd. apply list_elem_of_filter in Hd as [Hname Hd].
    rewrite <- E. apply (H k). apply map_name_of_elem. split; [|reflexivity].
    apply list_elem_of_fmap. now exists d.
  - intros H k files Hin. apply map_name_of_elem in Hin as [_ ->]. apply H.
Qed.

Lemma check_duplicates_err dists e :
  check_duplicates dists = Err e ->
  exists name, 1 < length (files_named name dists)
               /\ e = SysExit (duplicate_message name (files_named name dists)).
Proof.
  unfold check_duplicates. intros H.
  destruct (report_duplicates_err _ _ H) as (k & files & Hin & Hl & ->).
  apply map_name_of_elem in Hin as [_ ->]. now exists k.
Qed.

(** [list_remove] takes out one occurrence of an element of the list. *)
Lemma list_remove_elem x l :
  x ∈ l -> exists l', list_remove x l = Ok l' /\ l ≡ₚ x :: l'.
Proof.
  induction l as [|y l IH]; intros Hin; [now apply elem_of_nil in Hin|].
  simpl. destruct (decide (y = x)) as [->|Hne]; [now exists l|].
  apply elem_of_cons in Hin as [->|Hin]; [congruence|].
  destruct (IH Hin) as (l' & -> & Hp). exists (y :: l'). split; [reflexivity|].
  rewrite Hp. apply Permutation_swap.
Qed.

Lemma list_remove_head x l : list_remove x (x :: l) = Ok l.
Proof. simpl. now rewrite decide_True. Qed.

Definition has_python (dists : list str) : Prop :=
  exists d, d ∈ dists /\ name_dist d = py "python".

Lemma move_python_first_loop_spec copy dists :
  (forall d, d ∈ copy -> d ∈ dists) ->
  exists ds, move_python_first_loop copy dists = Ok ds /\ ds ≡ₚ dists
    /\ (has_python copy ->
        exists d rest, ds = d :: rest /\ name_dist d = py "python")
    /\ (~ has_python copy -> ds = dists).
Proof.
  induction copy as [|d copy IH]; intros Hsub; simpl.
  - exists dists. split; [reflexivity|]. split; [reflexivity|]. split; [|reflexivity].
    intros (d & Hd & _). now apply elem_of_nil in Hd.
  - destruct (decide (name_dist d = py "python")) as [Hpy|Hnpy].
    + destruct (list_remove_elem d dists) as (l' & -> & Hp); [apply Hsub; now left|].
      exists (d :: l'). split; [reflexivity|]. split; [now symmetry|]. split.
      * intros _. now exists d, l'.
      * intros Hno. exfalso. apply Hno. exists d. split; [now left|exact Hpy].
    + destruct IH as (ds & -> & Hp & Hyes & Hno);
        [intros x Hx; apply Hsub; now right|].
      exists ds. split; [reflexivity|]. split; [exact Hp|]. split.
      * intros (x & Hx & Hxpy). apply Hyes.
        apply elem_of_cons in Hx as [->|Hx]; [congruence|]. now exists x.
      * intros Hnone. apply Hno. intros (x & Hx & Hxpy). apply Hnone.
        exists x. split; [now right|exact Hxpy].
Qed.

(** [move_python_first] never fails: it keeps the entries, puts a python
    entry first when there is one and changes nothing otherwise. *)
Lemma move_python_first_spec dists :
  exists ds, move_python_first dists = Ok ds /\ ds ≡ₚ dists
    /\ (has_python dists ->
        exists d rest, ds = d :: rest /\ name_dist d = py "python")
    /\ (~ has_python dists -> ds = dists).
Proof. apply move_python_first_loop_spec. auto. Qed.

Lemma has_python_perm l1 l2 : l1 ≡ₚ l2 -> has_python l1 -> has_python l2.
Proof. intros Hp (d & Hd & Hn). exists d. split; [now rewrite <- Hp|exact Hn]. Qed.

Lemma NoDup_names_perm l1 l2 :
  l1 ≡ₚ l2 -> NoDup (name_dist <$> l1) -> NoDup (name_dist <$> l2).
Proof. intros Hp. now rewrite Hp. Qed.

Lemma duplicate_message_not_empty_set name files :
  SysExit (duplicate_message name files) <> SysExit (py "Error: no packages specified").
Proof. unfold duplicate_message. simpl. intros H. discriminate H. Qed.

(** The three ways [check_dists] ends. *)
Lemma check_dists_cases dists :
  (dists = [] /\ check_dists dists = Err (SysExit (py "Error: no packages specified")))
  \/ (dists <> [] /\ ~ NoDup (name_dist <$> dists)
      /\ exists name, 1 < length (files_named name dists)
           /\ check_dists dists
              = Err (SysExit (duplicate_message name (files_named name dists))))
  \/ (NoDup (name_dist <$> dists)
      /\ exists d0 rest, dists = d0 :: rest
           /\ ((name_dist d0 = py "python" /\ check_dists dists = Ok ())
               \/ (name_dist d0 <> py "python" /\ check_dists dists = Err AssertionError))).
Proof.
  destruct dists as [|d0 rest]; [left; split; reflexivity|right].
  unfold check_dists. cbn [length Nat.eqb].
  destruct (check_duplicates (d0 :: rest)) as [[]|e] eqn:Hdup.
  - right. split; [now apply check_duplicates_ok|]. exists d0, rest.
    split; [reflexivity|]. cbn.
    destruct (decide (name_dist d0 = py "python")); [left|right]; now split.
  - left. split; [discriminate|]. split.
    + intros Hnd. apply check_duplicates_ok in Hnd. congruence.
    + destruct (check_duplicates_err _ _ Hdup) as (name & Hl & ->).
      exists name. split; [exact Hl|reflexivity].
Qed.

Lemma py_sort_perm dists : py_sort dists ≡ₚ dists.
Proof. apply merge_sort_Permutation. Qed.

(** The set that [finalize] checks: the entries of [dists], with a python
    entry first when there is one. *)
Lemma finalize_input info dists :
  exists ds, ds ≡ₚ dists
    /\ finalize info dists = (_ ← check_dists ds; mret ds)
    /\ (has_python dists ->
        exists d rest, ds = d :: rest /\ name_dist d = py "python")
    /\ (~ has_python dists ->
        ds = if negb (truthy (info_install_in_dependency_order info))
             then py_sort dists else dists).
Proof.
  unfold finalize.
  set (sorted := if negb (truthy (info_install_in_dependency_order info))
                 then py_sort dists else dists).
  assert (Hs : sorted ≡ₚ dists).
  { unfold sorted. destruct (negb _); [apply py_sort_perm|reflexivity]. }
  destruct (move_python_first_spec sorted) as (ds & -> & Hp & Hyes & Hno).
  exists ds. split; [now rewrite Hp|]. split; [reflexivity|]. split.
  - intros H. apply Hyes. eapply has_python_perm; [symmetry; exact Hs|exact H].
  - intros H. apply Hno. intros H'. apply H. eapply has_python_perm; eassumption.
Qed.

(** C4: the duplicate check passes exactly when no two entries share a
    logical name; when it fails, the message names one logical name and
    lists, in their order, all the entries of the set that carry it; and a
    set that passes finalisation has no two entries with the same name. *)
Theorem check_duplicates_unique_names dists :
  (check_duplicates dists = Ok () <-> NoDup (name_dist <$> dists))
  /\ (forall e, check_duplicates dists = Err e ->
        exists name, 1 < length (files_named name dists)
          /\ e = SysExit (py "Error: '" ++ name ++ py "' listed multiple times: "
                          ++ join (py ", ") (files_named name dists)))
  /\ (forall info ds, finalize info dists = Ok ds -> NoDup (name_dist <$> ds)).
Proof.
  split; [apply check_duplicates_ok|]. split; [apply check_duplicates_err|].
  intros info ds Hfin.
  destruct (finalize_input info dists) as (ds' & _ & Heq & _). rewrite Heq in Hfin.
  destruct (check_dists_cases ds') as [[_ Hc]|[(_ & _ & name & _ & Hc)|(Hnd & d0 & rest & _ & Hc)]];
    try (rewrite Hc in Hfin; discriminate Hfin).
  destruct Hc as [[_ Hc]|[_ Hc]]; rewrite Hc in Hfin; [|discriminate Hfin].
  cbn in Hfin. injection Hfin as <-. exact Hnd.
Qed.

(** C3: a set that passes finalisation holds the entries it was given, and
    any of its entries whose logical name is python is at index 0. *)
Theorem python_first_after_finalize info dists ds :
  finalize info dists = Ok ds ->
  ds ≡ₚ dists
  /\ forall i d, ds !! i = Some d -> name_dist d = py "python" -> i = 0.
Proof.
  intros Hfin.
  destruct (finalize_input info dists) as (ds' & Hperm & Heq & _). rewrite Heq in Hfin.
  destruct (check_dists_cases ds') as [[_ Hc]|[(_ & _ & name & _ & Hc)|(Hnd & d0 & rest & E & Hc)]];
    try (rewrite Hc in Hfin; discriminate Hfin).
  destruct Hc as [[Hpy Hc]|[_ Hc]]; rewrite Hc in Hfin; [|discriminate Hfin].
  cbn in Hfin. injection Hfin as <-. split; [exact Hperm|].
  intros i d Hi Hd. destruct i as [|j]; [reflexivity|exfalso].
  subst ds'. rewrite fmap_cons in Hnd. apply NoDup_cons in Hnd as [Hnot _].
  apply Hnot. rewrite Hpy, <- Hd. apply list_elem_of_fmap_2.
  eapply list_elem_of_lookup_2. exact Hi.
Qed.

(** C7 (as the code has it): finalisation ends with the empty-set message
    exactly when the set is empty; it ends with the failed assertion exactly
    when the set is not empty, has no two entries of the same name and has
    no python entry; it passes exactly when the names are distinct and a
    python entry exists.  [check_dists] itself fails its assertion exactly
    on a duplicate-free set whose first entry is not python. *)
Theorem finalize_outcomes info dists :
  (finalize info dists = Err (SysExit (py "Error: no packages specified"))
   <-> dists = [])
  /\ (finalize info dists = Err AssertionError
      <-> dists <> [] /\ NoDup (name_dist <$> dists) /\ ~ has_python dists)
  /\ (is_ok (finalize info dists) = true
      <-> NoDup (name_dist <$> dists) /\ has_python dists)
  /\ (check_dists dists = Err AssertionError
      <-> NoDup (name_dist <$> dists)
          /\ exists d0 rest, dists = d0 :: rest /\ name_dist d0 <> py "python").
Proof.
  assert (Hcd : forall l, check_dists l = Err AssertionError
      <-> NoDup (name_dist <$> l)
          /\ exists d0 rest, l = d0 :: rest /\ name_dist d0 <> py "python").
  { intros l.
    destruct (check_dists_cases l) as [[-> Hc]|[(_ & Hdup & name & _ & Hc)|(Hnd & d0 & rest & -> & Hc)]].
    - rewrite Hc. split; [discriminate|]. intros (_ & d0 & rest & E & _). discriminate E.
    - rewrite Hc. split; [discriminate|]. intros [Hnd _]. contradiction.
    - destruct Hc as [[Hpy Hc]|[Hnpy Hc]]; rewrite Hc.
      + split; [discriminate|]. intros (_ & d1 & rest1 & E & Hn).
        injection E as <- <-. contradiction.
      + split; [|reflexivity]. intros _. split; [exact Hnd|]. now exists d0, rest. }
  destruct (finalize_input info dists) as (ds & Hperm & -> & Hyes & Hno).
  assert (Hnil : ds = [] <-> dists = []).
  { split; intros ->; [now apply Permutation_nil_l in Hperm
                      |now apply Permutation_nil_r in Hperm]. }
  assert (Hnodup : NoDup (name_dist <$> ds) <-> NoDup (name_dist <$> dists))
    by (now rewrite Hperm).
  assert (Hhas : has_python ds <-> has_python dists).
  { split; apply has_python_perm; [exact Hperm|now symmetry]. }
  destruct (check_dists_cases ds) as [[E Hc]|[(Hne & Hdup & name & _ & Hc)|(Hnd & d0 & rest & E & Hc)]].
  - rewrite Hc. cbn. split; [|split; [|split]].
    + split; [intros _; now apply Hnil|reflexivity].
    + split; [discriminate|]. intros (Hne & _). exfalso. now apply Hne, Hnil.
    + split; [discriminate|]. intros (_ & d & Hd & _). apply Hnil in E. subst dists.
      now apply elem_of_nil in Hd.
    + apply Hcd.
  - rewrite Hc. cbn. split; [|split; [|split]].
    + split; [|intros ->; exfalso; now apply Hne, Hnil].
      intros H. exfalso. injection H as H.
      apply (duplicate_message_not_empty_set name (files_named name ds)).
      now rewrite H.
    + split; [discriminate|]. intros (_ & Hnd & _). exfalso. now apply Hdup, Hnodup.
    + split; [discriminate|]. intros (Hnd & _). exfalso. now apply Hdup, Hnodup.
    + apply Hcd.
  - assert (Hdne : dists <> []) by (intros H; apply Hnil in H; congruence).
    destruct Hc as [[Hpy Hc]|[Hnpy Hc]]; rewrite Hc; cbn.
    + assert (Hp : has_python dists).
      { apply Hhas. exists d0. split; [rewrite E; now left|exact Hpy]. }
      split; [|split; [|split]].
      * split; [discriminate|]. intros H. contradiction.
      * split; [discriminate|]. intros (_ & _ & H). contradiction.
      * split; [|reflexivity]. intros _. split; [now apply Hnodup|exact Hp].
      * apply Hcd.
    + assert (Hp : ~ has_python dists).
      { intros Hp. destruct (Hyes Hp) as (d & rest' & E' & Hd).
        rewrite E in E'. injection E' as -> _. contradiction. }
      split; [|split; [|split]].
      * split; [discriminate|]. intros H. contradiction.
      * split; [|reflexivity]. intros _. split; [exact Hdne|]. split; [now apply Hnodup|exact Hp].
      * split; [discriminate|]. intros (_ & H). contradiction.
      * apply Hcd.
Qed.

(** *** Facts about [fetch] *)

Lemma with_slash_md5 rec : md5 (with_slash rec) = md5 rec.
Proof. unfold with_slash. now destruct (endswith _ _). Qed.

(** The inline checksum [m] of a Dist is there and is not the checksum of
    its authoritative record in state [st]. *)
Definition inline_mismatch (use_conda : bool) (g : Globals) (dist : str)
  (st : FetchState) : Prop :=
  exists m rec, md5s g !! dist = Some (Some m) /\ m <> []
    /\ lookup_pkginfo use_conda g dist st = Ok rec /\ m <> md5 rec.

Lemma md5_mismatch_true m rec :
  m <> [] -> m <> md5 rec -> md5_mismatch (Some m) (with_slash rec) = true.
Proof.
  intros Hm Hne. unfold md5_mismatch. rewrite with_slash_md5.
  destruct m as [|c m]; [congruence|]. cbn [nonempty andb].
  rewrite bool_decide_eq_false_2; [reflexivity|]. congruence.
Qed.

(** The message of line 181. *)
Definition mismatch_message (g : Globals) (dist : str) : str :=
  py "Error: MD5 sum for '" ++ filename_dist dist
  ++ py "' does not match in remote repodata " ++ show_url (urls g !! dist).

(** One turn of the loop on a Dist whose inline checksum disagrees: the
    build ends before [fetch_pkg] is called and the cache is as it was. *)
Lemma fetch_one_mismatch use_conda download_dir g dist st :
  inline_mismatch use_conda g dist st ->
  exists st', fetch_one use_conda download_dir g dist st
              = (Err (SysExit (mismatch_message g dist)), st')
    /\ fetch_calls st' = fetch_calls st /\ fs st' = fs st.
Proof.
  intros (m & rec & Hm & Hne & Hrec & Hdiff). unfold fetch_one.
  rewrite Hrec, Hm. cbn [mjoin option_join]. rewrite (md5_mismatch_true m rec Hne Hdiff).
  eexists. split; [reflexivity|]. split; reflexivity.
Qed.

(** One turn on a Dist whose file in the cache has the checksum of the
    authoritative record, the inline checksum agreeing or being absent:
    [fetch_pkg] is not called. *)
Lemma fetch_one_cache_hit use_conda download_dir g dist st rec f :
  lookup_pkginfo use_conda g dist st = Ok rec ->
  md5_mismatch (mjoin (md5s g !! dist)) (with_slash rec) = false ->
  fs st !! path_join download_dir (filename_dist dist) = Some f ->
  md5_file f = md5 rec ->
  exists st', fetch_one use_conda download_dir g dist st = (Ok (), st')
    /\ fetch_calls st' = fetch_calls st /\ fs st' = fs st.
Proof.
  intros Hrec Hok Hf Hmd5. unfold fetch_one. rewrite Hrec, Hok.
  unfold cache_hit. cbn [fs]. rewrite Hf, with_slash_md5.
  rewrite bool_decide_eq_true_2 by exact Hmd5.
  eexists. split; [reflexivity|]. split; reflexivity.
Qed.

(** What one turn does to the state, whatever its outcome: the checksums
    of the index stay, and the only call of [fetch_pkg] it can add is one
    for its own Dist. *)
Lemma fetch_one_frame use_conda download_dir g d st r st' :
  fetch_one use_conda download_dir g d st = (r, st') ->
  (forall x, md5 <$> (idx st' !! x) = md5 <$> (idx st !! x))
  /\ (forall c, c ∈ fetch_calls st' -> c ∈ fetch_calls st \/ fst c = d).
Proof.
  unfold fetch_one. destruct (lookup_pkginfo use_conda g d st) as [rec|e] eqn:Hrec.
  - assert (Hidx : forall x,
      md5 <$> ((if nonempty (urls g !! d) then idx st
                else <[d := with_slash rec]> (idx st)) !! x)
      = md5 <$> (idx st !! x)).
    { intros x. destruct (nonempty (urls g !! d)) eqn:Hu; [reflexivity|].
      destruct (decide (d = x)) as [->|Hne].
      - rewrite lookup_insert_eq. unfold lookup_pkginfo in Hrec. rewrite Hu in Hrec.
        destruct (idx st !! x) as [rec0|]; [|discriminate].
        injection Hrec as ->. cbn. now rewrite with_slash_md5.
      - now rewrite lookup_insert_ne. }
    destruct (md5_mismatch _ _).
    { intros [= <- <-]. cbn. split; [exact Hidx|]. intros c Hc. now left. }
    destruct (cache_hit _ _ _).
    { intros [= <- <-]. cbn. split; [exact Hidx|]. intros c Hc. now left. }
    cbn [fs idx out_urls fetch_calls].
    destruct (fetch_pkg _ _ _) as [fs'|e]; intros [= <- <-]; cbn;
      (split; [exact Hidx|]); intros c Hc;
      apply elem_of_app in Hc as [Hc|Hc]; auto;
      apply list_elem_of_singleton in Hc as ->; now right.
  - intros [= <- <-]. split; [reflexivity|]. intros c Hc. now left.
Qed.

Lemma inline_mismatch_stable use_conda g dist st st' :
  (forall x, md5 <$> (idx st' !! x) = md5 <$> (idx st !! x)) ->
  inline_mismatch use_conda g dist st -> inline_mismatch use_conda g dist st'.
Proof.
  intros Hidx (m & rec & Hm & Hne & Hrec & Hdiff).
  unfold lookup_pkginfo in Hrec |- *. unfold inline_mismatch, lookup_pkginfo.
  destruct (nonempty (urls g !! dist)) eqn:Hu.
  - exists m, rec. auto.
  - specialize (Hidx dist).
    destruct (idx st !! dist) as [rec0|]; [|discriminate]. injection Hrec as ->.
    destruct (idx st' !! dist) as [rec'|]; [|discriminate]. cbn in Hidx.
    injection Hidx as Hmd5. exists m, rec'. rewrite Hmd5. auto.
Qed.

(** The loop over a list that holds a Dist with a disagreeing inline
    checksum ends the build, and adds no call of [fetch_pkg] for it. *)
Lemma fetch_loop_mismatch use_conda download_dir g dist todo : forall st,
  dist ∈ todo -> inline_mismatch use_conda g dist st ->
  exists e st', fetch_loop use_conda download_dir g todo st = (Err e, st')
    /\ (forall c, c ∈ fetch_calls st' -> fst c = dist -> c ∈ fetch_calls st).
Proof.
  induction todo as [|d todo IH]; intros st Hin Hbad; [now apply elem_of_nil in Hin|].
  cbn [fetch_loop]. destruct (decide (d = dist)) as [->|Hne].
  - destruct (fetch_one_mismatch use_conda download_dir g dist st Hbad)
      as (st' & -> & Hcalls & _).
    eexists _, st'. split; [reflexivity|]. intros c Hc _. now rewrite <- Hcalls.
  - apply elem_of_cons in Hin as [->|Hin]; [congruence|].
    destruct (fetch_one use_conda download_dir g d st) as [r st1] eqn:Hone.
    destruct (fetch_one_frame _ _ _ _ _ _ _ Hone) as [Hidx Hcalls].
    destruct r as [[]|e].
    + destruct (IH st1 Hin (inline_mismatch_stable _ _ _ _ _ Hidx Hbad))
        as (e & st' & -> & Hc').
      exists e, st'. split; [reflexivity|]. intros c Hc Hd.
      destruct (Hcalls c (Hc' c Hc Hd)) as [?|?]; [assumption|congruence].
    + exists e, st1. split; [reflexivity|]. intros c Hc Hd.
      destruct (Hcalls c Hc) as [?|?]; [assumption|congruence].
Qed.

(** C5: a Dist whose inline checksum disagrees with the checksum of its
    authoritative record ends the build with the checksum message in its
    turn of the loop, before [fetch_pkg] is called for it; the fetch phase
    over a set that holds such a Dist fails and never calls [fetch_pkg] for
    it; and a Dist whose file in the download directory already has the
    checksum of the record passes its turn without a call of [fetch_pkg]. *)
Theorem fetch_checks_before_fetching use_conda g :
  (forall download_dir dist st,
     inline_mismatch use_conda g dist st ->
     exists st', fetch_one use_conda download_dir g dist st
                 = (Err (SysExit (mismatch_message g dist)), st')
       /\ fetch_calls st' = fetch_calls st /\ fs st' = fs st)
  /\ (forall info files dist,
        dist ∈ dists g ->
        inline_mismatch use_conda g dist
          {| fs := files; idx := index g; out_urls := []; fetch_calls := [] |} ->
        exists e st', fetch info use_conda g files = (Err e, st')
          /\ forall c, c ∈ fetch_calls st' -> fst c <> dist)
  /\ (forall download_dir dist st rec f,
        lookup_pkginfo use_conda g dist st = Ok rec ->
        md5_mismatch (mjoin (md5s g !! dist)) (with_slash rec) = false ->
        fs st !! path_join download_dir (filename_dist dist) = Some f ->
        md5_file f = md5 rec ->
        exists st', fetch_one use_conda download_dir g dist st = (Ok (), st')
          /\ fetch_calls st' = fetch_calls st /\ fs st' = fs st).
Proof.
  split; [intros; now apply fetch_one_mismatch|]. split.
  - intros info files dist Hin Hbad. unfold fetch.
    destruct (fetch_loop_mismatch use_conda (info__download_dir info) g dist
                (dists g) _ Hin Hbad) as (e & st' & -> & Hc).
    exists e, st'. split; [reflexivity|]. intros c Hin' Hd.
    specialize (Hc c Hin' Hd). cbn in Hc. now apply elem_of_nil in Hc.
  - intros download_dir dist st rec f Hrec Hok Hf Hmd5.
    exact (fetch_one_cache_hit use_conda download_dir g dist st rec f Hrec Hok Hf Hmd5).
Qed.

End PackageSet.

(** *** Facts about package lines *)

Lemma take_prefix {A} (x y : list A) :
  take (length (x ++ y) - length y) (x ++ y) = x.
Proof.
  rewrite length_app.
  replace (length x + length y - length y) with (length x) by lia.
  apply take_app_length.
Qed.

Lemma take_prefix_cons {A} (x : list A) c y :
  take (length (x ++ c :: y) - length y) (x ++ c :: y) = x ++ [c].
Proof.
  replace (x ++ c :: y) with ((x ++ [c]) ++ y) by (now rewrite <- app_assoc).
  apply take_prefix.
Qed.

Lemma is_char_true x c : is_char x c = true -> c = x.
Proof. unfold is_char. now intros H%Ascii.eqb_eq. Qed.

(** A match of [url_pat] cuts the text into the parts of the grammar, and
    its groups are these parts. *)
Lemma url_pat_sound s s' m :
  lang url_pat s [] s' m ->
  exists url fn md5,
    s = line_text url fn md5 ++ s' /\ at_end s' = true
    /\ url_prefix_ok url /\ filename_ok fn /\ checksum_ok md5
    /\ group m "url" = url /\ group m "fn" = Some fn /\ group m "md5" = md5.
Proof.
  unfold url_pat. cbn [lang].
  intros (s1 & g1 & Hurl & s2 & g2 & (g2' & (f & Hs1 & Hfne & Hf & Hg2') & Hg2)
          & s3 & g3 & Hmd5 & (Hend & Hs' & Hm)).
  assert (Hu : exists url, s = default [] url ++ s1 /\ url_prefix_ok url
                 /\ g1 = match url with Some u => [("url"%string, u)] | None => [] end).
  { destruct Hurl as [(g & (sA & gB & (a & Hs & Hane & Ha & HgB) & (c & HsA & Hc & Hg)) & Hg1)
                     |[Hs Hg1]].
    - apply is_char_true in Hc. rewrite Hs, HsA, Hc, take_prefix_cons in Hg1.
      exists (Some (a ++ ["/"%char])).
      split; [rewrite Hs, HsA, Hc; cbn; now rewrite <- app_assoc|].
      split; [now exists a|]. now rewrite Hg1, Hg, HgB.
    - exists None. split; [now rewrite Hs|]. split; [exact I|exact Hg1]. }
  destruct Hu as (url & Hs & Hurl_ok & Hg1).
  rewrite Hs1, take_prefix, Hg2' in Hg2.
  assert (Hm5 : exists md5, s2 = checksum_text md5 ++ s3 /\ checksum_ok md5
                  /\ g3 = match md5 with
                          | Some h => ("3"%string, "#"%char :: h) :: ("md5"%string, h) :: g2
                          | None => g2
                          end).
  { destruct Hmd5 as [(g & (sA & gB & (c & Hc1 & Hc & HgB) & (gC & (h & HsA & Hl & Hh & HgC) & Hg)) & Hg3)
                     |[Hs3 Hg3]].
    - apply is_char_true in Hc. exists (Some h).
      split; [rewrite Hc1, HsA, Hc; reflexivity|]. split; [now split|].
      rewrite Hg3, Hg, HgC, HgB, Hc1, HsA, Hc.
      rewrite take_prefix. f_equal. f_equal.
      change ("#"%char :: h ++ s3) with (("#"%char :: h) ++ s3). now rewrite take_prefix.
    - exists None. split; [now rewrite Hs3|]. split; [exact I|exact Hg3]. }
  destruct Hm5 as (md5 & Hs2 & Hmd5_ok & Hg3).
  exists url, f, md5. unfold line_text.
  split; [rewrite Hs, Hs1, Hs2, Hs'; now rewrite <- !app_assoc|].
  split; [now rewrite Hs'|]. split; [exact Hurl_ok|].
  split; [now split|]. split; [exact Hmd5_ok|].
  rewrite Hm, Hg3, Hg2, Hg1. destruct md5, url; cbn; auto.
Qed.

(** Any text of the grammar, with or without a final newline, is matched. *)
Lemma url_pat_complete url fn md5 nl :
  url_prefix_ok url -> filename_ok fn -> checksum_ok md5 -> at_end nl = true ->
  exists m, lang url_pat (line_text url fn md5 ++ nl) [] nl m.
Proof.
  intros Hurl [Hfne Hf] Hmd5 Hend. unfold url_pat, line_text. cbn [lang].
  assert (H1 : forall rest, exists g1,
    lang (Opt (Group "url" (Cat (Plus not_space) (Chr (is_char "/")))))
         (default [] url ++ rest) [] rest g1).
  { intros rest. destruct url as [u|]; cbn [lang].
    - destruct Hurl as (u' & -> & Hne & Hu'). eexists. left. eexists.
      split; [|reflexivity]. exists (["/"%char] ++ rest), []. split.
      + exists u'. cbn. rewrite <- app_assoc. auto.
      + exists "/"%char. split; [reflexivity|]. split; reflexivity.
    - exists []. right. split; reflexivity. }
  assert (H2 : forall rest g, exists g',
    lang (Group "fn" (Plus fn_char)) (fn ++ rest) g rest g').
  { intros rest g. cbn [lang]. eexists. exists g. split; [|reflexivity].
    exists fn. auto. }
  assert (H3 : forall rest g, exists g',
    lang (Opt (Group "3" (Cat (Chr (is_char "#")) (Group "md5" (Times 32 hex_lower)))))
         (checksum_text md5 ++ rest) g rest g').
  { intros rest g. destruct md5 as [h|]; cbn [lang checksum_text].
    - destruct Hmd5 as [Hl Hh]. eexists. left. eexists. split; [|reflexivity].
      exists (h ++ rest), g. split.
      + exists "#"%char. split; [reflexivity|]. split; reflexivity.
      + eexists. split; [|reflexivity]. exists h. auto.
    - exists g. right. split; reflexivity. }
  destruct (H1 (fn ++ checksum_text md5 ++ nl)) as [g1 L1].
  destruct (H2 (checksum_text md5 ++ nl) g1) as [g2 L2].
  destruct (H3 nl g2) as [g3 L3].
  exists g3, (fn ++ checksum_text md5 ++ nl), g1.
  split; [now rewrite <- !app_assoc|].
  exists (checksum_text md5 ++ nl), g2. split; [exact L2|].
  exists nl, g3. split; [exact L3|]. cbn [lang]. auto.
Qed.

(** The parts of a line are determined by the line. *)
Lemma no_slash_fn c : fn_char c = true -> c <> "/"%char.
Proof. intros H ->. discriminate H. Qed.

Lemma hex_lower_fn c : hex_lower c = true -> c <> "/"%char.
Proof. intros H ->. discriminate H. Qed.

Lemma rsplit1_none sep r :
  Forall (fun c => c <> sep) r -> rsplit1 sep r = None.
Proof.
  induction 1 as [|c r Hc Hr IH]; [reflexivity|].
  cbn [rsplit1]. rewrite IH. now rewrite (proj2 (Ascii.eqb_neq c sep) Hc).
Qed.

Lemma rsplit1_last sep x r :
  Forall (fun c => c <> sep) r -> rsplit1 sep (x ++ sep :: r) = Some (x, r).
Proof.
  intros Hr. induction x as [|c x IH]; cbn [app rsplit1].
  - rewrite (rsplit1_none sep r Hr). now rewrite Ascii.eqb_refl.
  - now rewrite IH.
Qed.

(** What may follow the file name: nothing, a [#], or the final newline. *)
Definition stops (t : str) : Prop :=
  match t with
  | [] => True
  | c :: _ => fn_char c = false
  end.

Lemma at_end_cases nl : at_end nl = true -> nl = [] \/ nl = ["010"%char].
Proof.
  destruct nl as [|c [|c' nl]]; cbn [at_end]; [now left| |discriminate].
  intros H%Ascii.eqb_eq. subst. now right.
Qed.

Lemma tail_stops md5 nl : at_end nl = true -> stops (checksum_text md5 ++ nl).
Proof.
  intros H. destruct md5 as [h|]; [reflexivity|].
  destruct (at_end_cases nl H) as [->| ->]; [exact I|reflexivity].
Qed.

Lemma tail_no_slash fn md5 nl :
  filename_ok fn -> checksum_ok md5 -> at_end nl = true ->
  Forall (fun c => c <> "/"%char) (fn ++ checksum_text md5 ++ nl).
Proof.
  intros [_ Hf] Hm Hend. rewrite !Forall_app. split; [|split].
  - eapply Forall_impl; [exact Hf|]. intros c H ->. discriminate H.
  - destruct md5 as [h|]; [|constructor]. destruct Hm as [_ Hh].
    constructor; [discriminate|].
    eapply Forall_impl; [exact Hh|]. intros c H ->. discriminate H.
  - destruct (at_end_cases nl Hend) as [->| ->]; repeat constructor. discriminate.
Qed.

Lemma filename_unique f : forall f' t t',
  Forall (fun c => fn_char c = true) f -> Forall (fun c => fn_char c = true) f' ->
  stops t -> stops t' -> f ++ t = f' ++ t' -> f = f' /\ t = t'.
Proof.
  induction f as [|c f IH]; intros f' t t' Hf Hf' Ht Ht' E.
  - destruct f' as [|c' f']; [now split|].
    cbn in E. subst t. cbn in Ht. apply Forall_cons in Hf' as [Hc' _]. congruence.
  - destruct f' as [|c' f'].
    + cbn in E. subst t'. cbn in Ht'. apply Forall_cons in Hf as [Hc _]. congruence.
    + cbn in E. injection E as -> E.
      apply Forall_cons in Hf as [_ Hf]. apply Forall_cons in Hf' as [_ Hf'].
      destruct (IH f' t t' Hf Hf' Ht Ht' E) as [-> ->]. now split.
Qed.

Lemma checksum_unique md5 md5' nl nl' :
  checksum_ok md5 -> checksum_ok md5' -> at_end nl = true -> at_end nl' = true ->
  checksum_text md5 ++ nl = checksum_text md5' ++ nl' -> md5 = md5' /\ nl = nl'.
Proof.
  intros Hm Hm' Hn Hn' E.
  assert (Hl : length nl <= 1) by (destruct (at_end_cases nl Hn) as [->| ->]; simpl; lia).
  assert (Hl' : length nl' <= 1) by (destruct (at_end_cases nl' Hn') as [->| ->]; simpl; lia).
  destruct md5 as [h|], md5' as [h'|]; cbn [checksum_text] in E.
  - destruct Hm as [Hh _], Hm' as [Hh' _]. cbn in E. injection E as E.
    apply app_inj_1 in E as [-> ->]; [now split|congruence].
  - destruct Hm as [Hh _]. apply (f_equal length) in E.
    cbn in E. rewrite length_app in E. lia.
  - destruct Hm' as [Hh' _]. apply (f_equal length) in E.
    cbn in E. rewrite length_app in E. lia.
  - now split.
Qed.

(** A text has at most one reading in the grammar. *)
Lemma package_line_unique url fn md5 nl url' fn' md5' nl' :
  url_prefix_ok url -> filename_ok fn -> checksum_ok md5 -> at_end nl = true ->
  url_prefix_ok url' -> filename_ok fn' -> checksum_ok md5' -> at_end nl' = true ->
  line_text url fn md5 ++ nl = line_text url' fn' md5' ++ nl' ->
  url = url' /\ fn = fn' /\ md5 = md5' /\ nl = nl'.
Proof.
  intros Hu Hf Hm Hn Hu' Hf' Hm' Hn' E. unfold line_text in E.
  rewrite <- !app_assoc in E.
  pose proof (tail_no_slash fn md5 nl Hf Hm Hn) as Hns.
  pose proof (tail_no_slash fn' md5' nl' Hf' Hm' Hn') as Hns'.
  assert (Hsplit : url = url' /\ fn ++ checksum_text md5 ++ nl
                                 = fn' ++ checksum_text md5' ++ nl').
  { pose proof (f_equal (rsplit1 "/"%char) E) as Er.
    destruct url as [u|], url' as [u'|]; cbn in E, Er.
    - destruct Hu as (x & -> & _), Hu' as (x' & -> & _).
      rewrite <- !app_assoc in Er. cbn in Er.
      rewrite !rsplit1_last in Er by assumption. injection Er as -> Er. now split.
    - destruct Hu as (x & -> & _). rewrite <- !app_assoc in Er. cbn in Er.
      rewrite rsplit1_last, rsplit1_none in Er by assumption. discriminate.
    - destruct Hu' as (x' & -> & _). rewrite <- !app_assoc in Er. cbn in Er.
      rewrite rsplit1_last, rsplit1_none in Er by assumption. discriminate.
    - now split. }
  destruct Hsplit as [-> E'].
  destruct Hf as [_ Hf], Hf' as [_ Hf'].
  destruct (filename_unique fn fn' _ _ Hf Hf' (tail_stops md5 nl Hn)
              (tail_stops md5' nl' Hn') E') as [-> E''].
  destruct (checksum_unique _ _ _ _ Hm Hm' Hn Hn' E'') as [-> ->]. auto.
Qed.

(** A stripped line does not end in whitespace. *)
Lemma lstrip_head s : match lstrip s with [] => True | c :: _ => is_space c = false end.
Proof.
  induction s as [|c s IH]; [exact I|]. cbn [lstrip].
  destruct (is_space c) eqn:Hc; [exact IH|exact Hc].
Qed.

Lemma strip_last line t c : strip line = t ++ [c] -> is_space c = false.
Proof.
  unfold strip, rstrip. intros H.
  pose proof (lstrip_head (rev (lstrip line))) as Hh.
  apply (f_equal (@rev ascii)) in H. rewrite rev_involutive, rev_app_distr in H.
  cbn in H. now rewrite H in Hh.
Qed.

Lemma strip_at_end line t nl :
  strip line = t ++ nl -> at_end nl = true -> nl = [].
Proof.
  intros H Hend. destruct (at_end_cases nl Hend) as [->| ->]; [reflexivity|].
  apply strip_last in H. discriminate H.
Qed.

(** [fn.replace('=', '-')] changes the characters one by one. *)
Definition dash_for_equals (c : ascii) : ascii :=
  if Ascii.eqb c "="%char then "-"%char else c.

Lemma replace_equals fn : replace fn (py "=") (py "-") = map dash_for_equals fn.
Proof.
  unfold replace. change (py "=") with ["="%char]. change (py "-") with ["-"%char].
  induction fn as [|c fn IH]; [reflexivity|].
  cbn [replace_go startswith length Nat.sub map]. unfold dash_for_equals at 1.
  rewrite Ascii.eqb_sym. destruct (Ascii.eqb c "="%char); cbn [app]; now rewrite IH.
Qed.

Lemma startswith_map_fixed (f : ascii -> ascii) p : forall s,
  Forall (fun c => forall x, f x = c <-> x = c) p ->
  startswith p (map f s) = startswith p s.
Proof.
  induction p as [|a p IH]; intros s Hp; [reflexivity|].
  apply Forall_cons in Hp as [Ha Hp]. destruct s as [|b s]; [reflexivity|].
  cbn [map startswith]. rewrite (IH s Hp).
  destruct (Ascii.eqb_spec a b) as [<-|Hne].
  - rewrite (proj2 (Ha a) eq_refl). now rewrite Ascii.eqb_refl.
  - destruct (Ascii.eqb_spec a (f b)) as [E|_]; [|reflexivity].
    exfalso. apply Hne. symmetry. now apply Ha.
Qed.

Lemma endswith_tar_bz2_replace fn :
  endswith (py ".tar.bz2") (replace fn (py "=") (py "-")) = endswith (py ".tar.bz2") fn.
Proof.
  rewrite replace_equals. unfold endswith. rewrite <- map_rev.
  apply startswith_map_fixed. cbn.
  repeat (apply Forall_cons; split;
          [intros x; unfold dash_for_equals;
           destruct (Ascii.eqb_spec x "="%char) as [->|]; split; congruence|]).
  constructor.
Qed.

(** A line that is not passed over: what [parse_packages] does with it is
    decided by the grammar. *)
Lemma parse_packages_ignored line lines :
  ignored (strip line) = true ->
  parse_packages (line :: lines) = parse_packages lines.
Proof. intros H. cbn [parse_packages]. unfold ignored in H. now rewrite H. Qed.

Lemma parse_packages_line line lines :
  ignored (strip line) = false ->
  (forall url fn md5,
     package_line (strip line) url fn md5 ->
     parse_packages (line :: lines)
     = Yield (url, normalize_fn fn, md5) (parse_packages lines))
  /\ ((forall url fn md5, ~ package_line (strip line) url fn md5) ->
      parse_packages (line :: lines)
      = Raise (SysExit (py "Error: Could not parse: " ++ strip line))).
Proof.
  intros Hign. cbn [parse_packages]. unfold ignored in Hign. rewrite Hign.
  destruct (re_match url_pat (strip line)) as [m|] eqn:Hm.
  - destruct (re_match_sound _ _ _ Hm) as (s' & Hl).
    destruct (url_pat_sound _ _ _ Hl)
      as (url0 & fn0 & md50 & Hs & Hend & Hu & Hf & Hc & Hg1 & Hg2 & Hg3).
    pose proof (strip_at_end _ _ _ Hs Hend) as ->. rewrite app_nil_r in Hs.
    split.
    + intros url fn md5 (Hs' & Hu' & Hf' & Hc').
      assert (E : line_text url0 fn0 md50 ++ [] = line_text url fn md5 ++ [])
        by (rewrite !app_nil_r; congruence).
      destruct (package_line_unique url0 fn0 md50 [] url fn md5 []
                  Hu Hf Hc eq_refl Hu' Hf' Hc' eq_refl E) as (-> & -> & -> & _).
      rewrite Hg1, Hg2, Hg3. reflexivity.
    + intros Hno. exfalso. apply (Hno url0 fn0 md50). unfold package_line. auto.
  - split; [|reflexivity].
    intros url fn md5 (Hs' & Hu' & Hf' & Hc'). exfalso.
    destruct (url_pat_complete url fn md5 [] Hu' Hf' Hc' eq_refl) as [g Hl].
    rewrite app_nil_r, <- Hs' in Hl.
    exact (re_match_none _ _ Hm _ _ Hl).
Qed.

(** C6: a line that is blank or starts with [#] or [@] once stripped is
    passed over.  Any other line is read by the grammar: when the stripped
    line is a URL prefix ending in [/] (or none), a file name token and a
    [#] with 32 lowercase hexadecimal digits (or none), the line yields the
    prefix, the token with every [=] turned into [-] and [.tar.bz2] added
    unless the name ends in it, and the checksum; a line with no such
    reading ends the build.  The two lines of the specification are read
    as it says. *)
Theorem parse_packages_grammar :
  (forall line lines,
     ignored (strip line) = true ->
     parse_packages (line :: lines) = parse_packages lines)
  /\ (forall line lines,
        ignored (strip line) = false ->
        (forall url fn md5,
           package_line (strip line) url fn md5 ->
           parse_packages (line :: lines)
           = Yield (url, normalize_fn fn, md5) (parse_packages lines))
        /\ ((forall url fn md5, ~ package_line (strip line) url fn md5) ->
            parse_packages (line :: lines)
            = Raise (SysExit (py "Error: Could not parse: " ++ strip line))))
  /\ (forall fn,
        normalize_fn fn
        = if endswith (py ".tar.bz2") (map dash_for_equals fn)
          then map dash_for_equals fn
          else map dash_for_equals fn ++ py ".tar.bz2")
  /\ parse_packages
       [py "https://h/p/foo-1.0-0.tar.bz2#abcdef0123456789abcdef0123456789"]
     = Yield (Some (py "https://h/p/"), py "foo-1.0-0.tar.bz2",
              Some (py "abcdef0123456789abcdef0123456789")) Stop
  /\ parse_packages [py "foo=1.0=0"]
     = Yield (None, py "foo-1.0-0.tar.bz2", None) Stop.
Proof.
  split; [exact parse_packages_ignored|]. split; [exact parse_packages_line|].
  split; [|split; vm_compute; reflexivity].
  intros fn. unfold normalize_fn. now rewrite replace_equals.
Qed.

(** C10: a line whose file name token does not end in [.tar.bz2] yields
    the token, with [=] turned into [-], followed by [.tar.bz2], whatever
    extension the token has; so [foo-1.0-0.conda] becomes
    [foo-1.0-0.conda.tar.bz2]. *)
Theorem parse_packages_appends_tar_bz2 line lines url fn md5 :
  ignored (strip line) = false ->
  package_line (strip line) url fn md5 ->
  endswith (py ".tar.bz2") fn = false ->
  parse_packages (line :: lines)
  = Yield (url, map dash_for_equals fn ++ py ".tar.bz2", md5) (parse_packages lines).
Proof.
  intros Hign Hline Hext.
  destruct (parse_packages_line line lines Hign) as [Hyes _].
  rewrite (Hyes url fn md5 Hline). unfold normalize_fn.
  rewrite endswith_tar_bz2_replace, Hext. now rewrite replace_equals.
Qed.

Lemma parse_packages_appends_tar_bz2_witness :
  ignored (strip (py "foo-1.0-0.conda")) = false
  /\ endswith (py ".tar.bz2") (py "foo-1.0-0.conda") = false
  /\ parse_packages [py "foo-1.0-0.conda"]
     = Yield (None, py "foo-1.0-0.conda.tar.bz2", None) Stop.
Proof.
  split; [reflexivity|]. split; [reflexivity|].
  apply (parse_packages_appends_tar_bz2 (py "foo-1.0-0.conda") [] None
           (py "foo-1.0-0.conda") None).
  - reflexivity.
  - split; [reflexivity|]. split; [exact I|]. split; [|exact I].
    split; [discriminate|]. vm_compute. repeat constructor.
  - reflexivity.
Defined.

(** *** More facts about the package lines *)

(** The records that a generator yields before it stops or raises, and
    whether it stops. *)
Fixpoint yields {A} (g : generator A) : list A :=
  match g with
  | Yield a rest => a :: yields rest
  | _ => []
  end.

Fixpoint completes {A} (g : generator A) : bool :=
  match g with
  | Stop => true
  | Yield _ rest => completes rest
  | Raise _ => false
  end.

(** What [parse_packages] does with a line. *)
Lemma parse_packages_cases line lines :
  (ignored (strip line) = true
   /\ parse_packages (line :: lines) = parse_packages lines)
  \/ (exists url fn md5,
        ignored (strip line) = false /\ package_line (strip line) url fn md5
        /\ parse_packages (line :: lines)
           = Yield (url, normalize_fn fn, md5) (parse_packages lines))
  \/ (ignored (strip line) = false
      /\ (forall url fn md5, ~ package_line (strip line) url fn md5)
      /\ parse_packages (line :: lines)
         = Raise (SysExit (py "Error: Could not parse: " ++ strip line))).
Proof.
  destruct (ignored (strip line)) eqn:Hign.
  { left. split; [reflexivity|]. now apply parse_packages_ignored. }
  right. destruct (parse_packages_line line lines Hign) as [Hyes Hno].
  destruct (re_match url_pat (strip line)) as [m|] eqn:Hm.
  - left. destruct (re_match_sound _ _ _ Hm) as (s' & Hl).
    destruct (url_pat_sound _ _ _ Hl)
      as (url & fn & md5 & Hs & Hend & Hu & Hf & Hc & _).
    pose proof (strip_at_end _ _ _ Hs Hend) as ->. rewrite app_nil_r in Hs.
    assert (Hline : package_line (strip line) url fn md5) by (unfold package_line; auto).
    exists url, fn, md5. split; [reflexivity|]. split; [exact Hline|]. now apply Hyes.
  - right. split; [reflexivity|].
    assert (Hnone : forall url fn md5, ~ package_line (strip line) url fn md5).
    { intros url fn md5 (Hs & Hu & Hf & Hc).
      destruct (url_pat_complete url fn md5 [] Hu Hf Hc eq_refl) as [g Hl].
      rewrite app_nil_r, <- Hs in Hl. exact (re_match_none _ _ Hm _ _ Hl). }
    split; [exact Hnone|]. now apply Hno.
Qed.

Lemma endswith_app p s : endswith p (s ++ p) = true.
Proof. unfold endswith. rewrite rev_app_distr. apply startswith_app. Qed.

Lemma dash_for_equals_fn_char c :
  fn_char c = true ->
  fn_char (dash_for_equals c) = true /\ dash_for_equals c <> "="%char.
Proof.
  intros Hc. unfold dash_for_equals.
  destruct (Ascii.eqb_spec c "="%char) as [->|Hne]; [split; [reflexivity|discriminate]|].
  now split.
Qed.

(** The file name that lines 103 to 105 keep for a token. *)
Lemma normalize_fn_wellformed fn :
  Forall (fun c => fn_char c = true) fn ->
  endswith (py ".tar.bz2") (normalize_fn fn) = true
  /\ Forall (fun c => fn_char c = true /\ c <> "="%char) (normalize_fn fn).
Proof.
  intros Hfn. unfold normalize_fn. rewrite endswith_tar_bz2_replace, replace_equals.
  assert (Hmap : Forall (fun c => fn_char c = true /\ c <> "="%char)
                   (map dash_for_equals fn)).
  { change (map dash_for_equals fn) with (dash_for_equals <$> fn).
    apply Forall_fmap. eapply Forall_impl; [exact Hfn|].
    intros c Hc. now apply dash_for_equals_fn_char. }
  destruct (endswith (py ".tar.bz2") fn) eqn:Hext.
  - split; [|exact Hmap].
    rewrite <- endswith_tar_bz2_replace, replace_equals in Hext. exact Hext.
  - split; [apply endswith_app|].
    apply Forall_app. split; [exact Hmap|].
    repeat (apply Forall_cons; split; [split; [reflexivity|discriminate]|]).
    constructor.
Qed.

(** X4: every record that [parse_packages] yields has a file name that
    ends in [.tar.bz2] and holds no whitespace, [#], [/] or [=], a URL that
    is [None] or ends in [/], and a checksum that is [None] or 32 lowercase
    hexadecimal digits. *)
Theorem parse_packages_yields_wellformed lines url fn md5 :
  (url, fn, md5) ∈ yields (parse_packages lines) ->
  url_prefix_ok url /\ checksum_ok md5
  /\ endswith (py ".tar.bz2") fn = true
  /\ Forall (fun c => fn_char c = true /\ c <> "="%char) fn.
Proof.
  induction lines as [|line lines IH]; [intros H; now apply elem_of_nil in H|].
  destruct (parse_packages_cases line lines)
    as [[_ ->]|[(url0 & fn0 & md50 & _ & Hline & ->)|(_ & _ & ->)]].
  - exact IH.
  - cbn [yields]. intros H. apply elem_of_cons in H as [[= -> -> ->]|H]; [|now apply IH].
    destruct Hline as (_ & Hu & [_ Hf] & Hc).
    split; [exact Hu|]. split; [exact Hc|]. now apply normalize_fn_wellformed.
  - intros H. now apply elem_of_nil in H.
Qed.

Lemma parse_packages_yields_wellformed_witness :
  yields (parse_packages [py "# explicit"; py "https://h/p/foo=1.0=0"])
  = [(Some (py "https://h/p/"), py "foo-1.0-0.tar.bz2", None)]
  /\ endswith (py ".tar.bz2") (py "foo-1.0-0.tar.bz2") = true.
Proof.
  assert (E : yields (parse_packages [py "# explicit"; py "https://h/p/foo=1.0=0"])
              = [(Some (py "https://h/p/"), py "foo-1.0-0.tar.bz2", None)])
    by (vm_compute; reflexivity).
  split; [exact E|].
  apply (parse_packages_yields_wellformed
           [py "# explicit"; py "https://h/p/foo=1.0=0"]
           (Some (py "https://h/p/")) (py "foo-1.0-0.tar.bz2") None).
  rewrite E. apply elem_of_cons. now left.
Defined.

Lemma space_is_no_fn_char c : is_space c = true -> fn_char c = false.
Proof. intros H. unfold fn_char. now rewrite H. Qed.

Lemma hex_lower_no_space c : hex_lower c = true -> is_space c = false.
Proof.
  unfold hex_lower, is_space. set (n := N_of_ascii c). intros H.
  apply orb_true_iff in H as [H|H]; apply andb_true_iff in H as [H1 H2];
    apply N.leb_le in H1, H2;
    repeat (apply orb_false_iff; split);
    try (apply andb_false_iff; first [left; apply N.leb_gt; lia|right; apply N.leb_gt; lia]);
    apply N.eqb_neq; lia.
Qed.

(** No character of a line that the grammar reads is whitespace. *)
Lemma package_line_no_space line url fn md5 c :
  package_line line url fn md5 -> c ∈ line -> is_space c = false.
Proof.
  intros (-> & Hu & [_ Hf] & Hc) Hin. unfold line_text in Hin.
  rewrite !elem_of_app in Hin. destruct Hin as [Hin|[Hin|Hin]].
  - destruct url as [u|]; [|now apply elem_of_nil in Hin]. cbn in Hin.
    destruct Hu as (u' & -> & _ & Hu'). apply elem_of_app in Hin as [Hin|Hin].
    + rewrite Forall_forall in Hu'. specialize (Hu' c Hin).
      unfold not_space in Hu'. now apply negb_true_iff in Hu'.
    + apply list_elem_of_singleton in Hin as ->. reflexivity.
  - rewrite Forall_forall in Hf. specialize (Hf c Hin). unfold fn_char in Hf.
    apply negb_true_iff in Hf. apply orb_false_iff in Hf as [Hf _].
    now apply orb_false_iff in Hf as [Hf _].
  - destruct md5 as [m|]; [|now apply elem_of_nil in Hin]. cbn in Hin, Hc.
    apply elem_of_cons in Hin as [->|Hin]; [reflexivity|].
    destruct Hc as [_ Hm]. rewrite Forall_forall in Hm. now apply hex_lower_no_space, Hm.
Qed.

(** X5: a line that is not passed over and holds whitespace between its
    first and last character ends the build with the message of line 101,
    whatever comes after it. *)
Theorem parse_packages_rejects_whitespace line lines c :
  ignored (strip line) = false ->
  c ∈ strip line -> is_space c = true ->
  parse_packages (line :: lines)
  = Raise (SysExit (py "Error: Could not parse: " ++ strip line)).
Proof.
  intros Hign Hin Hc.
  apply (proj2 (parse_packages_line line lines Hign)).
  intros url fn md5 Hline.
  pose proof (package_line_no_space _ _ _ _ c Hline Hin). congruence.
Qed.

Lemma parse_packages_rejects_whitespace_witness :
  parse_packages [py "  numpy 1.16  "; py "zlib-1.2.11-0"]
  = Raise (SysExit (py "Error: Could not parse: numpy 1.16")).
Proof.
  apply (parse_packages_rejects_whitespace (py "  numpy 1.16  ") [py "zlib-1.2.11-0"]
           " "%char).
  - reflexivity.
  - vm_compute. do 5 (apply elem_of_cons; right). apply elem_of_cons. now left.
  - reflexivity.
Defined.

(** *** Facts about [handle_packages] *)

Definition record_fn (r : option str * str * option str) : str := snd (fst r).

Lemma handle_loop_ok items : forall g g',
  handle_loop items g = Ok g' ->
  completes items = true
  /\ dists g' = dists g ++ map record_fn (yields items)
  /\ index g' = index g
  /\ (forall fn, fn ∈ map record_fn (yields items) ->
        2 <= count fn (py "-")
        /\ is_Some (urls g' !! fn) /\ is_Some (md5s g' !! fn))
  /\ (forall fn, fn ∉ map record_fn (yields items) ->
        urls g' !! fn = urls g !! fn /\ md5s g' !! fn = md5s g !! fn).
Proof.
  induction items as [|[[url fn] md5_] rest IH|e]; intros g g'; cbn [handle_loop].
  - intros [= <-]. cbn. rewrite app_nil_r.
    split; [reflexivity|]. split; [reflexivity|]. split; [reflexivity|].
    split; [intros fn' Hfn'; now apply elem_of_nil in Hfn'|].
    intros fn' _. now split.
  - destruct (count fn (py "-") <? 2) eqn:Hcount; [discriminate|].
    apply Nat.ltb_ge in Hcount.
    match goal with |- context [mbind _ ?m] => destruct m as [u|e] eqn:Hu end;
      [|discriminate].
    unfold mbind, result_bind. intros H.
    apply IH in H as (Hdone & Hd & Hi & Hin & Hout). cbn [dists index urls md5s] in *.
    split; [exact Hdone|]. split; [cbn; now rewrite Hd, <- app_assoc|].
    split; [exact Hi|]. cbn [yields map record_fn fst snd]. split.
    + intros fn' Hfn'.
      destruct (decide (fn' ∈ map record_fn (yields rest))) as [Hr|Hr];
        [now apply Hin|].
      apply elem_of_cons in Hfn' as [->|Hfn']; [|contradiction].
      destruct (Hout fn Hr) as [-> ->]. rewrite !lookup_insert_eq.
      split; [exact Hcount|]. split; eexists; reflexivity.
    + intros fn' Hfn'. rewrite not_elem_of_cons in Hfn'. destruct Hfn' as [Hne Hr].
      destruct (Hout fn' Hr) as [-> ->]. now rewrite !lookup_insert_ne by congruence.
  - discriminate.
Qed.

(** X6: when [handle_packages] returns, every line of [info['packages']]
    was passed over or read; [dists] has grown by the file names read, in
    their order, each ending in [.tar.bz2] and holding two dashes or more;
    each has an entry in [urls] and in [md5s]; the index and the entries
    of [urls] and [md5s] under other names are as they were. *)
Theorem handle_packages_adds info g g' :
  handle_packages info g = Ok g' ->
  completes (parse_packages (default [] (info_packages info))) = true
  /\ dists g'
     = dists g ++ map record_fn (yields (parse_packages (default [] (info_packages info))))
  /\ index g' = index g
  /\ (forall fn,
        fn ∈ map record_fn (yields (parse_packages (default [] (info_packages info)))) ->
        endswith (py ".tar.bz2") fn = true /\ 2 <= count fn (py "-")
        /\ is_Some (urls g' !! fn) /\ is_Some (md5s g' !! fn))
  /\ (forall fn,
        fn ∉ map record_fn (yields (parse_packages (default [] (info_packages info)))) ->
        urls g' !! fn = urls g !! fn /\ md5s g' !! fn = md5s g !! fn).
Proof.
  unfold handle_packages. intros H.
  apply handle_loop_ok in H as (Hdone & Hd & Hi & Hin & Hout).
  split; [exact Hdone|]. split; [exact Hd|]. split; [exact Hi|]. split; [|exact Hout].
  intros fn Hfn. destruct (Hin fn Hfn) as (Hc & Hu & Hm).
  split; [|auto].
  change (map record_fn ?l) with (record_fn <$> l) in Hfn.
  apply list_elem_of_fmap in Hfn as ([[url fn'] md5_] & -> & Hr).
  now apply parse_packages_yields_wellformed in Hr.
Qed.


(** *** [handle_packages] on examples *)

Definition with_packages (lines : list str) : Info :=
  {| info_name := []; info_version := []; info_channels := None;
     info_specs := None; info_exclude := None; info_packages := Some lines;
     info_menu_packages := None; info_install_in_dependency_order := None;
     info_default_prefix := None; info_license_file := None;
     info_pre_install := None; info_post_install := None;
     info_keep_pkgs := None; info_attempt_hardlinks := None;
     info_initialize_by_default := None; info__platform := [];
     info__download_dir := []; info__conda_exe := []; info__outpath := [];
     info__dists := []; info__urls := [] |}.

Definition no_globals : Globals :=
  {| dists := []; index := ∅; urls := ∅; md5s := ∅ |}.

Lemma handle_packages_adds_witness :
  exists g',
    handle_packages (with_packages [py "https://h/p/foo=1.0=0"; py ""]) no_globals = Ok g'
    /\ dists g' = [py "foo-1.0-0.tar.bz2"]
    /\ urls g' !! py "foo-1.0-0.tar.bz2" = Some (py "https://h/p/").
Proof.
  assert (E : exists g1,
             handle_packages (with_packages [py "https://h/p/foo=1.0=0"; py ""]) no_globals
             = Ok g1) by (eexists; vm_compute; reflexivity).
  destruct E as [g1 E]. exists g1. split; [exact E|].
  destruct (handle_packages_adds _ _ _ E) as (_ & Hd & _).
  split; [rewrite Hd; vm_compute; reflexivity|].
  revert E. vm_compute. intros [= <-]. reflexivity.
Defined.


(** *** More facts about the package set *)

Lemma filter_all {A} (P : A -> Prop) `{forall x, Decision (P x)} (l : list A) :
  (forall x, x ∈ l -> P x) -> filter P l = l.
Proof.
  induction l as [|a l IH]; intros Hl; [reflexivity|].
  rewrite filter_cons, decide_True by (apply Hl; now left).
  f_equal. apply IH. intros x Hx. apply Hl. now right.
Qed.

(** Line 75: the characters that a name to exclude may not hold. *)
Definition bad_name (name : str) : bool :=
  existsb (fun bad_char => contains_char bad_char name) (py " =<>*").

Section PackageSetFacts.

Variable name_dist : str -> str.

Lemma NoDup_names_filter (P : str -> Prop) `{forall x, Decision (P x)} dists :
  NoDup (name_dist <$> dists) -> NoDup (name_dist <$> filter P dists).
Proof.
  induction dists as [|d dists IH]; [intros _; constructor|].
  rewrite fmap_cons, NoDup_cons. intros [Hd Hnd]. rewrite filter_cons.
  destruct (decide (P d)); [|now apply IH].
  rewrite fmap_cons, NoDup_cons. split; [|now apply IH].
  intros Hin. apply Hd. apply list_elem_of_fmap in Hin as (x & Hx & Hin).
  apply list_elem_of_filter in Hin as [_ Hin]. apply list_elem_of_fmap. now exists x.
Qed.

(** Where names are distinct, removing an entry removes all that carry
    its name. *)
Lemma list_remove_named d dists :
  NoDup (name_dist <$> dists) -> d ∈ dists ->
  list_remove d dists = Ok (filter (fun x => name_dist x <> name_dist d) dists).
Proof.
  induction dists as [|y dists IH]; intros Hnd Hin; [now apply elem_of_nil in Hin|].
  rewrite fmap_cons, NoDup_cons in Hnd. destruct Hnd as [Hy Hnd].
  cbn [list_remove]. rewrite filter_cons.
  destruct (decide (y = d)) as [->|Hne].
  - rewrite decide_False by (intros Hc; now apply Hc). f_equal. symmetry.
    apply filter_all. intros x Hx Heq. apply Hy. rewrite <- Heq.
    apply list_elem_of_fmap. now exists x.
  - apply elem_of_cons in Hin as [->|Hin]; [congruence|].
    rewrite (IH Hnd Hin). cbn. rewrite decide_True; [reflexivity|].
    intros Heq. apply Hy. rewrite Heq. apply list_elem_of_fmap. now exists d.
Qed.

Lemma find_and_remove_found name copy dists :
  NoDup (name_dist <$> dists) -> (forall d, d ∈ copy -> d ∈ dists) ->
  name ∈ name_dist <$> copy ->
  find_and_remove name_dist name copy dists
  = Ok (filter (fun x => name_dist x <> name) dists).
Proof.
  intros Hnd. induction copy as [|d copy IH]; intros Hsub Hin;
    [now apply elem_of_nil in Hin|].
  cbn [find_and_remove]. destruct (decide (name_dist d = name)) as [<-|Hne].
  - apply list_remove_named; [exact Hnd|apply Hsub; now left].
  - apply IH; [intros x Hx; apply Hsub; now right|].
    rewrite fmap_cons in Hin. apply elem_of_cons in Hin as [Heq|Hin]; [congruence|exact Hin].
Qed.

Lemma find_and_remove_absent name copy dists :
  name ∉ name_dist <$> copy ->
  find_and_remove name_dist name copy dists
  = Err (SysExit (py "Error: no package named '" ++ name ++ py "' to remove")).
Proof.
  induction copy as [|d copy IH]; intros Hin; [reflexivity|].
  cbn [find_and_remove]. rewrite fmap_cons, not_elem_of_cons in Hin.
  destruct Hin as [Hne Hin]. rewrite decide_False by congruence. now apply IH.
Qed.

(** What the loop of lines 74 to 85 asks of the names to exclude. *)
Definition excludable (names : list str) (dists : list str) : Prop :=
  NoDup names
  /\ forall name, name ∈ names ->
       bad_name name = false /\ name ∈ name_dist <$> dists.

Definition without (names : list str) (dists : list str) : list str :=
  filter (fun d => name_dist d ∉ names) dists.

Lemma without_cons name names dists :
  without names (filter (fun x => name_dist x <> name) dists)
  = without (name :: names) dists.
Proof.
  unfold without. rewrite list_filter_filter. apply list_filter_iff.
  intros x. rewrite not_elem_of_cons. tauto.
Qed.

Lemma exclude_loop_spec names : forall dists ds,
  NoDup (name_dist <$> dists) ->
  exclude_loop name_dist names dists = Ok ds <->
  excludable names dists /\ ds = without names dists.
Proof.
  induction names as [|name names IH]; intros dists ds Hnd; cbn [exclude_loop].
  - unfold excludable, without. rewrite filter_all by (intros x _; apply not_elem_of_nil).
    split.
    + intros [= <-]. split; [|reflexivity]. split; [constructor|].
      intros name H. now apply elem_of_nil in H.
    + now intros [_ ->].
  - fold (bad_name name). destruct (bad_name name) eqn:Hbad.
    { split; [discriminate|]. intros [[_ Hall] _].
      destruct (Hall name) as [Hb _]; [now left|]. congruence. }
    destruct (decide (name ∈ name_dist <$> dists)) as [Hin|Hnin].
    2:{ rewrite find_and_remove_absent by exact Hnin. split; [discriminate|].
        intros [[_ Hall] _]. destruct (Hall name) as [_ Hc]; [now left|]. contradiction. }
    rewrite find_and_remove_found by auto. cbn.
    rewrite IH by (now apply NoDup_names_filter). rewrite without_cons.
    unfold excludable. rewrite NoDup_cons.
    split.
    + intros [[Hnd' Hall] ->]. split; [|reflexivity]. split.
      * split; [|exact Hnd']. intros Hc. destruct (Hall name Hc) as [_ Hc'].
        apply list_elem_of_fmap in Hc' as (x & Hx & Hc').
        apply list_elem_of_filter in Hc' as [Hc' _]. congruence.
      * intros n Hn. apply elem_of_cons in Hn as [->|Hn]; [now split|].
        destruct (Hall n Hn) as [Hb Hc]. split; [exact Hb|].
        apply list_elem_of_fmap in Hc as (x & Hx & Hc).
        apply list_elem_of_filter in Hc as [_ Hc]. apply list_elem_of_fmap. now exists x.
    + intros [[[Hnew Hnd'] Hall] ->]. split; [|reflexivity]. split; [exact Hnd'|].
      intros n Hn. destruct (Hall n) as [Hb Hc]; [now right|]. split; [exact Hb|].
      apply list_elem_of_fmap in Hc as (x & Hx & Hc). apply list_elem_of_fmap.
      exists x. split; [exact Hx|]. apply list_elem_of_filter. split; [|exact Hc].
      intros Heq. apply Hnew. congruence.
Qed.

(** X1: [exclude_packages] passes exactly when no two entries share a
    name, the names to exclude are distinct, hold none of the characters of
    line 75 and each name an entry; what is left are the entries with
    another name, in their order. *)
Theorem exclude_packages_removes info dists ds :
  exclude_packages name_dist info dists = Ok ds <->
  NoDup (name_dist <$> dists)
  /\ excludable (default [] (info_exclude info)) dists
  /\ ds = without (default [] (info_exclude info)) dists.
Proof.
  unfold exclude_packages.
  destruct (check_duplicates name_dist dists) as [[]|e] eqn:Hdup.
  - apply check_duplicates_ok in Hdup. cbn. rewrite exclude_loop_spec by exact Hdup.
    tauto.
  - split; [discriminate|]. intros [Hnd _]. apply check_duplicates_ok in Hnd. congruence.
Qed.

Lemma exclude_loop_app pre post dists :
  exclude_loop name_dist (pre ++ post) dists
  = exclude_loop name_dist pre dists ≫= exclude_loop name_dist post.
Proof.
  revert dists. induction pre as [|name pre IH]; intros dists; [reflexivity|].
  cbn [app exclude_loop]. destruct (existsb _ _); [reflexivity|].
  destruct (find_and_remove name_dist name dists dists) as [ds|e]; [|reflexivity].
  cbn. apply IH.
Qed.

(** X2: how [exclude_packages] ends the build.  When the entries have
    distinct names and the names before [name] in the list were excluded,
    a [name] that holds one of the characters of line 75 ends it with the
    [TypeError] of the message of line 77, which has two [%s] for one
    argument; a [name] that no entry carries, or that was excluded
    already, ends it with the message of line 85. *)
Theorem exclude_packages_errors info dists pre name post :
  default [] (info_exclude info) = pre ++ name :: post ->
  NoDup (name_dist <$> dists) ->
  excludable pre dists ->
  (bad_name name = true -> exclude_packages name_dist info dists = Err TypeError)
  /\ (bad_name name = false ->
      name ∈ pre \/ name ∉ name_dist <$> dists ->
      exclude_packages name_dist info dists
      = Err (SysExit (py "Error: no package named '" ++ name ++ py "' to remove"))).
Proof.
  intros Hex Hnd Hpre. unfold exclude_packages.
  rewrite (proj2 (check_duplicates_ok name_dist dists) Hnd), Hex. cbn.
  rewrite exclude_loop_app.
  rewrite (proj2 (exclude_loop_spec pre dists (without pre dists) Hnd)) by auto.
  unfold mbind, result_bind.
  change (exclude_loop name_dist (name :: post) (without pre dists))
    with (if bad_name name then Err TypeError
          else find_and_remove name_dist name (without pre dists) (without pre dists)
               ≫= exclude_loop name_dist post).
  split.
  - now intros ->.
  - intros -> Habs. rewrite find_and_remove_absent; [reflexivity|].
    intros Hin. apply list_elem_of_fmap in Hin as (x & Hx & Hin).
    apply list_elem_of_filter in Hin as [Hnot Hin].
    destruct Habs as [Habs|Habs]; [apply Hnot; congruence|].
    apply Habs, list_elem_of_fmap. now exists x.
Qed.

(** Removing the first entry equal to [d] after entries that differ from
    it. *)
Lemma list_remove_middle d l1 l2 :
  d ∉ l1 -> list_remove d (l1 ++ d :: l2) = Ok (l1 ++ l2).
Proof.
  induction l1 as [|y l1 IH]; intros Hnot; cbn [app list_remove].
  - now rewrite decide_True.
  - rewrite not_elem_of_cons in Hnot. destruct Hnot as [Hne Hnot].
    rewrite decide_False by congruence. now rewrite (IH Hnot).
Qed.

Lemma move_python_first_loop_at l1 d l2 dists :
  (forall x, x ∈ l1 -> name_dist x <> py "python") ->
  name_dist d = py "python" ->
  move_python_first_loop name_dist (l1 ++ d :: l2) dists
  = list_remove d dists ≫= fun dists' => Ok (d :: dists').
Proof.
  intros Hl1 Hd. induction l1 as [|y l1 IH]; cbn [app move_python_first_loop].
  - now rewrite decide_True.
  - rewrite decide_False by (apply Hl1; now left).
    apply IH. intros x Hx. apply Hl1. now right.
Qed.

Lemma move_python_first_loop_none copy dists :
  (forall x, x ∈ copy -> name_dist x <> py "python") ->
  move_python_first_loop name_dist copy dists = Ok dists.
Proof.
  induction copy as [|y copy IH]; intros Hall; [reflexivity|].
  cbn [move_python_first_loop]. rewrite decide_False by (apply Hall; now left).
  apply IH. intros x Hx. apply Hall. now right.
Qed.

(** X3: [move_python_first] takes the first entry whose name is python to
    the front and keeps the order of the others; a list without such an
    entry stays as it is. *)
Theorem move_python_first_order dists :
  (forall l1 d l2,
     dists = l1 ++ d :: l2 ->
     (forall x, x ∈ l1 -> name_dist x <> py "python") ->
     name_dist d = py "python" ->
     move_python_first name_dist dists = Ok (d :: l1 ++ l2))
  /\ ((forall x, x ∈ dists -> name_dist x <> py "python") ->
      move_python_first name_dist dists = Ok dists).
Proof.
  unfold move_python_first. split.
  - intros l1 d l2 -> Hl1 Hd. rewrite move_python_first_loop_at by assumption.
    rewrite list_remove_middle; [reflexivity|].
    intros Hin. now apply (Hl1 d Hin).
  - apply move_python_first_loop_none.
Qed.

End PackageSetFacts.

(** *** The package set on more examples *)

Definition excluding (names : list str) : Info :=
  {| info_name := []; info_version := []; info_channels := None;
     info_specs := None; info_exclude := Some names; info_packages := None;
     info_menu_packages := None; info_install_in_dependency_order := None;
     info_default_prefix := None; info_license_file := None;
     info_pre_install := None; info_post_install := None;
     info_keep_pkgs := None; info_attempt_hardlinks := None;
     info_initialize_by_default := None; info__platform := [];
     info__download_dir := []; info__conda_exe := []; info__outpath := [];
     info__dists := []; info__urls := [] |}.

Lemma two_names :
  NoDup (name_of_filename <$> [py "python-3.7.4-0.tar.bz2"; py "zlib-1.2.11-0.tar.bz2"]).
Proof.
  vm_compute. apply NoDup_cons. split; [|apply NoDup_singleton].
  rewrite list_elem_of_singleton. discriminate.
Qed.

Lemma zlib_excludable :
  excludable name_of_filename [py "zlib"]
    [py "python-3.7.4-0.tar.bz2"; py "zlib-1.2.11-0.tar.bz2"].
Proof.
  split; [apply NoDup_singleton|]. intros name Hn.
  apply list_elem_of_singleton in Hn as ->. split; [reflexivity|].
  vm_compute. apply elem_of_cons. right. apply elem_of_cons. now left.
Qed.

Lemma exclude_packages_removes_witness :
  exclude_packages name_of_filename (excluding [py "zlib"])
    [py "python-3.7.4-0.tar.bz2"; py "zlib-1.2.11-0.tar.bz2"]
  = Ok [py "python-3.7.4-0.tar.bz2"].
Proof.
  apply (exclude_packages_removes name_of_filename (excluding [py "zlib"])
           [py "python-3.7.4-0.tar.bz2"; py "zlib-1.2.11-0.tar.bz2"]
           [py "python-3.7.4-0.tar.bz2"]).
  split; [exact two_names|]. split; [exact zlib_excludable|].
  vm_compute. reflexivity.
Defined.

Lemma exclude_packages_errors_witness :
  exclude_packages name_of_filename (excluding [py "zlib"; py "zlib"])
    [py "python-3.7.4-0.tar.bz2"; py "zlib-1.2.11-0.tar.bz2"]
  = Err (SysExit (py "Error: no package named 'zlib' to remove"))
  /\ exclude_packages name_of_filename (excluding [py "zlib"; py "numpy>1"])
       [py "python-3.7.4-0.tar.bz2"; py "zlib-1.2.11-0.tar.bz2"]
     = Err TypeError.
Proof.
  split.
  - apply (exclude_packages_errors name_of_filename (excluding [py "zlib"; py "zlib"])
             [py "python-3.7.4-0.tar.bz2"; py "zlib-1.2.11-0.tar.bz2"]
             [py "zlib"] (py "zlib") []);
      [reflexivity|exact two_names|exact zlib_excludable|reflexivity|].
    left. apply list_elem_of_singleton. reflexivity.
  - apply (exclude_packages_errors name_of_filename
             (excluding [py "zlib"; py "numpy>1"])
             [py "python-3.7.4-0.tar.bz2"; py "zlib-1.2.11-0.tar.bz2"]
             [py "zlib"] (py "numpy>1") []);
      [reflexivity|exact two_names|exact zlib_excludable|reflexivity].
Defined.

Lemma move_python_first_order_witness :
  move_python_first name_of_filename
    [py "zlib-1.2.11-0.tar.bz2"; py "python-3.7.4-0.tar.bz2"; py "foo-1.0-0.tar.bz2"]
  = Ok [py "python-3.7.4-0.tar.bz2"; py "zlib-1.2.11-0.tar.bz2"; py "foo-1.0-0.tar.bz2"].
Proof.
  apply (proj1 (move_python_first_order name_of_filename
                  [py "zlib-1.2.11-0.tar.bz2"; py "python-3.7.4-0.tar.bz2";
                   py "foo-1.0-0.tar.bz2"])
           [py "zlib-1.2.11-0.tar.bz2"] (py "python-3.7.4-0.tar.bz2")
           [py "foo-1.0-0.tar.bz2"]).
  - reflexivity.
  - intros x Hx. apply list_elem_of_singleton in Hx as ->. vm_compute. discriminate.
  - vm_compute. reflexivity.
Defined.

(** *** The fetch phase on examples *)

(** A channel index with one record, and a package line that declares
    another checksum for it. *)
Definition example_record : pkginfo :=
  {| channel := py "https://repo.example/pkgs/linux-64";
     md5 := py "0123456789abcdef0123456789abcdef" |}.

Definition example_globals (inline : option str) : Globals :=
  {| dists := [py "python-3.7.4-0.tar.bz2"];
     index := {[ py "python-3.7.4-0.tar.bz2" := example_record ]};
     urls := ∅;
     md5s := {[ py "python-3.7.4-0.tar.bz2" := inline ]} |}.

Definition no_index (use_conda : bool) (channels : list str) : gmap str pkginfo := ∅.

Definition fetch_nothing (rec : pkginfo) (dir : str) (files : filesystem)
  : result filesystem := Err (ExternalError (py "fetch_pkg")).

(** A stand-in for the content hash: the file read as text. *)
Definition text_of (f : file) : str := map ascii_of_N f.

Lemma fetch_checks_before_fetching_witness :
  (exists e st',
     fetch no_index fetch_nothing text_of id empty_info false
       (example_globals (Some (py "ffffffffffffffffffffffffffffffff"))) ∅ = (Err e, st')
     /\ forall c, c ∈ fetch_calls st' -> fst c <> py "python-3.7.4-0.tar.bz2")
  /\ (exists st',
        fetch_one no_index fetch_nothing text_of id false (py "/cache")
          (example_globals None) (py "python-3.7.4-0.tar.bz2")
          {| fs := {[ py "/cache/python-3.7.4-0.tar.bz2"
                      := map N_of_ascii (py "0123456789abcdef0123456789abcdef") ]};
             idx := index (example_globals None); out_urls := []; fetch_calls := [] |}
        = (Ok (), st')
        /\ fetch_calls st' = [] /\ fs st' = {[ py "/cache/python-3.7.4-0.tar.bz2"
                      := map N_of_ascii (py "0123456789abcdef0123456789abcdef") ]}).
Proof.
  split.
  - apply (fetch_checks_before_fetching no_index fetch_nothing text_of id false
             (example_globals (Some (py "ffffffffffffffffffffffffffffffff")))).
    + cbn. now left.
    + exists (py "ffffffffffffffffffffffffffffffff"), example_record.
      split; [reflexivity|]. split; [discriminate|]. split; [reflexivity|discriminate].
  - apply (fetch_checks_before_fetching no_index fetch_nothing text_of id false
             (example_globals None)) with (rec := example_record)
             (f := map N_of_ascii (py "0123456789abcdef0123456789abcdef")).
    + reflexivity.
    + reflexivity.
    + reflexivity.
    + reflexivity.
Defined.

(** *** Facts about the build as a whole *)

Section BuildFacts.

Variable name_dist : str -> str.
Variable solve : bool -> gmap str pkginfo -> list str -> list str + str.
Variable graph_sort : bool -> gmap str pkginfo -> list (str * str) -> list str.
Variable fetch_index : bool -> list str -> gmap str pkginfo.
Variable prioritize_channels : list str -> list str.
Variable fetch_pkg : pkginfo -> str -> filesystem -> result filesystem.
Variable md5_file : file -> str.
Variable filename_dist : str -> str.

(** X8: when [resolve] returns, the index was not empty; the solver was
    asked for the specs, with [python] added after them exactly when no
    spec has python as its first word; [dists] has grown at its end, by
    the solver's answer as it is unless the dependency order is asked
    for, and then by names that end in [.tar.bz2]; the index, [urls] and
    [md5s] are as they were. *)
Theorem resolve_extends info use_conda g g' :
  resolve name_dist solve graph_sort info use_conda g = Ok g' ->
  index g <> ∅
  /\ index g' = index g /\ urls g' = urls g /\ md5s g' = md5s g
  /\ exists has_python res new,
       any_python (default [] (info_specs info)) = Ok has_python
       /\ solve use_conda (index g)
            (if has_python : bool then default [] (info_specs info)
             else default [] (info_specs info) ++ [py "python"]) = inl res
       /\ dists g' = dists g ++ new
       /\ (info_install_in_dependency_order info = None -> new = res)
       /\ (is_Some (info_install_in_dependency_order info) ->
           Forall (fun d => endswith (py ".tar.bz2") d = true) new).
Proof.
  unfold resolve. destruct (decide (index g = ∅)) as [|Hidx]; [discriminate|].
  destruct (any_python (default [] (info_specs info))) as [b|e] eqn:Hany;
    [|discriminate].
  unfold mbind, result_bind.
  destruct (solve use_conda (index g) _) as [res|e] eqn:Hsolve; [|discriminate].
  intros [= <-]. cbn [dists index urls md5s].
  split; [exact Hidx|]. split; [reflexivity|]. split; [reflexivity|].
  split; [reflexivity|].
  eexists b, res, _. split; [reflexivity|]. split; [exact Hsolve|].
  split; [reflexivity|]. split.
  - now intros ->.
  - intros [v Hv]. rewrite Hv. apply Forall_forall. intros d Hd.
    change (map ?f ?l) with (f <$> l) in Hd.
    apply list_elem_of_fmap in Hd as (x & -> & _). apply endswith_app.
Qed.

(** What passes the finalisation. *)
Lemma finalize_ok info dists ds :
  finalize name_dist info dists = Ok ds ->
  ds ≡ₚ dists /\ NoDup (name_dist <$> ds)
  /\ exists d rest, ds = d :: rest /\ name_dist d = py "python".
Proof.
  intros Hfin.
  destruct (finalize_input name_dist info dists) as (ds' & Hperm & Heq & _).
  rewrite Heq in Hfin.
  destruct (check_dists_cases name_dist ds')
    as [[_ Hc]|[(_ & _ & name & _ & Hc)|(Hnd & d0 & rest & E & Hc)]];
    try (rewrite Hc in Hfin; discriminate Hfin).
  destruct Hc as [[Hpy Hc]|[_ Hc]]; rewrite Hc in Hfin; [|discriminate Hfin].
  cbn in Hfin. injection Hfin as <-. split; [exact Hperm|]. split; [exact Hnd|].
  now exists d0, rest.
Qed.







Lemma fetch_one_calls use_conda download_dir g dist st r st' :
  fetch_one fetch_index fetch_pkg md5_file filename_dist use_conda download_dir g dist st
  = (r, st') ->
  fetch_calls st' = fetch_calls st
  \/ exists rec, fetch_calls st' = fetch_calls st ++ [(dist, rec)].
Proof.
  unfold fetch_one.
  destruct (lookup_pkginfo fetch_index use_conda g dist st) as [rec|e];
    [|intros [= <- <-]; now left].
  destruct (md5_mismatch _ _); [intros [= <- <-]; now left|].
  cbn [fs idx out_urls fetch_calls].
  destruct (cache_hit _ _ _); [intros [= <- <-]; now left|].
  destruct (fetch_pkg _ _ _); intros [= <- <-]; right; eexists; reflexivity.
Qed.

Lemma fetch_loop_calls use_conda download_dir g todo : forall st r st',
  fetch_loop fetch_index fetch_pkg md5_file filename_dist use_conda download_dir g todo st
  = (r, st') ->
  exists new, fetch_calls st' = fetch_calls st ++ new /\ new.*1 `sublist_of` todo.
Proof.
  induction todo as [|dist todo IH]; intros st r st'; cbn [fetch_loop].
  - intros [= <- <-]. exists []. split; [now rewrite app_nil_r|constructor].
  - destruct (fetch_one _ _ _ _ _ _ _ _ _) as [[[]|e] st1] eqn:Hone.
    + intros H. apply IH in H as (new & Hnew & Hsub).
      apply fetch_one_calls in Hone as [Hone|[rec Hone]]; rewrite Hone in Hnew.
      * exists new. split; [exact Hnew|]. now apply sublist_cons.
      * exists ((dist, rec) :: new). split; [now rewrite <- app_assoc in Hnew|].
        cbn. now apply sublist_skip.
    + intros [= <- <-]. apply fetch_one_calls in Hone as [Hone|[rec Hone]].
      * exists []. split; [now rewrite app_nil_r|apply sublist_nil_l].
      * exists [(dist, rec)]. split; [exact Hone|]. cbn. apply sublist_skip, sublist_nil_l.
Qed.

(** X10: however [fetch] ends, the calls of [fetch_pkg] it has made are
    for entries of [dists], in their order and one at most for each
    place in the list. *)
Theorem fetch_calls_follow_dists info use_conda g files r st :
  fetch fetch_index fetch_pkg md5_file filename_dist info use_conda g files = (r, st) ->
  (fetch_calls st).*1 `sublist_of` dists g.
Proof.
  unfold fetch. intros H. apply fetch_loop_calls in H as (new & Hnew & Hsub).
  cbn [fetch_calls app] in Hnew. now rewrite Hnew.
Qed.


(** X13: a build with neither specs nor packages, nothing to exclude and
    no entry in [dists] ends with the message of line 146, whether it is
    a dry run or not and whatever the channels give. *)
Theorem main_without_packages info dry_run use_conda g files :
  info_specs info = None -> info_packages info = None ->
  default [] (info_exclude info) = [] -> dists g = [] ->
  main name_dist solve graph_sort fetch_index prioritize_channels fetch_pkg md5_file
    filename_dist info dry_run use_conda g files
  = Err (SysExit (py "Error: no packages specified")).
Proof.
  intros Hspecs Hpk Hex Hd. unfold main. rewrite Hspecs, Hpk.
  unfold mbind, result_bind, exclude_packages. rewrite Hex.
  assert (Hd0 : forall i, dists (with_index g i) = []) by (intros i; exact Hd).
  destruct (info_channels info) as [channels|]; [rewrite Hd0|rewrite Hd];
    cbn [check_duplicates map_name_of fold_left report_duplicates exclude_loop
         mbind result_bind dists with_dists];
    unfold finalize; destruct (negb _); reflexivity.
Qed.

End BuildFacts.

(** *** The build on examples *)

Definition solve_example (use_conda : bool) (index : gmap str pkginfo) (specs : list str)
  : list str + str :=
  inl [py "zlib-1.2.11-0.tar.bz2"; py "python-3.7.4-0.tar.bz2"].

Definition no_graph_sort (use_conda : bool) (index : gmap str pkginfo)
  (sort_info : list (str * str)) : list str := map snd sort_info.

Definition example_index : gmap str pkginfo :=
  {[ py "python-3.7.4-0.tar.bz2" := example_record;
     py "zlib-1.2.11-0.tar.bz2"
       := {| channel := py "https://repo.example/pkgs/linux-64/";
             md5 := py "fedcba9876543210fedcba9876543210" |} ]}.

Definition index_example (use_conda : bool) (channels : list str) : gmap str pkginfo :=
  example_index.

Definition fetch_example (rec : pkginfo) (dir : str) (files : filesystem)
  : result filesystem :=
  Ok (<[path_join dir (py "fetched") := map N_of_ascii (md5 rec)]> files).

Definition with_specs (specs : list str) : Info :=
  {| info_name := py "Demo"; info_version := py "1.0";
     info_channels := Some [py "https://repo.example/pkgs/"];
     info_specs := Some specs; info_exclude := None; info_packages := None;
     info_menu_packages := None; info_install_in_dependency_order := None;
     info_default_prefix := None; info_license_file := None;
     info_pre_install := None; info_post_install := None;
     info_keep_pkgs := None; info_attempt_hardlinks := None;
     info_initialize_by_default := None; info__platform := py "linux-64";
     info__download_dir := py "/cache"; info__conda_exe := []; info__outpath := [];
     info__dists := []; info__urls := [] |}.

Definition start_globals : Globals :=
  {| dists := []; index := ∅; urls := ∅; md5s := ∅ |}.

Lemma main_without_packages_witness :
  main name_of_filename (fun _ _ _ => inl []) (fun _ _ _ => []) no_index id fetch_nothing
    text_of id empty_info false false
    {| dists := []; index := ∅; urls := ∅; md5s := ∅ |} ∅
  = Err (SysExit (py "Error: no packages specified")).
Proof.
  apply (main_without_packages name_of_filename (fun _ _ _ => inl []) (fun _ _ _ => [])
           no_index id fetch_nothing text_of id empty_info false false
           {| dists := []; index := ∅; urls := ∅; md5s := ∅ |} ∅); reflexivity.
Defined.

Lemma resolve_extends_witness :
  exists g',
    resolve name_of_filename solve_example no_graph_sort (with_specs [py "zlib 1.2*"]) false
      (with_index start_globals example_index) = Ok g'
    /\ dists g' = [py "zlib-1.2.11-0.tar.bz2"; py "python-3.7.4-0.tar.bz2"]
    /\ index g' = example_index.
Proof.
  assert (E : exists g1,
             resolve name_of_filename solve_example no_graph_sort
               (with_specs [py "zlib 1.2*"]) false
               (with_index start_globals example_index) = Ok g1)
    by (eexists; vm_compute; reflexivity).
  destruct E as [g1 E]. exists g1. split; [exact E|].
  destruct (resolve_extends _ _ _ _ _ _ _ E)
    as (_ & Hi & _ & _ & b & res & new & _ & Hs & Hd & Hnew & _).
  split; [|exact Hi]. rewrite Hd, (Hnew eq_refl). injection Hs as <-. reflexivity.
Defined.



Lemma fetch_calls_follow_dists_witness :
  (fetch_calls
     (snd (fetch index_example fetch_example text_of id (with_specs []) false
             (with_dists (with_index start_globals example_index)
                [py "python-3.7.4-0.tar.bz2"]) ∅))).*1
  `sublist_of` [py "python-3.7.4-0.tar.bz2"].
Proof.
  apply (fetch_calls_follow_dists index_example fetch_example text_of id (with_specs [])
           false
           (with_dists (with_index start_globals example_index)
              [py "python-3.7.4-0.tar.bz2"]) ∅
           (fst (fetch index_example fetch_example text_of id (with_specs []) false
                   (with_dists (with_index start_globals example_index)
                      [py "python-3.7.4-0.tar.bz2"]) ∅))).
  apply surjective_pairing.
Defined.

(** *** The order of the finalised set *)

Lemma N_of_ascii_eq x y : N_of_ascii x = N_of_ascii y -> x = y.
Proof.
  intros H. rewrite <- (ascii_N_embedding x), <- (ascii_N_embedding y). now rewrite H.
Qed.

#[global] Instance str_le_total : Total str_le.
Proof.
  intros a. induction a as [|x a IH]; intros [|y b]; cbn; auto.
  destruct (N.lt_trichotomy (N_of_ascii x) (N_of_ascii y)) as [H|[H|H]]; auto.
  apply N_of_ascii_eq in H as ->. destruct (IH b); auto.
Qed.

#[global] Instance str_le_trans : Transitive str_le.
Proof.
  intros a. induction a as [|x a IH]; intros [|y b] [|z c]; cbn; auto; try contradiction.
  intros [Hxy|[-> Hab]] [Hyz|[-> Hbc]].
  - left. lia.
  - now left.
  - now left.
  - right. split; [reflexivity|]. now apply (IH b).
Qed.

Lemma StronglySorted_without {A} (R : relation A) l1 d l2 :
  StronglySorted R (l1 ++ d :: l2) -> StronglySorted R (l1 ++ l2).
Proof.
  rewrite !StronglySorted_app, StronglySorted_cons. intros (H12 & H1 & _ & H2).
  split; [|now split]. intros x1 x2 Hx1 Hx2. apply H12; [exact Hx1|now right].
Qed.

Section FinalOrder.

Variable name_dist : str -> str.

(** The first entry whose name is python. *)
Lemma first_python dists :
  has_python name_dist dists ->
  exists l1 d l2, dists = l1 ++ d :: l2
    /\ (forall x, x ∈ l1 -> name_dist x <> py "python")
    /\ name_dist d = py "python".
Proof.
  induction dists as [|y dists IH]; intros (d & Hd & Hpy); [now apply elem_of_nil in Hd|].
  destruct (decide (name_dist y = py "python")) as [Hy|Hy].
  - exists [], y, dists. split; [reflexivity|]. split; [|exact Hy].
    intros x Hx. now apply elem_of_nil in Hx.
  - apply elem_of_cons in Hd as [->|Hd]; [contradiction|].
    destruct IH as (l1 & d' & l2 & -> & Hl1 & Hd'); [now exists d|].
    exists (y :: l1), d', l2. split; [reflexivity|]. split; [|exact Hd'].
    intros x Hx. apply elem_of_cons in Hx as [->|Hx]; [exact Hy|now apply Hl1].
Qed.

(** X12: the set that passes the finalisation starts with the python
    entry.  Unless the dependency order is asked for, the entries after
    it are in the order of [str], code point by code point, and together
    with it they are the entries given; when it is asked for, they are the
    entries given in their order, the python entry taken out. *)
Theorem finalize_order info dists ds :
  finalize name_dist info dists = Ok ds ->
  exists d rest,
    ds = d :: rest /\ name_dist d = py "python"
    /\ (truthy (info_install_in_dependency_order info) = false ->
        StronglySorted str_le rest /\ d :: rest ≡ₚ dists)
    /\ (truthy (info_install_in_dependency_order info) = true ->
        exists l1 l2, dists = l1 ++ d :: l2 /\ rest = l1 ++ l2
          /\ forall x, x ∈ l1 -> name_dist x <> py "python").
Proof.
  intros Hfin. pose proof Hfin as Hok.
  apply finalize_ok in Hok as (Hperm & _ & d0 & rest0 & Hds & Hd0).
  unfold finalize in Hfin.
  set (sorted := if negb (truthy (info_install_in_dependency_order info))
                 then py_sort dists else dists) in Hfin.
  assert (Hs : sorted ≡ₚ dists).
  { unfold sorted. destruct (negb _); [apply py_sort_perm|reflexivity]. }
  assert (Hhas : has_python name_dist sorted).
  { exists d0. split; [|exact Hd0]. rewrite Hs, <- Hperm, Hds. now left. }
  destruct (first_python sorted Hhas) as (l1 & d & l2 & Hsorted & Hl1 & Hd).
  assert (Hmove : move_python_first name_dist sorted = Ok (d :: l1 ++ l2)).
  { unfold move_python_first. rewrite Hsorted at 1.
    rewrite move_python_first_loop_at by assumption.
    rewrite Hsorted, list_remove_middle; [reflexivity|].
    intros Hin. now apply (Hl1 d Hin). }
  rewrite Hmove in Hfin. unfold mbind, result_bind in Hfin.
  destruct (check_dists name_dist (d :: l1 ++ l2)); [|discriminate].
  injection Hfin as <-. exists d, (l1 ++ l2).
  split; [reflexivity|]. split; [exact Hd|]. split.
  - intros Hno. unfold sorted in Hsorted, Hs. rewrite Hno in Hsorted, Hs.
    cbn [negb] in Hsorted, Hs. split.
    + apply (StronglySorted_without str_le l1 d l2). rewrite <- Hsorted.
      apply StronglySorted_merge_sort; typeclasses eauto.
    + rewrite <- Hs, Hsorted. apply Permutation_middle.
  - intros Hyes. unfold sorted in Hsorted. rewrite Hyes in Hsorted.
    cbn [negb] in Hsorted. now exists l1, l2.
Qed.

End FinalOrder.

Lemma finalize_order_witness :
  finalize name_of_filename empty_info
    [py "zlib-1.2.11-0.tar.bz2"; py "python-3.7.4-0.tar.bz2"; py "foo-1.0-0.tar.bz2"]
  = Ok [py "python-3.7.4-0.tar.bz2"; py "foo-1.0-0.tar.bz2"; py "zlib-1.2.11-0.tar.bz2"]
  /\ StronglySorted str_le [py "foo-1.0-0.tar.bz2"; py "zlib-1.2.11-0.tar.bz2"].
Proof.
  assert (E : finalize name_of_filename empty_info
                [py "zlib-1.2.11-0.tar.bz2"; py "python-3.7.4-0.tar.bz2";
                 py "foo-1.0-0.tar.bz2"]
              = Ok [py "python-3.7.4-0.tar.bz2"; py "foo-1.0-0.tar.bz2";
                    py "zlib-1.2.11-0.tar.bz2"]) by (vm_compute; reflexivity).
  split; [exact E|].
  destruct (finalize_order name_of_filename _ _ _ E) as (d & rest & Hds & _ & Hsorted & _).
  injection Hds as <- <-. exact (proj1 (Hsorted eq_refl)).
Defined.

(** *** The package set on examples *)

Lemma check_duplicates_unique_names_witness :
  NoDup (name_of_filename <$> [py "python-3.7.4-0.tar.bz2"; py "zlib-1.2.11-0.tar.bz2"])
  /\ exists name,
       1 < length (files_named name_of_filename name
                     [py "foo-1.0-0.tar.bz2"; py "bar-2.1-1.tar.bz2";
                      py "foo-1.1-0.tar.bz2"])
       /\ SysExit (py "Error: 'foo' listed multiple times: foo-1.0-0.tar.bz2, foo-1.1-0.tar.bz2")
          = SysExit (py "Error: '" ++ name ++ py "' listed multiple times: "
                     ++ join (py ", ")
                          (files_named name_of_filename name
                             [py "foo-1.0-0.tar.bz2"; py "bar-2.1-1.tar.bz2";
                              py "foo-1.1-0.tar.bz2"])).
Proof.
  split.
  - apply (check_duplicates_unique_names name_of_filename
             [py "python-3.7.4-0.tar.bz2"; py "zlib-1.2.11-0.tar.bz2"]).
    vm_compute. reflexivity.
  - apply (check_duplicates_unique_names name_of_filename
             [py "foo-1.0-0.tar.bz2"; py "bar-2.1-1.tar.bz2"; py "foo-1.1-0.tar.bz2"]).
    vm_compute. reflexivity.
Defined.

Lemma python_first_after_finalize_witness :
  finalize name_of_filename empty_info
    [py "zlib-1.2.11-0.tar.bz2"; py "python-3.7.4-0.tar.bz2"; py "foo-1.0-0.tar.bz2"]
  = Ok [py "python-3.7.4-0.tar.bz2"; py "foo-1.0-0.tar.bz2"; py "zlib-1.2.11-0.tar.bz2"]
  /\ ([py "python-3.7.4-0.tar.bz2"; py "foo-1.0-0.tar.bz2"; py "zlib-1.2.11-0.tar.bz2"]
      ≡ₚ [py "zlib-1.2.11-0.tar.bz2"; py "python-3.7.4-0.tar.bz2"; py "foo-1.0-0.tar.bz2"]
      /\ forall i d,
           [py "python-3.7.4-0.tar.bz2"; py "foo-1.0-0.tar.bz2";
            py "zlib-1.2.11-0.tar.bz2"] !! i = Some d ->
           name_of_filename d = py "python" -> i = 0).
Proof.
  assert (H : finalize name_of_filename empty_info
                [py "zlib-1.2.11-0.tar.bz2"; py "python-3.7.4-0.tar.bz2";
                 py "foo-1.0-0.tar.bz2"]
              = Ok [py "python-3.7.4-0.tar.bz2"; py "foo-1.0-0.tar.bz2";
                    py "zlib-1.2.11-0.tar.bz2"])
    by (vm_compute; reflexivity).
  split; [exact H|].
  exact (python_first_after_finalize name_of_filename empty_info _ _ H).
Defined.

(** A set of one entry that is not python does not pass: the assertion of
    line 148 fails. *)
Lemma finalize_rejects_set_without_python :
  finalize name_of_filename empty_info [py "foo-1.0-0.tar.bz2"] = Err AssertionError
  /\ check_dists name_of_filename [py "foo-1.0-0.tar.bz2"] = Err AssertionError.
Proof. split; vm_compute; reflexivity. Qed.

Lemma finalize_outcomes_witness :
  finalize name_of_filename empty_info [] = Err (SysExit (py "Error: no packages specified"))
  /\ finalize name_of_filename empty_info
       [py "zlib-1.2.11-0.tar.bz2"; py "foo-1.0-0.tar.bz2"] = Err AssertionError.
Proof.
  split.
  - apply (finalize_outcomes name_of_filename empty_info []). reflexivity.
  - apply (finalize_outcomes name_of_filename empty_info
             [py "zlib-1.2.11-0.tar.bz2"; py "foo-1.0-0.tar.bz2"]).
    split; [discriminate|]. split.
    + vm_compute. apply NoDup_cons. split; [|apply NoDup_singleton].
      rewrite list_elem_of_singleton. discriminate.
    + intros (d & Hd & Hn). repeat (apply elem_of_cons in Hd as [->|Hd]);
        [discriminate Hn|discriminate Hn|now apply elem_of_nil in Hd].
Defined.

End Fcp.

(** ** shar.py: rendering the header *)

Module Shar.
Import PyStr.

(** The numeric substitutions of [get_header], lines 69 to 78: [data] is
    the header once every content placeholder is filled, [exec_size] and
    [tar_size] are [getsize(conda_exec)] and [getsize(tarball)]. *)
Definition embed_sizes (data : str) (exec_size tar_size : N) : result str :=
  let data := replace data (py "@FIRST_PAYLOAD_SIZE@") (fmt_0d 20 exec_size) in
  let data := replace data (py "@NON_PAYLOAD_SIZE@") (fmt_0d 18 (len data)) in
  let payload_offset := (len data + exec_size)%N in
  let n := (payload_offset + tar_size)%N in
  let data := replace data (py "@TOTAL_SIZE_BYTES@") (str_of_int n) in
  let data := replace data (py "@PAYLOAD_OFFSET_BYTES@") (fmt_0d 22 payload_offset) in
  let data := replace data (py "@TARBALL_SIZE_BYTES@") (fmt_0d 20 tar_size) in
  if (len data + exec_size + tar_size =? n)%N then Ok data else Err AssertionError.

(** Names for the intermediate headers of [embed_sizes], used to state
    what each substitution does. *)
Definition after_first (data : str) (exec_size : N) : str :=
  replace data (py "@FIRST_PAYLOAD_SIZE@") (fmt_0d 20 exec_size).

Definition after_non_payload (data : str) (exec_size : N) : str :=
  let data := after_first data exec_size in
  replace data (py "@NON_PAYLOAD_SIZE@") (fmt_0d 18 (len data)).

Definition payload_offset (data : str) (exec_size : N) : N :=
  (len (after_non_payload data exec_size) + exec_size)%N.

Definition total_size (data : str) (exec_size tar_size : N) : N :=
  (payload_offset data exec_size + tar_size)%N.

Definition after_total (data : str) (exec_size tar_size : N) : str :=
  replace (after_non_payload data exec_size) (py "@TOTAL_SIZE_BYTES@")
    (str_of_int (total_size data exec_size tar_size)).

Definition after_offset (data : str) (exec_size tar_size : N) : str :=
  replace (after_total data exec_size tar_size) (py "@PAYLOAD_OFFSET_BYTES@")
    (fmt_0d 22 (payload_offset data exec_size)).

Definition after_tarball (data : str) (exec_size tar_size : N) : str :=
  replace (after_offset data exec_size tar_size) (py "@TARBALL_SIZE_BYTES@")
    (fmt_0d 20 tar_size).

Section Header.

(** What shar.py imports from the rest of the package, and the template
    file [header.sh] that [read_header_template] reads. *)
Variable ns_platform : str -> list (str * pyval).
Variable add_condarc : Info -> list str.
Variable md5_files : list file -> str.
Variable read_ascii_only : file -> str.
Variable preprocess : str -> list (str * pyval) -> str.
Variable fill_template : str -> list (str * str) -> str.
Variable get_final_channels : Info -> list str.
Variable header_sh : str.

Definition read_header_template : str := header_sh.

(** Lines 32 to 63 of [get_header]: the content placeholders.  After this
    pass the length of the header is meant to stay. *)
Definition render_content (fs : filesystem) (conda_exec tarball : str) (info : Info)
  : result str :=
  let name := info_name info in
  let has_license := bool_decide (is_Some (info_license_file info)) in
  let ppd := ns_platform (info__platform info) in
  let ppd := dict_set ppd (py "keep_pkgs") (PBool (truthy (info_keep_pkgs info))) in
  let ppd := dict_set ppd (py "attempt_hardlinks")
               (PBool (truthy (info_attempt_hardlinks info))) in
  let ppd := dict_set ppd (py "has_license") (PBool has_license) in
  let ppd := dict_set ppd (py "has_pre_install")
               (PBool (bool_decide (is_Some (info_pre_install info)))) in
  let ppd := dict_set ppd (py "has_post_install")
               (PBool (bool_decide (is_Some (info_post_install info)))) in
  let ppd := dict_set ppd (py "initialize_by_default")
               (default PNone (info_initialize_by_default info)) in
  let install_lines := add_condarc info in
  exec_file ← read_file fs conda_exec;
  tar_file ← read_file fs tarball;
  let replace_ := [
    (py "NAME", name);
    (py "name", lower name);
    (py "VERSION", info_version info);
    (py "PLAT", info__platform info);
    (py "DEFAULT_PREFIX",
       default (py "$HOME/" ++ lower name) (info_default_prefix info));
    (py "MD5", md5_files [exec_file; tar_file]);
    (py "INSTALL_COMMANDS", join (py (String "010"%char EmptyString)) install_lines);
    (py "pycache", py "__pycache__") ] in
  replace_ ← match info_license_file info with
             | Some path =>
                 lic ← read_file fs path;
                 mret (dict_set replace_ (py "LICENSE") (read_ascii_only lic))
             | None => mret replace_
             end;
  let data := read_header_template in
  let data := preprocess data ppd in
  let data := fill_template data replace_ in
  let n := count data (py (String "010"%char EmptyString)) in
  let data := replace data (py "@LINES@") (str_of_int (N.of_nat n + 1)) in
  let data := replace data (py "@CHANNELS@") (join (py ",") (get_final_channels info)) in
  mret data.

Definition get_header (fs : filesystem) (conda_exec tarball : str) (info : Info)
  : result str :=
  data ← render_content fs conda_exec tarball info;
  exec_size ← getsize fs conda_exec;
  tar_size ← getsize fs tarball;
  embed_sizes data exec_size tar_size.

End Header.

(** *** The world of [create]

    The file system, the access modes set by [os.chmod], and an injected
    fault: the access to the file system that is number [fault] fails with
    an I/O error, whatever it is.  [clock] counts the accesses. *)
Record World : Type := {
  files : filesystem;
  modes : gmap str N;
  clock : nat;
  fault : option nat
}.

Definition M (A : Type) : Type := World -> result A * World.

Definition ret {A} (a : A) : M A := fun w => (Ok a, w).

Definition bind {A B} (m : M A) (k : A -> M B) : M B := fun w =>
  match m w with
  | (Ok a, w') => k a w'
  | (Err e, w') => (Err e, w')
  end.

Definition raise {A} (e : error) : M A := fun w => (Err e, w).

Definition lift {A} (f : filesystem -> result A) : M A := fun w => (f (files w), w).

Notation "'do' x <~ m ;; k" := (bind m (fun x => k))
  (at level 10, x name, m at level 99, k at level 200, only parsing).

Definition set_files (w : World) (fs : filesystem) : World :=
  {| files := fs; modes := modes w; clock := clock w; fault := fault w |}.

(** One access to the file system. *)
Definition io (path : str) : M unit := fun w =>
  let w' := {| files := files w; modes := modes w;
               clock := S (clock w); fault := fault w |} in
  if decide (fault w = Some (clock w)) then (Err (IOError path), w')
  else (Ok (), w').

Definition fs_read (path : str) : M file :=
  do _ <~ io path ;; lift (fun fs => read_file fs path).

Definition fs_write (path : str) (f : file) : M unit :=
  do _ <~ io path ;; fun w => (Ok (), set_files w (<[path := f]> (files w))).

Definition fs_append (path : str) (bytes : file) : M unit :=
  do _ <~ io path ;; fun w =>
    (Ok (), set_files w (<[path := default [] (files w !! path) ++ bytes]> (files w))).

(** The files below a directory, and [os.path.isdir] on a file system that
    keeps files only. *)
Definition below (dir : str) (fs : filesystem) : list (str * file) :=
  List.filter (fun kf => startswith (dir ++ py "/") (fst kf)) (map_to_list fs).

Definition isdir (fs : filesystem) (dir : str) : bool :=
  negb (Nat.eqb (length (below dir fs)) 0).

(** [os.listdir(dir)]: the first component of every path below [dir]. *)
Definition first_component (p : str) : str :=
  match rsplit1 "/"%char (rev p) with
  | Some (_, b) => rev b
  | None => p
  end.

Definition listdir (fs : filesystem) (dir : str) : list str :=
  remove_dups
    (map (fun kf => first_component (drop (S (length dir)) (fst kf))) (below dir fs)).

Definition fs_unlink (path : str) : M unit :=
  do _ <~ io path ;; fun w =>
    match files w !! path with
    | Some _ => (Ok (), set_files w (delete path (files w)))
    | None => (Err (FileNotFoundError path), w)
    end.

Definition fs_chmod (path : str) (mode : N) : M unit :=
  do _ <~ io path ;; fun w =>
    match files w !! path with
    | Some _ => (Ok (), {| files := files w; modes := <[path := mode]> (modes w);
                           clock := clock w; fault := fault w |})
    | None => (Err (FileNotFoundError path), w)
    end.

Definition fs_rmtree (dir : str) : M unit :=
  do _ <~ io dir ;; fun w =>
    (Ok (), set_files w
              (filter (fun kf => startswith (dir ++ py "/") (fst kf) = false) (files w))).

(** A [tarfile] object open for writing: its members are written to its
    file when it is closed. *)
Record TarFile : Type := {
  tar_name : str;
  tar_compressed : bool;
  tar_members : list (str * file)
}.

Definition with_members (t : TarFile) (ms : list (str * file)) : TarFile :=
  {| tar_name := tar_name t; tar_compressed := tar_compressed t;
     tar_members := tar_members t ++ ms |}.

Fixpoint forM {A S} (f : S -> A -> M S) (l : list A) (s : S) : M S :=
  match l with
  | [] => ret s
  | a :: l' => do s' <~ f s a ;; forM f l' s'
  end.

(** The keys of a dictionary after [d[key] = v]. *)
Lemma dict_set_keys {V} (d : list (str * V)) key v k :
  k ∈ (dict_set d key v).*1 <-> k = key \/ k ∈ d.*1.
Proof.
  induction d as [|[k0 v0] d IH]; cbn [dict_set].
  - cbn. rewrite list_elem_of_singleton. split; [now left|]. intros [H|H]; [exact H|].
    now apply elem_of_nil in H.
  - destruct (decide (k0 = key)) as [->|Hne]; cbn; rewrite !elem_of_cons.
    + tauto.
    + rewrite IH. tauto.
Qed.

Section Create.

(** The rest of the package and the codecs: [preconda], the template
    machinery of [get_header], the tar and JSON formats.  [json] is the
    type of a record of a repodata document. *)
Variable ns_platform : str -> list (str * pyval).
Variable add_condarc : Info -> list str.
Variable md5_files : list file -> str.
Variable read_ascii_only : file -> str.
Variable preprocess : str -> list (str * pyval) -> str.
Variable fill_template : str -> list (str * str) -> str.
Variable get_final_channels : Info -> list str.
Variable header_sh : str.
Variable preconda_files : list str.
Variable preconda_write_files : Info -> str -> M unit.
Variable mkdtemp : filesystem -> str.
Variable tar_encode : bool -> list (str * file) -> file.
Variable json : Type.
Variable json_load : file -> result (option (list (str * json)) * option (list (str * json))).
Variable json_dump : str -> list (str * json) -> list (str * json) -> file.

Variable filename_dist : str -> str.

(** [tarfile.open(name, 'w')], [t.add(name, arcname)],
    [t.addfile(TarInfo(name))] and [t.close()]. *)
Definition tar_open (name : str) (compressed : bool) : M TarFile :=
  do _ <~ fs_write name [] ;;
  ret {| tar_name := name; tar_compressed := compressed; tar_members := [] |}.

Definition tar_add (t : TarFile) (name arcname : str) : M TarFile :=
  do _ <~ io name ;; fun w =>
    match files w !! name with
    | Some f => (Ok (with_members t [(arcname, f)]), w)
    | None =>
        match below name (files w) with
        | [] => (Err (FileNotFoundError name), w)
        | inside =>
            (Ok (with_members t
                   (map (fun kf => (arcname ++ drop (length name) (fst kf), snd kf))
                        inside)), w)
        end
    end.

Definition tar_addfile (t : TarFile) (name : str) : M TarFile :=
  ret (with_members t [(name, [])]).

Definition tar_close (t : TarFile) : M unit :=
  fs_write (tar_name t) (tar_encode (tar_compressed t) (tar_members t)).

(** [add_repodata], lines 82 to 95.  The function has the parameters
    [fn_dict] and [subdir] and names [t] on line 95: [scope_t] is what that
    name is bound to where the function can see it, the module's global
    names.  With no such binding the call ends in [NameError]. *)
Definition repodata_arcname (subdir : str) : str :=
  join (py "/") [py "conda-bld"; subdir; py "repodata.json"].

Definition add_repodata (scope_t : option TarFile)
  (fn_dict : list (str * json) * list (str * json)) (subdir : str) : M (option TarFile) :=
  do _ <~ fs_write (py "repodata.json") (json_dump subdir (fst fn_dict) (snd fn_dict)) ;;
  match scope_t with
  | None => raise (NameError (py "t"))
  | Some t =>
      do t' <~ tar_add t (py "repodata.json") (repodata_arcname subdir) ;; ret (Some t')
  end.

(** shar.py binds no name [t] at module level: the [t] of [create] is a
    local variable of [create]. *)
Definition module_t : option TarFile := None.

Definition dict_get {V} (d : list (str * V)) (key : str) : option V :=
  snd <$> List.find (fun kv => bool_decide (fst kv = key)) d.

(** Lines 117 to 125: [_dist] keeps its value from one turn to the next. *)
Definition add_record (tmp_dir : str) (st : TarFile * option str) (dist : str)
  : M (TarFile * option str) :=
  let '(pre_t, _dist) := st in
  let _dist :=
    if endswith (py ".conda") (filename_dist dist)
    then Some (take (length (filename_dist dist) - 6) (filename_dist dist))
    else if endswith (py ".tar.bz2") (filename_dist dist)
    then Some (take (length (filename_dist dist) - 8) (filename_dist dist))
    else _dist in
  match _dist with
  | None => raise (NameError (py "_dist"))
  | Some d =>
      let record_file := path_join (path_join d (py "info")) (py "repodata_record.json") in
      let record_file_src := path_join tmp_dir record_file in
      let record_file_dest := path_join (py "pkgs") record_file in
      do pre_t <~ tar_add pre_t record_file_src record_file_dest ;;
      ret (pre_t, _dist)
  end.

(** Lines 142 to 157: one URL of [info['_urls']]. *)
Definition add_local (download_dir : str)
  (st : TarFile * list (str * (list (str * json) * list (str * json))))
  (url_md5 : str * str)
  : M (TarFile * list (str * (list (str * json) * list (str * json)))) :=
  let '(t, local_subdir_repodata) := st in
  let url := fst url_md5 in
  if startswith (py "file://") url then
    match rsplit2 "/"%char url with
    | [_; subdir; fn] =>
        do t <~ tar_add t (path_join download_dir fn)
               (join (py "/") [py "conda-bld"; subdir; fn]) ;;
        do f <~ fs_read (replace (replace url (py "file://") []) fn (py "repodata.json")) ;;
        match json_load f with
        | Err e => raise e
        | Ok repodata =>
            let local_dir := default ([], []) (dict_get local_subdir_repodata subdir) in
            let source := if endswith (py ".conda") fn
                          then (py "packages.conda", snd repodata)
                          else (py "packages", fst repodata) in
            match snd source with
            | None => raise (KeyError (fst source))
            | Some entries =>
                match dict_get entries fn with
                | None => raise (KeyError fn)
                | Some rec =>
                    let local_dir :=
                      if endswith (py ".conda") fn
                      then (fst local_dir, dict_set (snd local_dir) fn rec)
                      else (dict_set (fst local_dir) fn rec, snd local_dir) in
                    ret (t, dict_set local_subdir_repodata subdir local_dir)
                end
            end
        end
    | _ => raise ValueError
    end
  else ret st.

(** Lines 159 to 165.  [scope_t] is the object that [add_repodata] reaches
    under the name [t]; the tarball [t] of [create] is not passed. *)
Definition add_repodata_step
  (st : bool * option TarFile)
  (item : str * (list (str * json) * list (str * json))) : M (bool * option TarFile) :=
  let '(has_noarch, scope_t) := st in
  let '(subdir, fn_dict) := item in
  let has_noarch := has_noarch || bool_decide (subdir = py "noarch") in
  do scope_t <~ add_repodata scope_t fn_dict subdir ;;
  ret (has_noarch, scope_t).

Definition add_all_repodata (scope_t : option TarFile)
  (local_subdir_repodata : list (str * (list (str * json) * list (str * json))))
  : M (option TarFile) :=
  do st <~ forM add_repodata_step local_subdir_repodata (false, scope_t) ;;
  if fst st : bool then ret (snd st)
  else add_repodata (snd st) ([], []) (py "noarch").

(** Lines 171 to 179: the header, then the two payloads in chunks of
    262144 bytes.  [fi] is what is left to read of the payload. *)
Fixpoint copy_chunks (fuel : nat) (payload : str) (fi : file) (shar_path : str)
  : M unit :=
  match fuel with
  | O => ret ()
  | S f =>
      do _ <~ io payload ;;
      match take (N.to_nat 262144) fi with
      | [] => ret ()
      | chunk =>
          do _ <~ fs_append shar_path chunk ;;
          copy_chunks f payload (drop (N.to_nat 262144) fi) shar_path
      end
  end.

Definition copy_payload (shar_path : str) (_ : unit) (payload : str) : M unit :=
  do fi <~ fs_read payload ;;
  copy_chunks (S (length fi)) payload fi shar_path.

Definition write_installer (shar_path : str) (header : str) (conda_exec tarball : str)
  : M unit :=
  do _ <~ fs_write shar_path [] ;;
  do _ <~ fs_append shar_path (encode_utf8 header) ;;
  forM (copy_payload shar_path) [conda_exec; tarball] ().

(** Lines 99 to 129: the two staged tarballs. *)
Definition stage_tarballs (info : Info) (tmp_dir : str) : M (str * str) :=
  do _ <~ preconda_write_files info tmp_dir ;;
  let preconda_tarball := path_join tmp_dir (py "preconda.tar.bz2") in
  let postconda_tarball := path_join tmp_dir (py "postconda.tar.bz2") in
  do pre_t <~ tar_open preconda_tarball true ;;
  do post_t <~ tar_open postconda_tarball true ;;
  do pre_t <~ forM (fun pre_t dist =>
                   let fn := filename_dist dist in
                   tar_add pre_t (path_join tmp_dir fn) (py "pkgs/" ++ fn))
                preconda_files pre_t ;;
  do pre_t <~ match info_pre_install info with
           | Some script => tar_add pre_t script (py "pkgs/pre_install.sh")
           | None => ret pre_t
           end ;;
  do pre_t <~ match info_post_install info with
           | Some script => tar_add pre_t script (py "pkgs/post_install.sh")
           | None => ret pre_t
           end ;;
  let cache_dir := path_join tmp_dir (py "cache") in
  do cached <~ lift (fun fs => Ok (if isdir fs cache_dir then listdir fs cache_dir else [])) ;;
  do pre_t <~ forM (fun pre_t cf =>
                   if endswith (py ".json") cf
                   then tar_add pre_t (path_join cache_dir cf) (py "pkgs/cache/" ++ cf)
                   else ret pre_t)
                cached pre_t ;;
  do st <~ forM (add_record tmp_dir) (info__dists info) (pre_t, None) ;;
  do pre_t <~ tar_addfile (fst st) (py "conda-meta/history") ;;
  do post_t <~ tar_add post_t
              (path_join (path_join tmp_dir (py "conda-meta")) (py "history"))
              (py "conda-meta/history") ;;
  do _ <~ tar_close pre_t ;;
  do _ <~ tar_close post_t ;;
  ret (preconda_tarball, postconda_tarball).

(** Lines 131 to 166: the master tarball.  The result is the path of the
    tarball and its members when it is closed. *)
Definition build_master (scope_t : option TarFile) (info : Info) (tmp_dir : str)
  (staged : str * str) : M (str * TarFile) :=
  let '(preconda_tarball, postconda_tarball) := staged in
  let tarball := path_join tmp_dir (py "tmp.tar") in
  do t <~ tar_open tarball false ;;
  do t <~ tar_add t preconda_tarball (basename preconda_tarball) ;;
  do t <~ tar_add t postconda_tarball (basename postconda_tarball) ;;
  do t <~ match info_license_file info with
       | Some license => tar_add t license (py "LICENSE.txt")
       | None => ret t
       end ;;
  do t <~ forM (fun t dist =>
               let fn := filename_dist dist in
               tar_add t (path_join (info__download_dir info) fn) (py "pkgs/" ++ fn))
            (info__dists info) t ;;
  do st <~ forM (add_local (info__download_dir info)) (info__urls info) (t, []) ;;
  let '(t, local_subdir_repodata) := st in
  do _ <~ add_all_repodata scope_t local_subdir_repodata ;;
  do _ <~ tar_close t ;;
  ret (tarball, t).

(** Lines 98 to 169 of [create]: everything that comes before the output
    file is opened.  [scope_t] stands for the module's global names as
    [add_repodata] sees them.  The result is the scratch directory, the
    path of the master tarball and the rendered header. *)
Definition prepare (scope_t : option TarFile) (info : Info) : M (str * str * str) :=
  do tmp_dir <~ (fun w => (Ok (mkdtemp (files w)), w)) ;;
  do staged <~ stage_tarballs info tmp_dir ;;
  do master <~ build_master scope_t info tmp_dir staged ;;
  let tarball := fst master in
  let conda_exec := info__conda_exe info in
  do header <~ lift (fun fs =>
                    get_header ns_platform add_condarc md5_files read_ascii_only
                      preprocess fill_template get_final_channels header_sh
                      fs conda_exec tarball info) ;;
  ret (tmp_dir, tarball, header).

(** [create], lines 98 to 183. *)
Definition create_in (scope_t : option TarFile) (info : Info) : M unit :=
  do prepared <~ prepare scope_t info ;;
  let '(tmp_dir, tarball, header) := prepared in
  let conda_exec := info__conda_exe info in
  let shar_path := info__outpath info in
  do _ <~ write_installer shar_path header conda_exec tarball ;;
  do _ <~ fs_unlink tarball ;;
  do _ <~ fs_chmod shar_path 493 ;;
  fs_rmtree tmp_dir.

Definition create (info : Info) : M unit := create_in module_t info.

(** *** Facts about the world *)

Lemma bind_ok {A B} (m : M A) (k : A -> M B) w b w' :
  bind m k w = (Ok b, w') ->
  exists a w1, m w = (Ok a, w1) /\ k a w1 = (Ok b, w').
Proof.
  unfold bind. destruct (m w) as [[a|e] w1]; [|discriminate]. intros H. now exists a, w1.
Qed.

Lemma io_ok path w u w' :
  io path w = (Ok u, w') -> files w' = files w /\ modes w' = modes w.
Proof.
  unfold io. destruct (decide _); [discriminate|]. intros [= <- <-]. now split.
Qed.

Lemma fs_write_ok path f w u w' :
  fs_write path f w = (Ok u, w') -> files w' = <[path := f]> (files w).
Proof.
  unfold fs_write. intros H. apply bind_ok in H as (a & w1 & Hio & H).
  apply io_ok in Hio as [Hf _]. injection H as <- <-. cbn. now rewrite Hf.
Qed.

Lemma fs_append_ok path bytes w u w' :
  fs_append path bytes w = (Ok u, w') ->
  files w' = <[path := default [] (files w !! path) ++ bytes]> (files w).
Proof.
  unfold fs_append. intros H. apply bind_ok in H as (a & w1 & Hio & H).
  apply io_ok in Hio as [Hf _]. injection H as <- <-. cbn. now rewrite Hf.
Qed.

Lemma fs_read_ok path w f w' :
  fs_read path w = (Ok f, w') -> files w' = files w /\ files w !! path = Some f.
Proof.
  unfold fs_read, lift, read_file. intros H. apply bind_ok in H as (a & w1 & Hio & H).
  apply io_ok in Hio as [Hf _]. rewrite Hf in H.
  destruct (files w !! path) as [f'|]; [|discriminate]. injection H as <- <-. now split.
Qed.

Lemma chunk_size_pos : N.to_nat 262144 <> 0.
Proof. intros H. apply (f_equal N.of_nat) in H. now rewrite N2Nat.id in H. Qed.

(** The chunked copy appends the whole payload to the output file and
    touches nothing else. *)
Lemma copy_chunks_ok fuel payload shar_path : forall fi w u w' x,
  length fi < fuel ->
  files w !! shar_path = Some x ->
  copy_chunks fuel payload fi shar_path w = (Ok u, w') ->
  files w' !! shar_path = Some (x ++ fi)
  /\ forall q, q <> shar_path -> files w' !! q = files w !! q.
Proof.
  induction fuel as [|fuel IH]; intros fi w u w' x Hfuel Hx; [lia|].
  cbn [copy_chunks]. intros H. apply bind_ok in H as ([] & w1 & Hio & H).
  apply io_ok in Hio as [Hf1 _].
  pose proof chunk_size_pos as Hc.
  destruct fi as [|b fi].
  - rewrite take_nil in H. injection H as <- <-. rewrite Hf1, app_nil_r. now split.
  - destruct (N.to_nat 262144) as [|c]; [congruence|]. cbn [take] in H.
    apply bind_ok in H as ([] & w2 & Happ & H).
    apply fs_append_ok in Happ. rewrite Hf1, Hx in Happ. cbn [default] in Happ.
    cbn [drop] in H. eapply IH in H; [| |rewrite Happ; apply lookup_insert_eq].
    + destruct H as [H1 H2]. split.
      * rewrite H1. f_equal. rewrite <- app_assoc. cbn [app].
        now rewrite take_drop.
      * intros q Hq. rewrite (H2 q Hq), Happ. now rewrite lookup_insert_ne.
    + rewrite length_drop. cbn [length] in Hfuel. lia.
Qed.

(** When [write_installer] completes, the output file is the encoded
    header followed by the executable and the tarball. *)
Lemma write_installer_ok shar_path header conda_exec tarball exec_file tar_file w u w' :
  files w !! conda_exec = Some exec_file -> files w !! tarball = Some tar_file ->
  shar_path <> conda_exec -> shar_path <> tarball ->
  write_installer shar_path header conda_exec tarball w = (Ok u, w') ->
  files w' !! shar_path = Some (encode_utf8 header ++ exec_file ++ tar_file).
Proof.
  intros He Ht Hne1 Hne2. unfold write_installer. intros H.
  apply bind_ok in H as ([] & w1 & H1 & H). apply fs_write_ok in H1.
  apply bind_ok in H as ([] & w2 & H2 & H). apply fs_append_ok in H2.
  rewrite H1, lookup_insert_eq in H2. cbn [default app] in H2.
  rewrite insert_insert_eq in H2.
  cbn [forM] in H. unfold copy_payload at 1 2 in H.
  apply bind_ok in H as ([] & w3 & H3 & H).
  apply bind_ok in H3 as (fi & w2' & Hr & H3). apply fs_read_ok in Hr as [Hf Hfi].
  rewrite H2, lookup_insert_ne, He in Hfi by congruence. injection Hfi as <-.
  eapply copy_chunks_ok in H3; [|lia|rewrite Hf, H2; apply lookup_insert_eq].
  destruct H3 as [H3 H3'].
  apply bind_ok in H as ([] & w4 & H4 & H). injection H as <- <-.
  apply bind_ok in H4 as (fi & w3' & Hr & H4). apply fs_read_ok in Hr as [Hf' Hfi].
  rewrite H3', Hf, H2, lookup_insert_ne, Ht in Hfi by congruence. injection Hfi as <-.
  eapply copy_chunks_ok in H4; [|lia|rewrite Hf'; exact H3].
  destruct H4 as [H4 _]. rewrite H4. now rewrite <- app_assoc.
Qed.

(** *** What the phases before the output leave alone

    [leaves path R m]: whatever [m] does and however it ends, the file at
    [path] is as it was, and a result of [m] satisfies [R]. *)
Definition leaves {A} (path : str) (R : A -> Prop) (m : M A) : Prop :=
  forall w r w', m w = (r, w') ->
    files w' !! path = files w !! path /\ forall a, r = Ok a -> R a.





Lemma leaves_weaken {A} (path : str) (R R' : A -> Prop) (m : M A) :
  (forall a, R a -> R' a) -> leaves path R m -> leaves path R' m.
Proof.
  intros HR Hm w r w' E. destruct (Hm _ _ _ E) as [Hf Ha]. split; [exact Hf|].
  intros a Hr. apply HR, Ha, Hr.
Qed.

















(** *** The output file while it is written

    An access that fails leaves the files as they are. *)
Lemma io_files path w r w' : io path w = (r, w') -> files w' = files w.
Proof. unfold io. destruct (decide _); now intros [= <- <-]. Qed.

Lemma fs_write_cases path f w r w' :
  fs_write path f w = (r, w') ->
  (r = Ok () /\ files w' = <[path := f]> (files w))
  \/ ((exists e, r = Err e) /\ files w' = files w).
Proof.
  unfold fs_write, bind. destruct (io path w) as [[[]|e] w1] eqn:E;
    apply io_files in E; intros [= <- <-].
  - left. cbn. now rewrite E.
  - right. split; [now exists e|exact E].
Qed.

Lemma fs_append_cases path bytes w r w' :
  fs_append path bytes w = (r, w') ->
  (r = Ok () /\ files w' = <[path := default [] (files w !! path) ++ bytes]> (files w))
  \/ ((exists e, r = Err e) /\ files w' = files w).
Proof.
  unfold fs_append, bind. destruct (io path w) as [[[]|e] w1] eqn:E;
    apply io_files in E; intros [= <- <-].
  - left. cbn. now rewrite E.
  - right. split; [now exists e|exact E].
Qed.

Lemma fs_read_cases path w r w' :
  fs_read path w = (r, w') ->
  files w' = files w /\ forall f, r = Ok f -> files w !! path = Some f.
Proof.
  unfold fs_read, bind, lift, read_file. destruct (io path w) as [[[]|e] w1] eqn:E;
    apply io_files in E; intros [= <- <-]; (split; [exact E|]); [|discriminate].
  rewrite E. intros f. destruct (files w !! path); [now intros [= ->]|discriminate].
Qed.

(** However the chunked copy ends, the output file has grown by a prefix
    of the payload, and no other file has changed. *)
Lemma copy_chunks_prefix fuel payload shar_path : forall fi w r w' x,
  files w !! shar_path = Some x ->
  copy_chunks fuel payload fi shar_path w = (r, w') ->
  (exists p, p `prefix_of` fi /\ files w' !! shar_path = Some (x ++ p))
  /\ forall q, q <> shar_path -> files w' !! q = files w !! q.
Proof.
  induction fuel as [|fuel IH]; intros fi w r w' x Hx; cbn [copy_chunks].
  - intros [= <- <-]. split; [|reflexivity].
    exists []. split; [apply prefix_nil|now rewrite app_nil_r].
  - unfold bind at 1. destruct (io payload w) as [[[]|e] w1] eqn:E;
      apply io_files in E.
    2:{ intros [= <- <-]. rewrite E. split; [|reflexivity].
        exists []. split; [apply prefix_nil|now rewrite app_nil_r]. }
    destruct (take (N.to_nat 262144) fi) as [|b chunk] eqn:Hchunk.
    { intros [= <- <-]. rewrite E. split; [|reflexivity].
      exists []. split; [apply prefix_nil|now rewrite app_nil_r]. }
    unfold bind. destruct (fs_append shar_path (b :: chunk) w1) as [[[]|e] w2] eqn:E2;
      apply fs_append_cases in E2 as [[Hr E2]|[[e' Hr] E2]]; try discriminate Hr.
    2:{ intros [= <- <-]. rewrite E2, E. split; [|reflexivity].
        exists []. split; [apply prefix_nil|now rewrite app_nil_r]. }
    rewrite E, Hx in E2. cbn [default] in E2. intros H.
    eapply IH in H; [|rewrite E2; apply lookup_insert_eq].
    destruct H as [(p & Hp & Hfile) Hrest]. split.
    + exists (b :: chunk ++ p). split.
      * rewrite <- (take_drop (N.to_nat 262144) fi), Hchunk.
        destruct Hp as [k Hk]. exists k. rewrite Hk. cbn. now rewrite <- app_assoc.
      * rewrite Hfile. f_equal. now rewrite <- app_assoc.
    + intros q Hq. rewrite (Hrest q Hq), E2. now rewrite lookup_insert_ne.
Qed.

Lemma copy_payload_prefix shar_path payload : forall fi w r w' x,
  payload <> shar_path ->
  files w !! shar_path = Some x ->
  files w !! payload = Some fi ->
  copy_payload shar_path () payload w = (r, w') ->
  (exists p, p `prefix_of` fi /\ files w' !! shar_path = Some (x ++ p)
             /\ (r = Ok () -> p = fi))
  /\ forall q, q <> shar_path -> files w' !! q = files w !! q.
Proof.
  intros fi w r w' x Hne Hx Hfi. unfold copy_payload, bind.
  destruct (fs_read payload w) as [[fi'|e] w1] eqn:E;
    apply fs_read_cases in E as [E Hread].
  - specialize (Hread fi' eq_refl). rewrite Hfi in Hread. injection Hread as <-.
    intros H. pose proof H as H'.
    apply copy_chunks_prefix with (x := x) in H; [|now rewrite E].
    destruct H as [(p & Hp & Hfile) Hrest]. split.
    + exists p. split; [exact Hp|]. split; [exact Hfile|]. intros ->.
      apply copy_chunks_ok with (x := x) in H'; [|lia|now rewrite E].
      destruct H' as [H' _]. rewrite Hfile in H'. injection H' as H'.
      now apply app_inv_head in H'.
    + intros q Hq. now rewrite (Hrest q Hq), E.
  - intros [= <- <-]. rewrite E. split; [|reflexivity].
    exists []. split; [apply prefix_nil|]. split; [now rewrite app_nil_r|discriminate].
Qed.

(** X17: lines 171 to 179 write into the output path itself.  When the
    open of line 171 fails, the files are as they were; otherwise what is at
    the output path afterwards, however the copy ends, is a prefix of the
    encoded header followed by the executable and the tarball, and the
    whole of it when the copy completes. *)
Lemma write_installer_prefix shar_path header conda_exec tarball exec_file tar_file w r w' :
  files w !! conda_exec = Some exec_file -> files w !! tarball = Some tar_file ->
  shar_path <> conda_exec -> shar_path <> tarball ->
  write_installer shar_path header conda_exec tarball w = (r, w') ->
  (files w' = files w /\ exists e, r = Err e)
  \/ exists p, p `prefix_of` (encode_utf8 header ++ exec_file ++ tar_file)
       /\ files w' !! shar_path = Some p
       /\ (r = Ok () -> p = encode_utf8 header ++ exec_file ++ tar_file).
Proof.
  intros He Ht Hne1 Hne2. unfold write_installer. unfold bind at 1.
  destruct (fs_write shar_path [] w) as [[[]|e] w1] eqn:E1;
    apply fs_write_cases in E1 as [[Hr E1]|[[e' Hr] E1]]; try discriminate Hr.
  2:{ intros [= <- <-]. left. split; [exact E1|now exists e]. }
  right. revert H. unfold bind at 1.
  destruct (fs_append shar_path (encode_utf8 header) w1) as [[[]|e] w2] eqn:E2;
    apply fs_append_cases in E2 as [[Hr2 E2]|[[e' Hr2] E2]]; try discriminate Hr2.
  2:{ intros [= <- <-]. exists []. split; [apply prefix_nil|].
      split; [rewrite E2, E1; apply lookup_insert_eq|discriminate]. }
  rewrite E1, lookup_insert_eq in E2. cbn [default app] in E2.
  rewrite insert_insert_eq in E2.
  cbn [forM]. unfold bind at 1.
  destruct (copy_payload shar_path () conda_exec w2) as [[[]|e] w3] eqn:E3.
  - apply copy_payload_prefix with (fi := exec_file) (x := encode_utf8 header) in E3;
      [|congruence|rewrite E2; apply lookup_insert_eq
       |rewrite E2, lookup_insert_ne by congruence; exact He].
    destruct E3 as [(p1 & _ & Hfile3 & Hall3) Hrest3]. rewrite (Hall3 eq_refl) in Hfile3.
    unfold bind at 1.
    destruct (copy_payload shar_path () tarball w3) as [[[]|e] w4] eqn:E4;
      apply copy_payload_prefix
        with (fi := tar_file) (x := encode_utf8 header ++ exec_file) in E4;
      try congruence; try exact Hfile3;
      try (rewrite Hrest3, E2, lookup_insert_ne by congruence; exact Ht).
    + destruct E4 as [(p2 & _ & Hfile4 & Hall4) _]. rewrite (Hall4 eq_refl) in Hfile4.
      intros [= <- <-]. exists (encode_utf8 header ++ exec_file ++ tar_file).
      split; [reflexivity|]. split; [now rewrite Hfile4, <- app_assoc|reflexivity].
    + destruct E4 as [(p2 & [k Hk] & Hfile4 & _) _].
      intros [= <- <-]. exists ((encode_utf8 header ++ exec_file) ++ p2).
      split; [exists k; rewrite Hk; now rewrite <- !app_assoc|].
      split; [exact Hfile4|discriminate].
  - apply copy_payload_prefix with (fi := exec_file) (x := encode_utf8 header) in E3;
      [|congruence|rewrite E2; apply lookup_insert_eq
       |rewrite E2, lookup_insert_ne by congruence; exact He].
    destruct E3 as [(p1 & [k Hk] & Hfile3 & _) _].
    intros [= <- <-]. exists (encode_utf8 header ++ p1).
    split; [exists (k ++ tar_file); rewrite Hk; now rewrite <- !app_assoc|].
    split; [exact Hfile3|discriminate].
Qed.

(** *** The repodata documents

    [fails m]: [m] never returns. *)
Definition fails {A} (m : M A) : Prop := forall w, is_ok (fst (m w)) = false.

Lemma fails_raise {A} e : fails (@raise A e).
Proof. intros w. reflexivity. Qed.

Lemma fails_bind_l {A B} (m : M A) (k : A -> M B) : fails m -> fails (bind m k).
Proof.
  intros Hm w. specialize (Hm w). unfold bind.
  destruct (m w) as [[a|e] w1]; [discriminate Hm|reflexivity].
Qed.

Lemma fails_bind_r {A B} (m : M A) (k : A -> M B) :
  (forall a, fails (k a)) -> fails (bind m k).
Proof.
  intros Hk w. unfold bind. destruct (m w) as [[a|e] w1]; [apply Hk|reflexivity].
Qed.

(** With no [t] in its scope, [add_repodata] writes [repodata.json] and
    stops at line 95. *)
Lemma add_repodata_unbound fn_dict subdir w :
  fst (add_repodata None fn_dict subdir w) = Err (NameError (py "t"))
  \/ fst (add_repodata None fn_dict subdir w) = Err (IOError (py "repodata.json")).
Proof.
  unfold add_repodata, fs_write, bind, io.
  destruct (decide (fault w = Some (clock w))); [now right|now left].
Qed.

Lemma add_repodata_fails fn_dict subdir : fails (add_repodata None fn_dict subdir).
Proof.
  intros w. destruct (add_repodata_unbound fn_dict subdir w) as [H|H]; now rewrite H.
Qed.

Lemma add_all_repodata_fails items : fails (add_all_repodata None items).
Proof.
  unfold add_all_repodata. destruct items as [|[subdir fn_dict] items].
  - intros w. cbn [forM]. unfold bind at 1, ret. cbn [fst snd].
    apply add_repodata_fails.
  - apply fails_bind_l. cbn [forM]. apply fails_bind_l.
    unfold add_repodata_step. apply fails_bind_l, add_repodata_fails.
Qed.

Lemma build_master_fails info tmp_dir staged :
  fails (build_master None info tmp_dir staged).
Proof.
  unfold build_master. destruct staged as [pre post].
  do 6 (apply fails_bind_r; intros ?).
  match goal with |- fails (let '(_, _) := ?st in _) => destruct st as [t items] end.
  apply fails_bind_l, add_all_repodata_fails.
Qed.

Lemma create_fails info : fails (create info).
Proof.
  unfold create, create_in. apply fails_bind_l. unfold prepare.
  do 2 (apply fails_bind_r; intros ?). apply fails_bind_l, build_master_fails.
Qed.

(** X18: [add_repodata] names [t], which no scope it can see binds: when
    [repodata.json] is written the call stops with [NameError], and
    [create], which calls it on every path through lines 159 to 165, never
    returns. *)
Theorem create_never_returns info w :
  is_ok (fst (create info w)) = false
  /\ forall fn_dict subdir w0,
       fst (add_repodata module_t fn_dict subdir w0) = Err (NameError (py "t"))
       \/ fst (add_repodata module_t fn_dict subdir w0)
          = Err (IOError (py "repodata.json")).
Proof. split; [apply create_fails|apply add_repodata_unbound]. Qed.





(** The subdir of a URL that line 143 takes as local. *)
Definition local_subdir (url : str) : option str :=
  if startswith (py "file://") url then
    match rsplit2 "/"%char url with
    | [_; subdir; _] => Some subdir
    | _ => None
    end
  else None.

(** X20: lines 141 to 157: when the loop completes, the subdirs of
    [local_subdir_repodata] are those it had and those of the URLs that
    start with [file://]. *)
Lemma add_local_subdirs download_dir urls : forall t items w t' items' w',
  forM (add_local download_dir) urls (t, items) w = (Ok (t', items'), w') ->
  forall subdir,
    subdir ∈ items'.*1 <->
    subdir ∈ items.*1 \/ exists um, um ∈ urls /\ local_subdir (fst um) = Some subdir.
Proof.
  induction urls as [|[url md5] urls IH]; intros t items w t' items' w'; cbn [forM].
  - intros [= <- <- <-] subdir. split; [now left|]. intros [H|(um & H & _)]; [exact H|].
    now apply elem_of_nil in H.
  - intros H subdir. apply bind_ok in H as ([t1 items1] & w1 & Hstep & H).
    rewrite (IH _ _ _ _ _ _ H subdir). clear IH H.
    assert (Hkeys : subdir ∈ items1.*1 <->
                    subdir ∈ items.*1 \/ local_subdir url = Some subdir).
    { unfold add_local, local_subdir in *. cbn [fst] in *.
      destruct (startswith (py "file://") url).
      - destruct (rsplit2 "/"%char url) as [|a [|sd [|fn [|x l]]]]; try discriminate Hstep.
        apply bind_ok in Hstep as (t0 & w0 & _ & Hstep).
        apply bind_ok in Hstep as (f & w2 & _ & Hstep).
        destruct (json_load f) as [repodata|e]; [|discriminate Hstep].
        destruct (snd (if endswith (py ".conda") fn
                       then (py "packages.conda", snd repodata)
                       else (py "packages", fst repodata))) as [entries|];
          [|discriminate Hstep].
        destruct (dict_get entries fn); [|discriminate Hstep].
        injection Hstep as <- <- <-. rewrite dict_set_keys.
        split; [intros [->|H]; [now right|now left]|].
        intros [H|[= ->]]; [now right|now left].
      - injection Hstep as <- <- <-. split; [now left|]. now intros [H|H]. }
    rewrite Hkeys. split.
    + intros [[H|H]|(um & Hin & Hum)]; [now left| |].
      * right. exists (url, md5). split; [apply elem_of_cons; now left|exact H].
      * right. exists um. split; [apply elem_of_cons; now right|exact Hum].
    + intros [H|(um & Hin & Hum)]; [now left; left|].
      apply elem_of_cons in Hin as [->|Hin]; [left; now right|].
      right. now exists um.
Qed.

End Create.

(** *** Facts about the numeric substitutions *)

Lemma embed_sizes_unfold data E T :
  embed_sizes data E T =
  if (len (after_tarball data E T) + E + T =? total_size data E T)%N
  then Ok (after_tarball data E T) else Err AssertionError.
Proof. reflexivity. Qed.

Lemma py_nonempty s : (0 <? String.length s) = true -> py s <> [].
Proof. destruct s; simpl; [discriminate|]. intros _; discriminate. Qed.

(** The sizes fit the digit widths of the format. *)
Definition widths_fit (data : str) (E T : N) : Prop :=
  (E < 10 ^ 20)%N /\ (T < 10 ^ 20)%N /\ (len data < 10 ^ 18)%N.

Lemma after_first_length data E :
  (E < 10 ^ 20)%N -> length (after_first data E) = length data.
Proof.
  intros HE. unfold after_first.
  apply replace_same_length; [now apply py_nonempty|].
  now rewrite fmt_0d_length.
Qed.

Lemma after_non_payload_length data E :
  (E < 10 ^ 20)%N -> (len data < 10 ^ 18)%N ->
  length (after_non_payload data E) = length data.
Proof.
  intros HE Hd. unfold after_non_payload.
  rewrite replace_same_length; [now apply after_first_length|now apply py_nonempty|].
  rewrite fmt_0d_length; [reflexivity|discriminate|].
  unfold len in *. now rewrite after_first_length.
Qed.

Lemma payload_offset_fits data E :
  (E < 10 ^ 20)%N -> (len data < 10 ^ 18)%N ->
  (payload_offset data E = len data + E)%N /\ (payload_offset data E < 10 ^ 22)%N.
Proof.
  intros HE Hd. unfold payload_offset, len in *.
  rewrite after_non_payload_length by assumption. split; [reflexivity|].
  change (10 ^ 22)%N with (100 * 10 ^ 20)%N.
  change (10 ^ 18)%N with 1000000000000000000%N in Hd.
  change (10 ^ 20)%N with 100000000000000000000%N in *. lia.
Qed.

(** The one substitution that is not padded: every occurrence of
    [@TOTAL_SIZE_BYTES@] trades 18 characters for the digits of the total. *)
Lemma after_total_length data E T :
  length (after_total data E T)
  + 18 * count (after_non_payload data E) (py "@TOTAL_SIZE_BYTES@")
  = length (after_non_payload data E)
  + count (after_non_payload data E) (py "@TOTAL_SIZE_BYTES@")
    * length (str_of_int (total_size data E T)).
Proof.
  unfold after_total.
  pose proof (replace_length (after_non_payload data E) (py "@TOTAL_SIZE_BYTES@")
                (str_of_int (total_size data E T))) as H.
  change (length (py "@TOTAL_SIZE_BYTES@")) with 18 in H.
  rewrite <- H by (now apply py_nonempty). lia.
Qed.

Lemma after_tarball_length data E T :
  (E < 10 ^ 20)%N -> (T < 10 ^ 20)%N -> (len data < 10 ^ 18)%N ->
  length (after_tarball data E T) = length (after_total data E T).
Proof.
  intros HE HT Hd. unfold after_tarball, after_offset.
  rewrite replace_same_length;
    [|now apply py_nonempty|now rewrite fmt_0d_length].
  apply replace_same_length; [now apply py_nonempty|].
  rewrite fmt_0d_length; [reflexivity|discriminate|].
  now apply payload_offset_fits.
Qed.

(** When the build passes the assertion of line 78. *)
Lemma embed_sizes_ok_iff data E T :
  widths_fit data E T ->
  is_ok (embed_sizes data E T) = true <->
  count (after_non_payload data E) (py "@TOTAL_SIZE_BYTES@") = 0
  \/ length (str_of_int (total_size data E T)) = 18.
Proof.
  intros (HE & HT & Hd). rewrite embed_sizes_unfold.
  pose proof (after_total_length data E T) as Ht.
  pose proof (after_tarball_length data E T HE HT Hd) as Hl.
  pose proof (after_non_payload_length data E HE Hd) as Hn.
  destruct (N.eqb_spec (len (after_tarball data E T) + E + T) (total_size data E T))
    as [Heq|Hne]; cbn [is_ok].
  - split; [intros _|reflexivity].
    unfold total_size, payload_offset, len in Heq.
    destruct (count (after_non_payload data E) (py "@TOTAL_SIZE_BYTES@")) as [|c];
      [now left|right].
    assert (18 * S c = S c * length (str_of_int (total_size data E T))) by lia.
    nia.
  - split; [discriminate|]. intros Hc. exfalso. apply Hne.
    unfold total_size, payload_offset, len.
    destruct Hc as [Hc|Hc]; rewrite Hc in Ht; f_equal; lia.
Qed.

(** C2: with sizes that fit the widths, four of the five numeric
    substitutions put a zero-padded field of the width of its placeholder in
    its place and keep the length of the header; the total size is written
    as [str(n)], without padding, so each of its placeholders trades 18
    characters for the digits of the total. *)
Theorem numeric_substitutions_lengths data E T :
  widths_fit data E T ->
  (length (fmt_0d 20 E) = length (py "@FIRST_PAYLOAD_SIZE@")
   /\ length (after_first data E) = length data)
  /\ (length (fmt_0d 18 (len (after_first data E))) = length (py "@NON_PAYLOAD_SIZE@")
      /\ length (after_non_payload data E) = length (after_first data E))
  /\ (length (fmt_0d 22 (payload_offset data E)) = length (py "@PAYLOAD_OFFSET_BYTES@")
      /\ length (after_offset data E T) = length (after_total data E T))
  /\ (length (fmt_0d 20 T) = length (py "@TARBALL_SIZE_BYTES@")
      /\ length (after_tarball data E T) = length (after_offset data E T))
  /\ length (after_total data E T)
     + 18 * count (after_non_payload data E) (py "@TOTAL_SIZE_BYTES@")
     = length (after_non_payload data E)
       + count (after_non_payload data E) (py "@TOTAL_SIZE_BYTES@")
         * length (str_of_int (total_size data E T))
  /\ embed_sizes data E T
     = if (len (after_tarball data E T) + E + T =? total_size data E T)%N
       then Ok (after_tarball data E T) else Err AssertionError.
Proof.
  intros (HE & HT & Hd).
  pose proof (after_first_length data E HE) as H1.
  pose proof (after_non_payload_length data E HE Hd) as H2.
  pose proof (payload_offset_fits data E HE Hd) as [_ Hoff].
  assert (Hpad1 : length (fmt_0d 20 E) = 20) by now rewrite fmt_0d_length.
  assert (Hpad2 : length (fmt_0d 18 (len (after_first data E))) = 18).
  { rewrite fmt_0d_length; [reflexivity|discriminate|].
    unfold len in *. now rewrite H1. }
  assert (Hpad3 : length (fmt_0d 22 (payload_offset data E)) = 22)
    by now rewrite fmt_0d_length.
  assert (Hpad4 : length (fmt_0d 20 T) = 20) by now rewrite fmt_0d_length.
  split; [split; [exact Hpad1|exact H1]|].
  split; [split; [exact Hpad2|congruence]|].
  split.
  { split; [exact Hpad3|]. unfold after_offset.
    apply replace_same_length; [now apply py_nonempty|exact Hpad3]. }
  split.
  { split; [exact Hpad4|]. unfold after_tarball.
    apply replace_same_length; [now apply py_nonempty|exact Hpad4]. }
  split; [apply after_total_length|apply embed_sizes_unfold].
Qed.

Lemma numeric_substitutions_lengths_witness :
  widths_fit (py "size=@TARBALL_SIZE_BYTES@") 7 9
  /\ after_tarball (py "size=@TARBALL_SIZE_BYTES@") 7 9 = py "size=00000000000000000009"
  /\ length (after_tarball (py "size=@TARBALL_SIZE_BYTES@") 7 9)
     = length (after_offset (py "size=@TARBALL_SIZE_BYTES@") 7 9).
Proof.
  assert (Hfit : widths_fit (py "size=@TARBALL_SIZE_BYTES@") 7 9)
    by (repeat split; reflexivity).
  split; [exact Hfit|]. split; [vm_compute; reflexivity|].
  exact (proj2 (proj1 (proj2 (proj2 (proj2
           (numeric_substitutions_lengths (py "size=@TARBALL_SIZE_BYTES@") 7 9 Hfit)))))).
Defined.

(** The total size is not padded: a header that is the placeholder alone,
    with empty payloads, has 18 characters before line 75 and 2 after it. *)
Lemma total_size_is_not_padded :
  widths_fit (py "@TOTAL_SIZE_BYTES@") 0 0
  /\ length (py "@TOTAL_SIZE_BYTES@") = 18
  /\ length (after_non_payload (py "@TOTAL_SIZE_BYTES@") 0) = 18
  /\ str_of_int (total_size (py "@TOTAL_SIZE_BYTES@") 0 0) = py "18"
  /\ after_total (py "@TOTAL_SIZE_BYTES@") 0 0 = py "18"
  /\ length (after_total (py "@TOTAL_SIZE_BYTES@") 0 0) = 2.
Proof. repeat split; vm_compute; reflexivity. Qed.

(** *** The size of the installer *)

Lemma getsize_file (fs : filesystem) path f :
  fs !! path = Some f -> getsize fs path = Ok (N.of_nat (length f)).
Proof. intros H. unfold getsize, read_file. now rewrite H. Qed.

Section Installer.

Variable ns_platform : str -> list (str * pyval).
Variable add_condarc : Info -> list str.
Variable md5_files : list file -> str.
Variable read_ascii_only : file -> str.
Variable preprocess : str -> list (str * pyval) -> str.
Variable fill_template : str -> list (str * str) -> str.
Variable get_final_channels : Info -> list str.
Variable header_sh : str.

(** X14: [data] is the header when the content placeholders are filled,
    [E] and [T] the sizes of the executable and of the tarball, within the
    widths.  [get_header] returns exactly when the header holds no
    [@TOTAL_SIZE_BYTES@] at line 75 or the total has 18 digits, and stops
    at the assertion of line 78 otherwise.  When it returns [H], the total
    [n] written for [@TOTAL_SIZE_BYTES@] is [len(H) + E + T], and the
    installer that lines 171 to 179 write for an ASCII header has [n]
    bytes. *)
Theorem installer_total_size fs conda_exec tarball info data exec_file tar_file :
  render_content ns_platform add_condarc md5_files read_ascii_only preprocess
    fill_template get_final_channels header_sh fs conda_exec tarball info = Ok data ->
  fs !! conda_exec = Some exec_file ->
  fs !! tarball = Some tar_file ->
  widths_fit data (N.of_nat (length exec_file)) (N.of_nat (length tar_file)) ->
  let E := N.of_nat (length exec_file) in
  let T := N.of_nat (length tar_file) in
  let n := total_size data E T in
  get_header ns_platform add_condarc md5_files read_ascii_only preprocess
    fill_template get_final_channels header_sh fs conda_exec tarball info
  = (if bool_decide (count (after_non_payload data E) (py "@TOTAL_SIZE_BYTES@") = 0
                     \/ length (str_of_int n) = 18)
     then Ok (after_tarball data E T) else Err AssertionError)
  /\ after_total data E T
     = replace (after_non_payload data E) (py "@TOTAL_SIZE_BYTES@") (str_of_int n)
  /\ forall H,
       get_header ns_platform add_condarc md5_files read_ascii_only preprocess
         fill_template get_final_channels header_sh fs conda_exec tarball info = Ok H ->
       H = after_tarball data E T
       /\ (len H + E + T = n)%N
       /\ forall shar_path w u w',
            is_ascii H = true -> files w = fs ->
            shar_path <> conda_exec -> shar_path <> tarball ->
            write_installer shar_path H conda_exec tarball w = (Ok u, w') ->
            exists f, files w' !! shar_path = Some f /\ N.of_nat (length f) = n.
Proof.
  intros Hdata He Ht Hfit E T n.
  assert (Hget : get_header ns_platform add_condarc md5_files read_ascii_only preprocess
                   fill_template get_final_channels header_sh fs conda_exec tarball info
                 = embed_sizes data E T).
  { unfold get_header. rewrite Hdata, (getsize_file _ _ _ He), (getsize_file _ _ _ Ht).
    reflexivity. }
  pose proof (embed_sizes_ok_iff data E T Hfit) as Hiff.
  split; [|split; [reflexivity|]].
  - rewrite Hget. rewrite embed_sizes_unfold in *.
    destruct (len (after_tarball data E T) + E + T =? total_size data E T)%N;
      cbn [is_ok] in Hiff.
    + rewrite bool_decide_eq_true_2; [reflexivity|]. now apply Hiff.
    + rewrite bool_decide_eq_false_2; [reflexivity|]. intros Hc.
      apply Hiff in Hc. discriminate Hc.
  - intros H HH. rewrite Hget, embed_sizes_unfold in HH.
    destruct (N.eqb_spec (len (after_tarball data E T) + E + T) (total_size data E T))
      as [Heq|Hne]; [|discriminate HH].
    injection HH as <-. split; [reflexivity|]. split; [exact Heq|].
    intros shar_path w u w' Hascii Hw Hne1 Hne2 Hwrite. subst fs.
    pose proof (write_installer_ok _ _ _ _ _ _ _ _ _ He Ht Hne1 Hne2 Hwrite) as Hfile.
    eexists. split; [exact Hfile|].
    rewrite !length_app, (encode_utf8_ascii _ Hascii).
    unfold n. rewrite <- Heq. unfold len, E, T. lia.
Qed.

End Installer.

(** *** The staged tarballs *)







Section Staging.

Variable preconda_files : list str.
Variable preconda_write_files : Info -> str -> M unit.
Variable tar_encode : bool -> list (str * file) -> file.
Variable filename_dist : str -> str.




End Staging.

(** *** A required file that is missing *)

(** The world after one access that did not fail. *)
Definition tick (w : World) : World :=
  {| files := files w; modes := modes w; clock := S (clock w); fault := fault w |}.

Lemma io_no_fault path w : fault w = None -> io path w = (Ok (), tick w).
Proof.
  intros H. unfold io. destruct (decide (fault w = Some (clock w))) as [E|_];
    [congruence|reflexivity].
Qed.

(** Neither a file nor a directory. *)
Definition absent (fs : filesystem) (path : str) : Prop :=
  fs !! path = None
  /\ forall k f, fs !! k = Some f -> startswith (path ++ py "/") k = false.

Lemma filter_false {A} (f : A -> bool) (l : list A) :
  (forall x, x ∈ l -> f x = false) -> List.filter f l = [].
Proof.
  induction l as [|a l IH]; intros H; [reflexivity|].
  cbn. rewrite (H a) by (now left). apply IH. intros x Hx. apply H. now right.
Qed.

Lemma absent_below fs path : absent fs path -> below path fs = [].
Proof.
  intros [_ H]. unfold below. apply filter_false. intros [k f] Hk.
  apply elem_of_map_to_list in Hk. cbn. now apply (H k f).
Qed.

Lemma absent_insert fs path k f :
  absent fs path -> path <> k -> startswith (path ++ py "/") k = false ->
  absent (<[k := f]> fs) path.
Proof.
  intros [Hfile Hdir] Hne Hk. split; [now rewrite lookup_insert_ne|].
  intros k' f' Hk'. destruct (decide (k = k')) as [<-|Hne']; [exact Hk|].
  rewrite lookup_insert_ne in Hk' by exact Hne'. now apply (Hdir k' f').
Qed.

Lemma tar_add_file t name arcname f w :
  fault w = None -> files w !! name = Some f ->
  tar_add t name arcname w = (Ok (with_members t [(arcname, f)]), tick w).
Proof.
  intros Hf Hname. unfold tar_add, bind. rewrite (io_no_fault _ _ Hf).
  cbn [files tick]. now rewrite Hname.
Qed.

(** [t.add(name, ...)] on a path that is neither a file nor a directory. *)
Lemma tar_add_absent t name arcname w :
  fault w = None -> absent (files w) name ->
  tar_add t name arcname w = (Err (FileNotFoundError name), tick w).
Proof.
  intros Hf Habs. unfold tar_add, bind. rewrite (io_no_fault _ _ Hf).
  cbn [files tick]. rewrite (proj1 Habs), (absent_below _ _ Habs). reflexivity.
Qed.

Lemma tar_open_no_fault name compressed w :
  fault w = None ->
  tar_open name compressed w
  = (Ok {| tar_name := name; tar_compressed := compressed; tar_members := [] |},
     set_files (tick w) (<[name := []]> (files w))).
Proof.
  intros Hf. unfold tar_open, fs_write, bind, ret. rewrite (io_no_fault _ _ Hf).
  reflexivity.
Qed.

Section MissingFile.

Variable tar_encode : bool -> list (str * file) -> file.
Variable json : Type.
Variable json_load : file -> result (option (list (str * json)) * option (list (str * json))).
Variable json_dump : str -> list (str * json) -> list (str * json) -> file.
Variable filename_dist : str -> str.

(** X15: when no access to the file system fails and the two staged
    tarballs are there, a license file that is neither a file nor a
    directory ends lines 131 to 136 with [FileNotFoundError] for its path,
    before any package is added and before [add_repodata] is reached. *)
Theorem build_master_missing_license scope_t info tmp_dir pre post license fpre fpost w :
  fault w = None ->
  info_license_file info = Some license ->
  files w !! pre = Some fpre -> files w !! post = Some fpost ->
  pre <> path_join tmp_dir (py "tmp.tar") ->
  post <> path_join tmp_dir (py "tmp.tar") ->
  absent (files w) license ->
  license <> path_join tmp_dir (py "tmp.tar") ->
  startswith (license ++ py "/") (path_join tmp_dir (py "tmp.tar")) = false ->
  fst (build_master tar_encode json json_load json_dump filename_dist scope_t info tmp_dir
         (pre, post) w)
  = Err (FileNotFoundError license).
Proof.
  intros Hf Hlic Hpre Hpost Hne1 Hne2 Habs Hne3 Hdir.
  unfold build_master. rewrite Hlic.
  unfold bind at 1. rewrite (tar_open_no_fault _ _ _ Hf).
  set (w1 := set_files (tick w) _).
  assert (Hf1 : fault w1 = None) by exact Hf.
  unfold bind at 1. rewrite (tar_add_file _ pre _ fpre w1 Hf1)
    by (cbn; now rewrite lookup_insert_ne).
  assert (Hf2 : fault (tick w1) = None) by exact Hf.
  unfold bind at 1. rewrite (tar_add_file _ post _ fpost (tick w1) Hf2)
    by (cbn; now rewrite lookup_insert_ne).
  assert (Hf3 : fault (tick (tick w1)) = None) by exact Hf.
  unfold bind at 1. unfold bind at 1.
  rewrite (tar_add_absent _ license _ (tick (tick w1)) Hf3); [reflexivity|].
  cbn [files tick w1 set_files]. now apply absent_insert.
Qed.

End MissingFile.

Lemma build_master_missing_license_witness :
  fst (build_master (fun _ ms => flat_map snd ms) file
         (fun _ => Ok (Some [], Some [])) (fun _ _ _ => []) id None
         {| info_name := py "Demo"; info_version := py "1.0"; info_channels := None;
            info_specs := None; info_exclude := None; info_packages := None;
            info_menu_packages := None; info_install_in_dependency_order := None;
            info_default_prefix := None; info_license_file := Some (py "/src/LICENSE");
            info_pre_install := None; info_post_install := None;
            info_keep_pkgs := None; info_attempt_hardlinks := None;
            info_initialize_by_default := None; info__platform := py "linux-64";
            info__download_dir := py "/cache"; info__conda_exe := py "/opt/conda.exe";
            info__outpath := py "/out/installer.sh";
            info__dists := []; info__urls := [] |}
         (py "/tmp/build")
         (py "/tmp/build/preconda.tar.bz2", py "/tmp/build/postconda.tar.bz2")
         {| files := {[ py "/tmp/build/preconda.tar.bz2" := [1]%N;
                        py "/tmp/build/postconda.tar.bz2" := [2]%N ]};
            modes := ∅; clock := 0; fault := None |})
  = Err (FileNotFoundError (py "/src/LICENSE")).
Proof.
  apply (build_master_missing_license (fun _ ms => flat_map snd ms) file
           (fun _ => Ok (Some [], Some [])) (fun _ _ _ => []) id None _
           (py "/tmp/build") (py "/tmp/build/preconda.tar.bz2")
           (py "/tmp/build/postconda.tar.bz2") (py "/src/LICENSE") [1]%N [2]%N).
  - reflexivity.
  - reflexivity.
  - vm_compute. reflexivity.
  - vm_compute. reflexivity.
  - vm_compute. discriminate.
  - vm_compute. discriminate.
  - split; [vm_compute; reflexivity|]. intros k f Hk. cbn [files] in Hk.
    apply lookup_insert_Some in Hk as [[<- _]|[_ Hk]]; [vm_compute; reflexivity|].
    apply lookup_singleton_Some in Hk as [<- _]. vm_compute. reflexivity.
  - vm_compute. discriminate.
  - vm_compute. reflexivity.
Defined.

(** *** The assembler on examples

    Stand-ins for the rest of the package: a template with no conditional
    block and no content placeholder, a scratch directory with a fixed
    name, a tar format that keeps the names and the contents. *)
Definition no_platform (_ : str) : list (str * pyval) := [].
Definition no_condarc (_ : Info) : list str := [].
Definition md5_of (_ : list file) : str := py "d41d8cd98f00b204e9800998ecf8427e".
Definition ascii_text (f : file) : str := map ascii_of_N f.
Definition keep_blocks (data : str) (_ : list (str * pyval)) : str := data.
Definition fill_nothing (data : str) (_ : list (str * str)) : str := data.
Definition channels_of (info : Info) : list str := default [] (info_channels info).
Definition one_record (f : file)
  : result (option (list (str * file)) * option (list (str * file))) :=
  Ok (Some [(py "zlib-1.2.11-0.tar.bz2", f)], Some []).


Definition example_info : Info :=
  {| info_name := py "Demo"; info_version := py "1.0"; info_channels := None;
     info_specs := None; info_exclude := None; info_packages := None;
     info_menu_packages := None; info_install_in_dependency_order := None;
     info_default_prefix := None; info_license_file := None;
     info_pre_install := None; info_post_install := None;
     info_keep_pkgs := None; info_attempt_hardlinks := None;
     info_initialize_by_default := None; info__platform := py "linux-64";
     info__download_dir := py "/cache"; info__conda_exe := py "/opt/conda.exe";
     info__outpath := py "/out/installer.sh";
     info__dists := [py "python-3.7.4-0.tar.bz2"];
     info__urls := [(py "https://repo.example/pkgs/linux-64/python-3.7.4-0.tar.bz2",
                     py "0123456789abcdef0123456789abcdef")] |}.



Definition example_template : str := py "#!/bin/sh tar=@TARBALL_SIZE_BYTES@".

Lemma installer_total_size_witness :
  get_header no_platform no_condarc md5_of ascii_text keep_blocks fill_nothing
    channels_of example_template
    {[ py "/opt/conda.exe" := [4; 5]%N; py "/tmp/build/tmp.tar" := [6; 7; 8]%N ]}
    (py "/opt/conda.exe") (py "/tmp/build/tmp.tar") example_info
  = Ok (py "#!/bin/sh tar=00000000000000000003").
Proof.
  pose proof (installer_total_size no_platform no_condarc md5_of ascii_text keep_blocks
                fill_nothing channels_of example_template
                {[ py "/opt/conda.exe" := [4; 5]%N; py "/tmp/build/tmp.tar" := [6; 7; 8]%N ]}
                (py "/opt/conda.exe") (py "/tmp/build/tmp.tar") example_info
                example_template [4; 5]%N [6; 7; 8]%N) as H.
  destruct H as [H _].
  - vm_compute. reflexivity.
  - vm_compute. reflexivity.
  - vm_compute. reflexivity.
  - repeat split; reflexivity.
  - rewrite H. vm_compute. reflexivity.
Defined.


(** The read of the tarball fails: the output path keeps the header and
    the executable. *)
Lemma write_installer_prefix_witness :
  let w := {| files := {[ py "/opt/conda.exe" := [4; 5]%N;
                          py "/tmp/build/tmp.tar" := [6; 7; 8]%N ]};
              modes := ∅; clock := 0; fault := Some 6 |} in
  let res := write_installer (py "/out/installer.sh") (py "#!") (py "/opt/conda.exe")
               (py "/tmp/build/tmp.tar") w in
  fst res = Err (IOError (py "/tmp/build/tmp.tar"))
  /\ files (snd res) !! py "/out/installer.sh" = Some [35; 33; 4; 5]%N
  /\ ((files (snd res) = files w /\ exists e, fst res = Err e)
      \/ exists p, p `prefix_of` (encode_utf8 (py "#!") ++ [4; 5]%N ++ [6; 7; 8]%N)
           /\ files (snd res) !! py "/out/installer.sh" = Some p
           /\ (fst res = Ok () -> p = encode_utf8 (py "#!") ++ [4; 5]%N ++ [6; 7; 8]%N)).
Proof.
  intros w res. split; [vm_compute; reflexivity|]. split; [vm_compute; reflexivity|].
  apply (write_installer_prefix (py "/out/installer.sh") (py "#!") (py "/opt/conda.exe")
           (py "/tmp/build/tmp.tar") [4; 5]%N [6; 7; 8]%N w (fst res) (snd res)).
  - vm_compute. reflexivity.
  - vm_compute. reflexivity.
  - vm_compute. discriminate.
  - vm_compute. discriminate.
  - apply surjective_pairing.
Defined.

Definition example_tar : TarFile :=
  {| tar_name := py "/tmp/build/tmp.tar"; tar_compressed := false; tar_members := [] |}.


Lemma add_local_subdirs_witness :
  exists t' items' w',
    forM (add_local file one_record (py "/cache"))
      [(py "file:///channel/linux-64/zlib-1.2.11-0.tar.bz2", py "");
       (py "https://repo.example/pkgs/noarch/six-1.0-0.tar.bz2", py "")]
      (example_tar, [])
      {| files := {[ py "/cache/zlib-1.2.11-0.tar.bz2" := [1]%N;
                     py "/channel/linux-64/repodata.json" := [2]%N ]};
         modes := ∅; clock := 0; fault := None |}
    = (Ok (t', items'), w')
    /\ py "linux-64" ∈ items'.*1.
Proof.
  assert (E : exists t1 items1 w1,
             forM (add_local file one_record (py "/cache"))
               [(py "file:///channel/linux-64/zlib-1.2.11-0.tar.bz2", py "");
                (py "https://repo.example/pkgs/noarch/six-1.0-0.tar.bz2", py "")]
               (example_tar, [])
               {| files := {[ py "/cache/zlib-1.2.11-0.tar.bz2" := [1]%N;
                              py "/channel/linux-64/repodata.json" := [2]%N ]};
                  modes := ∅; clock := 0; fault := None |}
             = (Ok (t1, items1), w1))
    by (do 3 eexists; vm_compute; reflexivity).
  destruct E as (t1 & items1 & w1 & E). exists t1, items1, w1. split; [exact E|].
  apply (add_local_subdirs file one_record (py "/cache") _ _ _ _ _ _ _ E (py "linux-64")).
  right. exists (py "file:///channel/linux-64/zlib-1.2.11-0.tar.bz2", py "").
  split; [apply elem_of_cons; now left|vm_compute; reflexivity].
Defined.


End Shar.
